(** * Director v3.3: workflow state machine, content transformer and
      content-generation stage

    A shallow embedding of
    - [src/workflows/state_machine.py]   (WorkflowOrchestrator),
    - [src/utils/content_transformer.py] (ContentTransformer),
    - [src/agents/director.py]           (layout selection, the strawman
                                          stages, the CONTENT_GENERATION
                                          branch and the request built for
                                          the text service),
    - [src/utils/text_service_client.py] (the request sent to the service),
    - [checkpoint_manager.py]            (the stage order),
    together with the properties stated about them. *)

From Stdlib Require Import ZArith List String Ascii Bool Lia.
From Stdlib Require Import Numbers.DecimalString.
From stdpp Require Import base list gmap.

Local Open Scope Z_scope.

(** ** Python values used by the code *)

Module Py.

(** A Python [str] is a sequence of Unicode code points; [len], slicing and
    indexing count code points, so a character is its code point. *)
Definition char := N.
Definition pystr := list char.

Definition str (s : string) : pystr :=
  map N_of_ascii (list_ascii_of_string s).

Definition len {A} (s : list A) : Z := Z.of_nat (length s).

(** [s[:k]]: a negative bound counts from the end. *)
Definition slice_to {A} (s : list A) (k : Z) : list A :=
  if 0 <=? k then take (Z.to_nat k) s
  else take (Z.to_nat (len s + k)) s.

(** [s[k:]] for a non-negative literal [k]. *)
Definition slice_from {A} (s : list A) (k : nat) : list A := drop k s.

Definition char_eqb (a b : char) : bool := N.eqb a b.

Fixpoint startswith (sub s : pystr) : bool :=
  match sub, s with
  | [], _ => true
  | _ :: _, [] => false
  | a :: sub', b :: s' => char_eqb a b && startswith sub' s'
  end.

(** [s.rfind(sub)]: the highest index at which [sub] occurs, or [-1]. *)
Fixpoint rfind_from (sub s : pystr) (i last : Z) : Z :=
  match s with
  | [] => if startswith sub [] then i else last
  | _ :: s' => rfind_from sub s' (i + 1) (if startswith sub s then i else last)
  end.

Definition rfind (s sub : pystr) : Z := rfind_from sub s 0 (-1).

(** [s.find(sub)]: the lowest index at which [sub] occurs, or [-1]. *)
Fixpoint find_from (sub s : pystr) (i : Z) : Z :=
  if startswith sub s then i
  else match s with
       | [] => -1
       | _ :: s' => find_from sub s' (i + 1)
       end.

Definition find (s sub : pystr) : Z := find_from sub s 0.

(** [sub in s] *)
Definition contains (sub s : pystr) : bool := 0 <=? find s sub.

(** Characters for which [str.isspace] holds; [str.strip()] removes them. *)
Definition isspace (c : char) : bool :=
  let n := Z.of_N c in
  ((9 <=? n) && (n <=? 13)) || ((28 <=? n) && (n <=? 32))
  || (n =? 133) || (n =? 160) || (n =? 5760)
  || ((8192 <=? n) && (n <=? 8202))
  || (n =? 8232) || (n =? 8233) || (n =? 8239) || (n =? 8287) || (n =? 12288).

Fixpoint lstrip (s : pystr) : pystr :=
  match s with
  | c :: s' => if isspace c then lstrip s' else s
  | [] => []
  end.

Definition rstrip (s : pystr) : pystr := rev (lstrip (rev s)).

Definition strip (s : pystr) : pystr := rstrip (lstrip s).

(** [s.split(sep)] for a one-character separator. *)
Fixpoint split_char (sep : char) (s : pystr) : list pystr :=
  match s with
  | [] => [[]]
  | c :: s' =>
      if char_eqb c sep then [] :: split_char sep s'
      else match split_char sep s' with
           | w :: ws => (c :: w) :: ws
           | [] => [[c]]
           end
  end.

(** [s.split(sep, 1)] for a one-character separator. *)
Fixpoint split_once (sep : char) (s : pystr) : list pystr :=
  match s with
  | [] => [[]]
  | c :: s' =>
      if char_eqb c sep then [[]; s']
      else match split_once sep s' with
           | w :: ws => (c :: w) :: ws
           | [] => [[c]]
           end
  end.

(** [sep.join(l)] *)
Fixpoint join (sep : pystr) (l : list pystr) : pystr :=
  match l with
  | [] => []
  | [x] => x
  | x :: l' => x ++ sep ++ join sep l'
  end.

(** [str(n)] for an integer. *)
Definition str_of_int (n : Z) : pystr := str (NilZero.string_of_int (Z.to_int n)).

(** *** Binary64 arithmetic, as far as [max_chars * 0.7] needs it

    A finite double is [(-1)^neg * mant * 2^expo] with [0 <= mant <= 2^53].
    Products of an integer and [0.7] are never subnormal.  The exponent is
    unbounded here: for an integer of magnitude [2^1024] or more CPython
    raises [OverflowError] at the conversion, so the model stands for the
    code only below that. *)
Record float := Float { f_neg : bool; f_mant : Z; f_exp : Z }.

(** Round [m * 2^e] (with [0 <= m]) to 53 significant bits, ties to even. *)
Definition round53 (m e : Z) : Z * Z :=
  if m <? 2 ^ 53 then (m, e)
  else
    let sh := Z.log2 m - 52 in
    let q := Z.shiftr m sh in
    let r := m mod 2 ^ sh in
    let half := 2 ^ (sh - 1) in
    let up := (half <? r) || ((r =? half) && Z.odd q) in
    ((if up then q + 1 else q), e + sh).

Definition float_of_int (n : Z) : float :=
  let '(m, e) := round53 (Z.abs n) 0 in Float (n <? 0) m e.

Definition fmul (a b : float) : float :=
  let '(m, e) := round53 (f_mant a * f_mant b) (f_exp a + f_exp b) in
  Float (xorb (f_neg a) (f_neg b)) m e.

(** The literal [0.7], i.e. [0x1.6666666666666p-1]. *)
Definition f0_7 : float := Float false 6305039478318694 (-53).

(** [d > x] for an integer [d] and a float [x]; Python compares exactly. *)
Definition int_gt_float (d : Z) (x : float) : bool :=
  let v := if f_neg x then - f_mant x else f_mant x in
  if 0 <=? f_exp x then v * 2 ^ f_exp x <? d
  else v <? d * 2 ^ (- f_exp x).

(** [n * 0.7] for an integer [n]. *)
Definition int_mul_float (n : Z) (x : float) : float := fmul (float_of_int n) x.

End Py.

Import Py.

(** ** Exceptions

    Code that may raise returns a [result]: [Ok v] for a normal return,
    [Raise e] for an exception that leaves the function. *)

Module Exc.

Inductive exn : Set :=
| KeyError (key : pystr)      (* [d[key]] on a missing key *)
| IndexError                  (* [l[i]] out of range *)
| ValueError (msg : pystr)
| Failure (msg : pystr).      (* any other [Exception] *)

Inductive result (A : Type) : Type :=
| Ok (a : A)
| Raise (e : exn).
Arguments Ok {A} a.
Arguments Raise {A} e.

Definition bind {A B} (m : result A) (k : A -> result B) : result B :=
  match m with
  | Ok a => k a
  | Raise e => Raise e
  end.

(** [d[key]] on a dictionary. *)
Definition subscript {V} (d : gmap pystr V) (key : pystr) : result V :=
  match d !! key with
  | Some v => Ok v
  | None => Raise (KeyError key)
  end.

End Exc.

Import Exc.

Notation "'let*' x ':=' m 'in' k" := (bind m (fun x => k))
  (at level 10, x name, m at level 100, k at level 200).

(** ** Data model ([src/models/agents.py], and the content models the
       transformer and the director use) *)

(** JSON-like values: what a content field of a slide may hold. *)
#[local] Set Warnings "-register-all".
Inductive pyval : Type :=
| PNone
| PBool (b : bool)
| PInt (z : Z)
| PStr (s : pystr)
| PList (l : list pyval)
| PDict (d : gmap pystr pyval).
#[local] Set Warnings "register-all".

(** A dictionary display [{k1: v1, k2: v2, ...}]: later entries win. *)
Definition dict_of {V} (entries : list (pystr * V)) : gmap pystr V :=
  fold_left (fun d entry => <[fst entry := snd entry]> d) entries ∅.

(** [d.get(key, dflt)] *)
Definition dict_get {V} (d : gmap pystr V) (key : pystr) (dflt : V) : V :=
  default dflt (d !! key).

(** [key in d] *)
Definition dict_has {V} (key : pystr) (d : gmap pystr V) : bool :=
  bool_decide (is_Some (d !! key)).

Record Slide := mkSlide {
  slide_number : Z;
  slide_id : pystr;
  title : pystr;
  slide_type : pystr;
  layout_id : option pystr;
  layout_selection_reasoning : option pystr;
  narrative : pystr;
  key_points : list pystr;
  analytics_needed : option pystr;
  visuals_needed : option pystr;
  diagrams_needed : option pystr;
  tables_needed : option pystr;
  structure_preference : option pystr;
  speaker_notes : option pystr
}.

Record PresentationStrawman := mkStrawman {
  main_title : pystr;
  overall_theme : pystr;
  slides : list Slide;
  design_suggestions : pystr;
  target_audience : pystr;
  presentation_duration : Z
}.

(** The content returned by the text service: a structured mapping, or a
    plain string (legacy mode). *)
Inductive Content : Type :=
| Structured (d : gmap pystr pyval)
| Legacy (s : pystr).

Record GeneratedText := mkGeneratedText {
  content : Content;
  metadata : gmap pystr pyval
}.

Record EnrichedSlide := mkEnrichedSlide {
  original_slide : Slide;
  es_slide_id : pystr;
  generated_text : option GeneratedText;
  has_text_failure : bool
}.

Record EnrichedPresentationStrawman := mkEnriched {
  original_strawman : PresentationStrawman;
  enriched_slides : list EnrichedSlide;
  generation_metadata : gmap pystr pyval
}.

(** One entry of the deck-builder payload: [{"layout": ..., "content": ...}] *)
Record TransformedSlide := mkTransformed {
  ts_layout : pystr;
  ts_content : gmap pystr pyval
}.

(** [{"title": ..., "slides": [...]}] *)
Record Payload := mkPayload {
  p_title : pystr;
  p_slides : list TransformedSlide
}.

(** The content schema of a layout: field name to field specification; of a
    field specification the code reads the integer attributes [max_chars],
    [max_items] and [max_chars_per_item]. *)
Abbreviation ContentSchema := (gmap pystr (gmap pystr Z)).

(** ** [WorkflowOrchestrator] ([src/workflows/state_machine.py]) *)

Module WorkflowOrchestrator.

Definition STATES : list pystr :=
  [ str "PROVIDE_GREETING";
    str "ASK_CLARIFYING_QUESTIONS";
    str "CREATE_CONFIRMATION_PLAN";
    str "GENERATE_STRAWMAN";
    str "REFINE_STRAWMAN";
    str "CONTENT_GENERATION" ].

Definition TRANSITIONS : gmap pystr (list pystr) :=
  list_to_map
    [ (str "PROVIDE_GREETING", [str "ASK_CLARIFYING_QUESTIONS"]);
      (str "ASK_CLARIFYING_QUESTIONS", [str "CREATE_CONFIRMATION_PLAN"]);
      (str "CREATE_CONFIRMATION_PLAN",
        [str "GENERATE_STRAWMAN"; str "ASK_CLARIFYING_QUESTIONS";
         str "CREATE_CONFIRMATION_PLAN"]);
      (str "GENERATE_STRAWMAN", [str "REFINE_STRAWMAN"; str "CONTENT_GENERATION"]);
      (str "REFINE_STRAWMAN", [str "REFINE_STRAWMAN"; str "CONTENT_GENERATION"]);
      (str "CONTENT_GENERATION", []) ].

(** [x in l] on a list of strings. *)
Definition list_contains (x : pystr) (l : list pystr) : bool :=
  bool_decide (x ∈ l).

(** [key in d] on a dictionary. *)
Definition dict_contains {V} (key : pystr) (d : gmap pystr V) : bool :=
  bool_decide (is_Some (d !! key)).

Definition validate_state (state : pystr) : bool :=
  list_contains state STATES.

Definition validate_transition (from_state to_state : pystr) : result bool :=
  if negb (dict_contains from_state TRANSITIONS) then Ok false
  else
    let* next := subscript TRANSITIONS from_state in
    Ok (list_contains to_state next).

(** [self.TRANSITIONS.get(current_state, [])] *)
Definition get_next_states (current_state : pystr) : result (list pystr) :=
  Ok (default [] (TRANSITIONS !! current_state)).

End WorkflowOrchestrator.

(** The six stages as the specification names them, and its transition
    table. *)
Inductive Stage : Set :=
| Greeting
| AskClarifyingQuestions
| CreateConfirmationPlan
| GenerateStrawman
| RefineStrawman
| ContentGeneration.

Definition stage_name (s : Stage) : pystr :=
  match s with
  | Greeting => str "PROVIDE_GREETING"
  | AskClarifyingQuestions => str "ASK_CLARIFYING_QUESTIONS"
  | CreateConfirmationPlan => str "CREATE_CONFIRMATION_PLAN"
  | GenerateStrawman => str "GENERATE_STRAWMAN"
  | RefineStrawman => str "REFINE_STRAWMAN"
  | ContentGeneration => str "CONTENT_GENERATION"
  end.

Definition spec_transition_table (s : Stage) : list Stage :=
  match s with
  | Greeting => [AskClarifyingQuestions]
  | AskClarifyingQuestions => [CreateConfirmationPlan]
  | CreateConfirmationPlan =>
      [GenerateStrawman; AskClarifyingQuestions; CreateConfirmationPlan]
  | GenerateStrawman => [RefineStrawman; ContentGeneration]
  | RefineStrawman => [RefineStrawman; ContentGeneration]
  | ContentGeneration => []
  end.

(** ** [ContentTransformer.truncate] *)

Module ContentTransformer.

(** The sentence delimiters, in the order the loop tries them. *)
Definition delimiters : list pystr := [str ". "; str "! "; str "? "].

(** [("..." if add_ellipsis else "")] *)
Definition ellipsis (add_ellipsis : bool) : pystr :=
  if add_ellipsis then str "..." else [].

(** The loop [for delimiter in ['. ', '! ', '? ']] with its early return:
    [Some r] when the loop returns [r], [None] when it falls through. *)
Fixpoint sentence_cut (truncated : pystr) (max_chars : Z) (ds : list pystr)
  : option pystr :=
  match ds with
  | [] => None
  | delimiter :: ds' =>
      let last_delimiter := rfind truncated delimiter in
      if int_gt_float last_delimiter (int_mul_float max_chars f0_7)
      then Some (slice_to truncated (last_delimiter + 1))
      else sentence_cut truncated max_chars ds'
  end.

(** The [return] statement through which a call of [truncate] leaves. *)
Inductive truncate_exit : Set :=
| ExitEmpty          (* [if not text: return ""] *)
| ExitWithinBudget   (* [if len(text) <= max_chars: return text] *)
| ExitSentence       (* [return truncated[:last_delimiter + 1]] *)
| ExitLastSpace      (* [return truncated[:last_space] + ...] *)
| ExitHardCut.       (* [return truncated + ...] *)

(** [truncate], with the exit it takes. *)
Definition truncate_via (text : pystr) (max_chars : Z) (add_ellipsis : bool)
  : truncate_exit * pystr :=
  match text with
  | [] => (ExitEmpty, [])
  | _ =>
    if len text <=? max_chars then (ExitWithinBudget, text)
    else
      let truncated := slice_to text max_chars in
      match sentence_cut truncated max_chars delimiters with
      | Some r => (ExitSentence, r)
      | None =>
          let last_space := rfind truncated (str " ") in
          if 0 <? last_space
          then (ExitLastSpace, slice_to truncated last_space ++ ellipsis add_ellipsis)
          else (ExitHardCut, truncated ++ ellipsis add_ellipsis)
      end
  end.

Definition truncate (text : pystr) (max_chars : Z) (add_ellipsis : bool) : pystr :=
  snd (truncate_via text max_chars add_ellipsis).

(** *** Helpers for the mapping functions *)

(** [a or b] on strings: [a] unless it is empty. *)
Definition str_or (a b : pystr) : pystr :=
  match a with [] => b | _ => a end.

(** Truthiness of an [Optional[str]]. *)
Definition truthy (o : option pystr) : option pystr :=
  match o with
  | Some ((_ :: _) as s) => Some s
  | _ => None
  end.

Definition newline : char := 10%N.

(** [s.split(sep)] for a non-empty separator string; [skip] counts the
    characters of a separator still to be passed over. *)
Fixpoint split_str_aux (sep s : pystr) (skip : nat) : list pystr :=
  match s with
  | [] => [[]]
  | c :: s' =>
      match skip with
      | S k => split_str_aux sep s' k
      | O =>
          if startswith sep s
          then [] :: split_str_aux sep s' (length sep - 1)
          else match split_str_aux sep s' 0 with
               | w :: ws => (c :: w) :: ws
               | [] => [[c]]
               end
      end
  end.

Definition split_str (s sep : pystr) : list pystr := split_str_aux sep s 0.

(** [a, b = l]: unpacking into exactly two names. *)
Definition unpack2 (l : list pystr) : result (pystr * pystr) :=
  match l with
  | [a; b] => Ok (a, b)
  | _ => Raise (ValueError (str "not enough values to unpack"))
  end.

(** [fields[name][attr]] *)
Definition field_attr (fields : ContentSchema) (name attr : pystr) : result Z :=
  let* spec := subscript fields name in
  subscript spec attr.

(** [isinstance(content, dict)]; the mapping functions below branch on it by
    matching on the content. *)
Definition _is_structured_content (c : Content) : bool :=
  match c with
  | Structured _ => true
  | Legacy _ => false
  end.

(** The condition
    [enriched_slide and enriched_slide.generated_text
       and not enriched_slide.has_text_failure],
    with the content it gives access to. *)
Definition usable_content (enriched_slide : option EnrichedSlide) : option Content :=
  match enriched_slide with
  | Some es =>
      match generated_text es with
      | Some g => if has_text_failure es then None else Some (content g)
      | None => None
      end
  | None => None
  end.

(** The bullet markers ['•', '-', '*', '–']. *)
Definition bullet_markers : list pystr :=
  [[8226%N]; str "-"; str "*"; [8211%N]].

(** [for marker in [...]: if line.startswith(marker):
       line = line[1:].strip(); break] *)
Fixpoint strip_marker (line : pystr) (markers : list pystr) : pystr :=
  match markers with
  | [] => line
  | marker :: rest =>
      if startswith marker line then strip (slice_from line 1)
      else strip_marker line rest
  end.

(** The loop that collects bullets from the lines of a legacy text. *)
Fixpoint collect_bullets (lines : list pystr) (bullets : list pystr)
         (max_items max_chars : Z) : list pystr :=
  match lines with
  | [] => bullets
  | line :: rest =>
      let line := strip_marker (strip line) bullet_markers in
      if (match line with [] => false | _ => true end) && (10 <? len line)
      then
        let bullets := bullets ++ [truncate line max_chars false] in
        if max_items <=? len bullets then bullets
        else collect_bullets rest bullets max_items max_chars
      else collect_bullets rest bullets max_items max_chars
  end.

(** [[self.truncate(point, max_chars) for point in slide.key_points[:max_items]]] *)
Definition key_point_bullets (slide : Slide) (max_items max_chars : Z) : list pystr :=
  map (fun point => truncate point max_chars false)
      (slice_to (key_points slide) max_items).

(** The legacy parse of a bullet-shaped field, with its fallback. *)
Definition legacy_bullets (generated_content : pystr) (slide : Slide)
           (max_items max_chars : Z) : list pystr :=
  let bullets :=
    collect_bullets (split_char newline generated_content) [] max_items max_chars in
  if len bullets <? 2 then key_point_bullets slide max_items max_chars
  else bullets.

Definition str_list (l : list pystr) : pyval := PList (map PStr l).

(** [f"Step {idx + 1}"] *)
Definition step_title (idx : Z) : pystr := str "Step " ++ str_of_int (idx + 1).

Definition numbered_item (title description : pystr) : pyval :=
  PDict (dict_of [(str "title", PStr (truncate title 40 false));
                  (str "description", PStr (truncate description 150 false))]).

(** Title and description of one line of a legacy numbered list. *)
Definition split_numbered_line (idx : Z) (line : pystr) (n_lines : Z)
  : result (pystr * pystr) :=
  if contains (str ":") line then unpack2 (split_once 58%N line)
  else if contains (str ".") line && (idx <? n_lines) then
    let parts := split_once 46%N line in
    if 1 <? len parts then
      let title_desc := strip (nth 1 parts []) in
      if contains (str "-") title_desc then unpack2 (split_once 45%N title_desc)
      else Ok (step_title idx, title_desc)
    else Ok (step_title idx, line)
  else Ok (step_title idx, line).

(** [for idx, line in enumerate(lines[:max_items])] of the legacy parse. *)
Fixpoint collect_numbered (idx : Z) (lines : list pystr) (n_lines : Z)
  : result (list pyval) :=
  match lines with
  | [] => Ok []
  | line :: rest =>
      let* td := split_numbered_line idx line n_lines in
      let* items := collect_numbered (idx + 1) rest n_lines in
      Ok (numbered_item (strip (fst td)) (strip (snd td)) :: items)
  end.

(** [for idx, point in enumerate(slide.key_points[:max_items])] *)
Fixpoint key_point_items (idx : Z) (points : list pystr) : result (list pyval) :=
  match points with
  | [] => Ok []
  | point :: rest =>
      let* td := (if contains (str ":") point then unpack2 (split_once 58%N point)
                  else Ok (step_title idx, point)) in
      let* items := key_point_items (idx + 1) rest in
      Ok (numbered_item (fst td) (snd td) :: items)
  end.

Definition legacy_numbered_items (generated_content : pystr) (slide : Slide)
           (max_items : Z) : result (list pyval) :=
  let lines :=
    map strip
        (List.filter (fun line => match strip line with [] => false | _ => true end)
                     (split_char newline generated_content)) in
  let* numbered_items := collect_numbered 0 (slice_to lines max_items) (len lines) in
  if len numbered_items <? 2
  then key_point_items 0 (slice_to (key_points slide) max_items)
  else Ok numbered_items.

(** [generate_placeholder(asset_description, asset_type)] *)
Definition generate_placeholder (asset_description asset_type : pystr) : pystr :=
  let whole := str "PLACEHOLDER_" ++ asset_type ++ str ": " ++ asset_description in
  if contains (str "**Goal:**") asset_description then
    let parts := split_str asset_description (str "**Content:**") in
    if 1 <? len parts then
      let content_part :=
        strip (nth 0 (split_str (nth 1 parts []) (str "**Style:**")) []) in
      str "PLACEHOLDER_" ++ asset_type ++ str ": " ++ content_part
    else whole
  else whole.

(** [slide.key_points[-1] if slide.key_points else slide.narrative[:200]] *)
Definition summary_source (slide : Slide) : pystr :=
  match key_points slide with
  | [] => slice_to (narrative slide) 200
  | _ :: _ => List.last (key_points slide) []
  end.

(** [slide.narrative], extended by the key points when there are any. *)
Definition narrative_with_points (slide : Slide) : pystr :=
  match key_points slide with
  | [] => narrative slide
  | _ :: _ =>
      narrative slide ++ [newline; newline]
        ++ join [newline; newline] (key_points slide)
  end.

(** [result[key] = generated_content[key]] when [key] is both in [fields]
    and in [generated_content]. *)
Definition copy_if_in_both (key : pystr) (fields : ContentSchema)
           (generated_content result : gmap pystr pyval) : gmap pystr pyval :=
  match fields !! key, generated_content !! key with
  | Some _, Some v => <[key := v]> result
  | _, _ => result
  end.

(** [result[key] = self.truncate(text, fields[key]['max_chars'])] when
    [key] is in [fields]. *)
Definition set_truncated_if_field (key : pystr) (text : pystr)
           (fields : ContentSchema) (result : gmap pystr pyval)
  : Exc.result (gmap pystr pyval) :=
  if dict_has key fields then
    let* n := field_attr fields key (str "max_chars") in
    Ok (<[key := PStr (truncate text n false)]> result)
  else Ok result.

(** *** The mapping functions *)

Section Mappers.

(** [self.schema_manager.get_schema(layout_id)['content_schema']]; the schema
    manager lives outside this file. *)
Variable content_schema_of : pystr -> result ContentSchema.

(** [datetime.now().strftime("%Y-%m-%d")] at the time of the call. *)
Variable today : pystr.

Definition _map_title_slide (slide : Slide) (fields : ContentSchema)
           (presentation : PresentationStrawman)
           (enriched_slide : option EnrichedSlide) : result (gmap pystr pyval) :=
  let* n_title := field_attr fields (str "main_title") (str "max_chars") in
  let* n_sub := field_attr fields (str "subtitle") (str "max_chars") in
  let* n_org := field_attr fields (str "organization") (str "max_chars") in
  Ok (dict_of
        [(str "main_title", PStr (truncate (main_title presentation) n_title false));
         (str "subtitle",
           PStr (truncate (str_or (narrative slide) (overall_theme presentation))
                          n_sub false));
         (str "presenter_name", PStr (str "AI-Generated Presentation"));
         (str "organization",
           PStr (truncate (target_audience presentation) n_org false));
         (str "date", PStr today)]).

Definition _map_section_divider (slide : Slide) (fields : ContentSchema)
           (presentation : PresentationStrawman)
           (enriched_slide : option EnrichedSlide) : result (gmap pystr pyval) :=
  let* n := field_attr fields (str "section_title") (str "max_chars") in
  Ok (dict_of [(str "section_title", PStr (truncate (title slide) n false))]).

Definition _map_closing_slide (slide : Slide) (fields : ContentSchema)
           (presentation : PresentationStrawman)
           (enriched_slide : option EnrichedSlide) : result (gmap pystr pyval) :=
  let* n_msg := field_attr fields (str "closing_message") (str "max_chars") in
  let* n_sub := field_attr fields (str "subtitle") (str "max_chars") in
  Ok (dict_of
        [(str "closing_message",
           PStr (truncate (str_or (title slide) (str "Thank You")) n_msg false));
         (str "subtitle",
           PStr (truncate (str_or (narrative slide) (str "Questions & Discussion"))
                          n_sub false));
         (str "contact_email", PStr (str "contact@example.com"));
         (str "website", PStr (str "www.example.com"));
         (str "social_media", PStr (str "@example"))]).

(** The tail of [_map_text_summary], shared by the legacy and the placeholder
    paths. *)
Definition text_summary_result (slide : Slide) (fields : ContentSchema)
           (main_text : pystr) : result (gmap pystr pyval) :=
  let summary := summary_source slide in
  let* n_title := field_attr fields (str "slide_title") (str "max_chars") in
  let* subtitle :=
    (if dict_has (str "subtitle") fields then
       let* n := field_attr fields (str "subtitle") (str "max_chars") in
       Ok (PStr (truncate (slice_to (narrative slide) 80) n false))
     else Ok PNone) in
  let* n_main := field_attr fields (str "main_text_content") (str "max_chars") in
  let* summary_v :=
    (if dict_has (str "summary") fields then
       let* n := field_attr fields (str "summary") (str "max_chars") in
       Ok (PStr (truncate summary n false))
     else Ok PNone) in
  Ok (dict_of
        [(str "slide_title", PStr (truncate (title slide) n_title false));
         (str "subtitle", subtitle);
         (str "main_text_content", PStr (truncate main_text n_main false));
         (str "summary", summary_v)]).

Definition _map_text_summary (slide : Slide) (fields : ContentSchema)
           (presentation : PresentationStrawman)
           (enriched_slide : option EnrichedSlide) : result (gmap pystr pyval) :=
  match usable_content enriched_slide with
  | Some (Structured generated_content) =>
      let result :=
        dict_of
          [(str "slide_title",
             dict_get generated_content (str "slide_title") (PStr (title slide)));
           (str "main_text_content",
             dict_get generated_content (str "main_text_content") (PStr []))] in
      let result := copy_if_in_both (str "subtitle") fields generated_content result in
      let result := copy_if_in_both (str "summary") fields generated_content result in
      Ok result
  | Some (Legacy generated_content) =>
      text_summary_result slide fields generated_content
  | None =>
      text_summary_result slide fields (narrative_with_points slide)
  end.

(** The tail of [_map_bullet_list]. *)
Definition bullet_list_result (slide : Slide) (fields : ContentSchema)
           (bullets : list pystr) : result (gmap pystr pyval) :=
  let* n_title := field_attr fields (str "slide_title") (str "max_chars") in
  let result :=
    dict_of [(str "slide_title", PStr (truncate (title slide) n_title false));
             (str "bullets", str_list bullets)] in
  set_truncated_if_field (str "subtitle") (narrative slide) fields result.

Definition _map_bullet_list (slide : Slide) (fields : ContentSchema)
           (presentation : PresentationStrawman)
           (enriched_slide : option EnrichedSlide) : result (gmap pystr pyval) :=
  let* max_items := field_attr fields (str "bullets") (str "max_items") in
  let* max_chars := field_attr fields (str "bullets") (str "max_chars_per_item") in
  match usable_content enriched_slide with
  | Some (Structured generated_content) =>
      let result :=
        dict_of
          [(str "slide_title",
             dict_get generated_content (str "slide_title") (PStr (title slide)));
           (str "bullets",
             dict_get generated_content (str "bullets") (PList []))] in
      Ok (copy_if_in_both (str "subtitle") fields generated_content result)
  | Some (Legacy generated_content) =>
      bullet_list_result slide fields
        (legacy_bullets generated_content slide max_items max_chars)
  | None =>
      bullet_list_result slide fields (key_point_bullets slide max_items max_chars)
  end.

(** The tail of [_map_numbered_list]. *)
Definition numbered_list_result (slide : Slide) (fields : ContentSchema)
           (numbered_items : list pyval) : result (gmap pystr pyval) :=
  let* n_title := field_attr fields (str "slide_title") (str "max_chars") in
  let result :=
    dict_of [(str "slide_title", PStr (truncate (title slide) n_title false));
             (str "numbered_items", PList numbered_items)] in
  set_truncated_if_field (str "subtitle") (narrative slide) fields result.

Definition _map_numbered_list (slide : Slide) (fields : ContentSchema)
           (presentation : PresentationStrawman)
           (enriched_slide : option EnrichedSlide) : result (gmap pystr pyval) :=
  let* max_items := field_attr fields (str "numbered_items") (str "max_items") in
  match usable_content enriched_slide with
  | Some (Structured generated_content) =>
      let result :=
        dict_of
          [(str "slide_title",
             dict_get generated_content (str "slide_title") (PStr (title slide)));
           (str "numbered_items",
             dict_get generated_content (str "numbered_items") (PList []))] in
      Ok (copy_if_in_both (str "subtitle") fields generated_content result)
  | Some (Legacy generated_content) =>
      let* numbered_items := legacy_numbered_items generated_content slide max_items in
      numbered_list_result slide fields numbered_items
  | None =>
      let* numbered_items :=
        key_point_items 0 (slice_to (key_points slide) max_items) in
      numbered_list_result slide fields numbered_items
  end.

(** The tail of [_map_image_text]. *)
Definition image_text_result (slide : Slide) (fields : ContentSchema)
           (image_placeholder text_content : pystr) : result (gmap pystr pyval) :=
  let* n_title := field_attr fields (str "slide_title") (str "max_chars") in
  let* n_text := field_attr fields (str "text_content") (str "max_chars") in
  let result :=
    dict_of [(str "slide_title", PStr (truncate (title slide) n_title false));
             (str "image", PStr image_placeholder);
             (str "text_content", PStr (truncate text_content n_text false))] in
  set_truncated_if_field (str "subtitle") (slice_to (narrative slide) 80) fields result.

Definition _map_image_text (slide : Slide) (fields : ContentSchema)
           (presentation : PresentationStrawman)
           (enriched_slide : option EnrichedSlide) : result (gmap pystr pyval) :=
  let image_placeholder :=
    match truthy (visuals_needed slide), truthy (diagrams_needed slide) with
    | Some v, _ => generate_placeholder v (str "IMAGE")
    | None, Some d => generate_placeholder d (str "DIAGRAM")
    | None, None => str "PLACEHOLDER: Professional image related to slide content"
    end in
  match usable_content enriched_slide with
  | Some (Structured generated_content) =>
      let result :=
        dict_of
          [(str "slide_title",
             dict_get generated_content (str "slide_title") (PStr (title slide)));
           (str "image", PStr image_placeholder);
           (str "text_content",
             dict_get generated_content (str "text_content") (PStr []))] in
      Ok (copy_if_in_both (str "subtitle") fields generated_content result)
  | Some (Legacy generated_content) =>
      image_text_result slide fields image_placeholder generated_content
  | None =>
      image_text_result slide fields image_placeholder (narrative_with_points slide)
  end.

(** The tail of [_map_chart_insights]. *)
Definition chart_insights_result (slide : Slide) (fields : ContentSchema)
           (chart_placeholder : pystr) (insights : list pystr)
  : result (gmap pystr pyval) :=
  let* n_title := field_attr fields (str "slide_title") (str "max_chars") in
  let result :=
    dict_of [(str "slide_title", PStr (truncate (title slide) n_title false));
             (str "chart_url", PStr chart_placeholder);
             (str "key_insights", str_list insights)] in
  let* result :=
    set_truncated_if_field (str "subtitle") (narrative slide) fields result in
  set_truncated_if_field (str "summary") (summary_source slide) fields result.

Definition _map_chart_insights (slide : Slide) (fields : ContentSchema)
           (presentation : PresentationStrawman)
           (enriched_slide : option EnrichedSlide) : result (gmap pystr pyval) :=
  let chart_placeholder :=
    match truthy (analytics_needed slide) with
    | Some a => generate_placeholder a (str "CHART")
    | None => str "PLACEHOLDER: Data visualization for this slide"
    end in
  let* max_items := field_attr fields (str "key_insights") (str "max_items") in
  let* max_chars := field_attr fields (str "key_insights") (str "max_chars_per_item") in
  match usable_content enriched_slide with
  | Some (Structured generated_content) =>
      let result :=
        dict_of
          [(str "slide_title",
             dict_get generated_content (str "slide_title") (PStr (title slide)));
           (str "chart_url", PStr chart_placeholder);
           (str "key_insights",
             dict_get generated_content (str "key_insights") (PList []))] in
      let result := copy_if_in_both (str "subtitle") fields generated_content result in
      let result := copy_if_in_both (str "summary") fields generated_content result in
      Ok result
  | Some (Legacy generated_content) =>
      chart_insights_result slide fields chart_placeholder
        (legacy_bullets generated_content slide max_items max_chars)
  | None =>
      chart_insights_result slide fields chart_placeholder
        (key_point_bullets slide max_items max_chars)
  end.

Definition _map_generic (slide : Slide) (fields : ContentSchema)
           (enriched_slide : option EnrichedSlide) : result (gmap pystr pyval) :=
  match usable_content enriched_slide with
  | Some (Structured generated_content) => Ok generated_content
  | usable =>
      let* content :=
        set_truncated_if_field (str "slide_title") (title slide) fields ∅ in
      let* content :=
        set_truncated_if_field (str "subtitle") (narrative slide) fields content in
      if dict_has (str "bullets") fields then
        let* max_items := field_attr fields (str "bullets") (str "max_items") in
        let* max_chars := field_attr fields (str "bullets") (str "max_chars_per_item") in
        match usable with
        | Some (Legacy generated_content) =>
            Ok (<[str "bullets" :=
                    str_list (legacy_bullets generated_content slide
                                             max_items max_chars)]> content)
        | _ =>
            Ok (<[str "bullets" :=
                    str_list (key_point_bullets slide max_items max_chars)]> content)
        end
      else Ok content
  end.

(** The layouts that have a mapping function of their own. *)
Definition _map_content_to_layout (slide : Slide) (layout_id : pystr)
           (content_fields : ContentSchema) (presentation : PresentationStrawman)
           (enriched_slide : option EnrichedSlide) : result (gmap pystr pyval) :=
  let mapping_functions :=
    dict_of [(str "L01", _map_title_slide);
             (str "L02", _map_section_divider);
             (str "L03", _map_closing_slide);
             (str "L04", _map_text_summary);
             (str "L05", _map_bullet_list);
             (str "L06", _map_numbered_list);
             (str "L10", _map_image_text);
             (str "L17", _map_chart_insights)] in
  match mapping_functions !! layout_id with
  | Some mapper => mapper slide content_fields presentation enriched_slide
  | None => _map_generic slide content_fields enriched_slide
  end.

Definition transform_slide (slide : Slide) (layout_id : pystr)
           (presentation : PresentationStrawman)
           (enriched_slide : option EnrichedSlide) : result TransformedSlide :=
  let* content_fields := content_schema_of layout_id in
  let* content :=
    _map_content_to_layout slide layout_id content_fields presentation
                           enriched_slide in
  Ok (mkTransformed layout_id content).

(** The position-based layout used when a slide has no [layout_id]. *)
Definition fallback_layout (idx total_slides : Z) (slide : Slide) : pystr :=
  if idx =? 0 then str "L01"
  else if idx =? total_slides - 1 then str "L03"
  else if bool_decide (slide_type slide = str "section_divider") then str "L02"
  else str "L05".

(** The loop [for idx, slide in enumerate(strawman.slides)]. *)
Fixpoint transform_slides (idx total_slides : Z) (todo : list Slide)
         (strawman : PresentationStrawman)
         (enriched_data : option EnrichedPresentationStrawman)
  : result (list TransformedSlide) :=
  match todo with
  | [] => Ok []
  | slide :: rest =>
      let layout_id :=
        match truthy (layout_id slide) with
        | Some l => l
        | None => fallback_layout idx total_slides slide
        end in
      let* enriched_slide :=
        match enriched_data with
        | Some e =>
            match enriched_slides e with
            | [] => Ok None
            | _ :: _ =>
                match enriched_slides e !! Z.to_nat idx with
                | Some es => Ok (Some es)
                | None => Raise IndexError
                end
            end
        | None => Ok None
        end in
      let* transformed_slide :=
        transform_slide slide layout_id strawman enriched_slide in
      let* others :=
        transform_slides (idx + 1) total_slides rest strawman enriched_data in
      Ok (transformed_slide :: others)
  end.

Definition transform_presentation (strawman : PresentationStrawman)
           (enriched_data : option EnrichedPresentationStrawman) : result Payload :=
  let total_slides := len (slides strawman) in
  let* transformed_slides :=
    transform_slides 0 total_slides (slides strawman) strawman enriched_data in
  Ok (mkPayload (main_title strawman) transformed_slides).

End Mappers.

End ContentTransformer.

Import ContentTransformer.

(** ** [DirectorAgent] ([src/agents/director.py]) *)

Module DirectorAgent.

(** [src/models/layout_selection.py] is outside this file; of a
    [LayoutSelection] the code sets and reads these three fields. *)
Record LayoutSelection := mkSelection {
  sel_layout_id : pystr;
  sel_reasoning : pystr;
  sel_confidence : float
}.

Definition f1_0 : float := Float false 1 0.      (* 1.0 *)
Definition f0_5 : float := Float false 1 (-1).   (* 0.5 *)

(** *** Calls to collaborators

    Each awaited call into a collaborator is a node of the program; the
    collaborator answers with a value or with an exception. *)
Inductive call : Type -> Type :=
| RunLayoutAgent (prompt : pystr) : call LayoutSelection
    (* [self.strawman_agent.run(prompt, result_type=LayoutSelection, ...)],
       then [result.output] *)
| GenerateSlideText (slide : Slide) (presentation : PresentationStrawman)
                    (session_id : pystr) (slide_number : Z) : call GeneratedText
    (* [self._generate_slide_text(slide, strawman, session_id, idx + 1)] *)
| CreatePresentation (api_payload : Payload) : call (gmap pystr pystr).
    (* [self.deck_builder_client.create_presentation(api_payload)] *)

Inductive prog (A : Type) : Type :=
| Return (a : A)
| Throw (e : exn)
| Do {X : Type} (c : call X) (k : result X -> prog A)
| Clock (k : Z -> prog A).      (* [datetime.utcnow()], which does not raise *)
Arguments Return {A} a.
Arguments Throw {A} e.
Arguments Do {A X} c k.
Arguments Clock {A} k.

Fixpoint pbind {A B} (p : prog A) (k : A -> prog B) : prog B :=
  match p with
  | Return a => k a
  | Throw e => Throw e
  | Do c k' => Do c (fun r => pbind (k' r) k)
  | Clock k' => Clock (fun t => pbind (k' t) k)
  end.

(** [try: p  except Exception as e: handler e] *)
Fixpoint try_except {A} (p : prog A) (handler : exn -> prog A) : prog A :=
  match p with
  | Return a => Return a
  | Throw e => handler e
  | Do c k => Do c (fun r => try_except (k r) handler)
  | Clock k => Clock (fun t => try_except (k t) handler)
  end.

(** [await c]: an exception of the collaborator propagates. *)
Definition await {X} (c : call X) : prog X :=
  Do c (fun r => match r with Ok x => Return x | Raise e => Throw e end).

(** [datetime.utcnow()] *)
Definition utcnow : prog Z := Clock (fun t => Return t).

(** A computation of this file that may raise. *)
Definition lift {A} (r : result A) : prog A :=
  match r with Ok a => Return a | Raise e => Throw e end.

(** *** Running a program against collaborators

    [handle] answers each call from the state of the outside world and
    [clock] reads the time; the run records the calls made and their
    outcomes. *)
Inductive event : Type :=
| Event {X : Type} (c : call X) (r : result X).

Section Run.

Variable world : Type.
Variable handle : forall X, call X -> world -> result X * world.
Variable clock : world -> Z * world.

Fixpoint run {A} (p : prog A) (w : world) : result A * world * list event :=
  match p with
  | Return a => (Ok a, w, [])
  | Throw e => (Raise e, w, [])
  | Do c k =>
      let '(r, w') := handle _ c w in
      let '(out, w'', trace) := run (k r) w' in
      (out, w'', Event c r :: trace)
  | Clock k =>
      let '(t, w') := clock w in
      run (k t) w'
  end.

End Run.

(** The text-generation calls of a trace, with whether each failed. *)
Fixpoint text_calls (trace : list event) : list (Slide * Z * bool) :=
  match trace with
  | [] => []
  | Event c r :: rest =>
      match c with
      | GenerateSlideText slide _ _ slide_number =>
          (slide, slide_number, match r with Ok _ => false | Raise _ => true end)
            :: text_calls rest
      | _ => text_calls rest
      end
  end.

(** The model calls of a trace. *)
Fixpoint model_calls (trace : list event) : list pystr :=
  match trace with
  | [] => []
  | Event c r :: rest =>
      match c with
      | RunLayoutAgent prompt => prompt :: model_calls rest
      | _ => model_calls rest
      end
  end.

(** [str(e)]; a [KeyError] shows the [repr] of its key.  [repr] of a [str]
    chooses its quotes and escapes by the Unicode database and is taken as
    given. *)
Definition exn_str (repr : pystr -> pystr) (e : exn) : pystr :=
  match e with
  | KeyError key => repr key
  | IndexError => str "list index out of range"
  | ValueError msg => msg
  | Failure msg => msg
  end.

(** [o or 'None'] *)
Definition or_none (o : option pystr) : pystr :=
  match truthy o with Some s => s | None => str "None" end.

(** *** [_select_layout_by_use_case] *)

Section LayoutSelection.

(** [self.layout_schema_manager]: [__init__] sets the attribute only inside
    [if self.deck_builder_enabled: try: ...], so a director may be without
    it ([None]).  The manager itself lives outside this file; of it the code
    calls [format_layout_options_for_ai]. *)
Variable layout_schema_manager : option (list pystr -> result pystr).

(** [repr(s)] for a [str]. *)
Variable repr : pystr -> pystr.

(** [self.layout_schema_manager.format_layout_options_for_ai(exclude_layout_ids)];
    on a director without the attribute the expression raises
    [AttributeError]. *)
Definition format_layout_options_for_ai (exclude_layout_ids : list pystr)
  : result pystr :=
  match layout_schema_manager with
  | Some manager => manager exclude_layout_ids
  | None =>
      Raise (Failure (str "'DirectorAgent' object has no attribute 'layout_schema_manager'"))
  end.

(** The prompt for the semantic match. *)
Definition layout_prompt (slide : Slide) (layout_options_text : pystr) : pystr :=
  join [newline]
    [ [];
      str "You are selecting the most appropriate slide layout for a presentation slide.";
      [];
      str "**Slide Information:**";
      str "- Title: " ++ title slide;
      str "- Narrative: " ++ narrative slide;
      str "- Key Points: "
        ++ match key_points slide with
           | [] => str "None"
           | _ :: _ => join (str ", ") (slice_to (key_points slide) 5)
           end;
      str "- Slide Type: " ++ slide_type slide;
      str "- Content Needs:";
      str "  - Analytics: " ++ or_none (analytics_needed slide);
      str "  - Visuals: " ++ or_none (visuals_needed slide);
      str "  - Diagrams: " ++ or_none (diagrams_needed slide);
      str "  - Tables: " ++ or_none (tables_needed slide);
      str "- Structure Preference: " ++ or_none (structure_preference slide);
      [];
      str "**Available Layouts (with BestUseCase guidance):**";
      layout_options_text;
      [];
      str "**Task:**";
      str "Select the layout whose BestUseCase most closely matches this slide's purpose and content.";
      [];
      str "Consider:";
      str "1. Semantic alignment between slide narrative and layout BestUseCase";
      str "2. Content type requirements (text, data, visuals, quotes, comparisons)";
      str "3. Presentation intent (inform, persuade, compare, emphasize, inspire)";
      str "4. Audience comprehension (clarity vs. detail vs. impact)";
      str "5. Specific keywords that match layout BestUseCase";
      [];
      str "**Important Selection Criteria:**";
      str "- If the slide contains a **customer testimonial or quote**, select **L07** (Quote Slide)";
      str "- If the slide is **comparing two options** or showing **pros/cons**, select **L20** (Comparison)";
      str "- If the slide shows **KPIs or metrics dashboard**, select **L19** (Dashboard)";
      str "- If the slide has **data visualization with insights**, select **L17** (Chart + Insights)";
      str "- If the slide has **sequential steps or process**, select **L06** (Numbered List)";
      str "- If the slide has **simple bullet points**, select **L05** (Bullet List)";
      str "- If the slide has **long-form explanation**, select **L04** (Text + Summary)";
      [];
      str "Return your selection with clear reasoning based on the semantic match between content and BestUseCase.";
      [] ].

Definition _select_layout_by_use_case (slide : Slide) (position : pystr)
           (total_slides : Z) : prog LayoutSelection :=
  if bool_decide (position = str "first") then
    Return (mkSelection (str "L01") (str "First slide - using title layout") f1_0)
  else if bool_decide (position = str "last") then
    Return (mkSelection (str "L03") (str "Last slide - using closing layout") f1_0)
  else if bool_decide (slide_type slide = str "section_divider") then
    Return (mkSelection (str "L02") (str "Section divider slide") f1_0)
  else
    pbind (lift (format_layout_options_for_ai [str "L01"; str "L02"; str "L03"]))
          (fun layout_options_text =>
    let prompt := layout_prompt slide layout_options_text in
    try_except
      (pbind (await (RunLayoutAgent prompt)) (fun selection => Return selection))
      (fun e =>
         Return (mkSelection
                   (str "L05")
                   (str "Fallback layout after AI selection error: "
                      ++ slice_to (exn_str repr e) 100)
                   f0_5))).

End LayoutSelection.

(** *** The [CONTENT_GENERATION] branch of [process] *)

(** What [process] returns in this branch: a response dictionary, or the
    enriched presentation itself. *)
Inductive Response : Type :=
| RespDict (d : gmap pystr pyval)
| RespEnriched (e : EnrichedPresentationStrawman).

Section ContentGeneration.

Variable content_schema_of : pystr -> result ContentSchema.
Variable today : pystr.

(** [self.deck_builder_client.get_full_url], [timedelta.total_seconds] and
    [datetime.isoformat] are outside this file. *)
Variable get_full_url : pystr -> pystr.
Variable total_seconds_between : Z -> Z -> pyval.
Variable isoformat : Z -> pystr.

(** [self.deck_builder_enabled] *)
Variable deck_builder_enabled : bool.

(** The state of the loop: [enriched_slides], [successful_slides],
    [failed_slides]. *)
Definition loop_state : Type := list EnrichedSlide * Z * Z.

(** One iteration of [for idx, slide in enumerate(strawman.slides)]. *)
Definition enrich_slide (idx : Z) (slide : Slide) (strawman : PresentationStrawman)
           (session_id : pystr) (st : loop_state) : prog loop_state :=
  let '(enriched_slides, successful_slides, failed_slides) := st in
  try_except
    (pbind (await (GenerateSlideText slide strawman session_id (idx + 1)))
           (fun generated_text =>
              Return (enriched_slides
                        ++ [mkEnrichedSlide slide (slide_id slide)
                                            (Some generated_text) false],
                      successful_slides + 1, failed_slides)))
    (fun e =>
       Return (enriched_slides
                 ++ [mkEnrichedSlide slide (slide_id slide) None true],
               successful_slides, failed_slides + 1)).

Fixpoint enrich_slides (idx : Z) (todo : list Slide)
         (strawman : PresentationStrawman) (session_id : pystr)
         (st : loop_state) : prog loop_state :=
  match todo with
  | [] => Return st
  | slide :: rest =>
      pbind (enrich_slide idx slide strawman session_id st)
            (enrich_slides (idx + 1) rest strawman session_id)
  end.

(** From [enriched_slides = []] to the construction of the
    [EnrichedPresentationStrawman]; the counters are returned with it. *)
Definition build_enriched_presentation (strawman : PresentationStrawman)
           (session_id : pystr)
  : prog (EnrichedPresentationStrawman * Z * Z) :=
  pbind utcnow (fun start_time =>
  pbind (enrich_slides 0 (slides strawman) strawman session_id ([], 0, 0))
        (fun '(enriched_slides, successful_slides, failed_slides) =>
  pbind utcnow (fun end_time =>
  pbind utcnow (fun now =>
  Return
    (mkEnriched strawman enriched_slides
       (dict_of
          [(str "total_slides", PInt (len (slides strawman)));
           (str "successful_slides", PInt successful_slides);
           (str "failed_slides", PInt failed_slides);
           (str "generation_time_seconds",
             total_seconds_between start_time end_time);
           (str "timestamp", PStr (isoformat now));
           (str "service_used", PStr (str "text_service_v1.0"))]),
     successful_slides, failed_slides))))).

Definition _send_enriched_to_layout_architect
           (enriched : EnrichedPresentationStrawman) : prog pystr :=
  pbind (lift (transform_presentation content_schema_of today
                                      (original_strawman enriched) (Some enriched)))
        (fun api_payload =>
  pbind (await (CreatePresentation api_payload)) (fun api_response =>
  pbind (lift (subscript api_response (str "url"))) (fun url =>
  Return (get_full_url url)))).

(** The fallback of the [except] clause: the strawman with placeholders. *)
Definition send_placeholders (strawman : PresentationStrawman) : prog Response :=
  pbind (lift (transform_presentation content_schema_of today strawman None))
        (fun api_payload =>
  pbind (await (CreatePresentation api_payload)) (fun api_response =>
  pbind (lift (subscript api_response (str "url"))) (fun url =>
  let fallback_url := get_full_url url in
  Return
    (RespDict
       (dict_of
          [(str "type", PStr (str "presentation_url"));
           (str "url", PStr fallback_url);
           (str "slide_count", PInt (len (slides strawman)));
           (str "content_generated", PBool false);
           (str "message",
             PStr (str "Presentation created (fallback mode): " ++ fallback_url))]))))).

(** [if self.deck_builder_enabled: try: ... except Exception: ...
     else: response = enriched_presentation] *)
Definition send_to_layout_architect (strawman : PresentationStrawman)
           (enriched_presentation : EnrichedPresentationStrawman)
           (successful_slides failed_slides : Z) : prog Response :=
  if deck_builder_enabled then
    try_except
      (pbind (_send_enriched_to_layout_architect enriched_presentation)
             (fun deck_url =>
                Return
                  (RespDict
                     (dict_of
                        [(str "type", PStr (str "presentation_url"));
                         (str "url", PStr deck_url);
                         (str "slide_count", PInt (len (slides strawman)));
                         (str "content_generated", PBool true);
                         (str "successful_slides", PInt successful_slides);
                         (str "failed_slides", PInt failed_slides);
                         (str "message",
                           PStr (str "Your presentation with generated content is ready! View it at: "
                                   ++ deck_url))]))))
      (fun e => send_placeholders strawman)
  else Return (RespEnriched enriched_presentation).

(** The branch [elif state_context.current_state == "CONTENT_GENERATION"];
    [strawman_data] is the strawman kept in the session, if any. *)
Definition process_content_generation (strawman_data : option PresentationStrawman)
           (session_id : pystr) : prog Response :=
  match strawman_data with
  | None =>
      Throw (ValueError (str "No strawman found in session for content generation"))
  | Some strawman =>
      pbind (build_enriched_presentation strawman session_id)
            (fun '(enriched_presentation, successful_slides, failed_slides) =>
               send_to_layout_architect strawman enriched_presentation
                                        successful_slides failed_slides)
  end.

End ContentGeneration.

End DirectorAgent.

Import DirectorAgent.

(** ** Vocabulary for stating the properties *)

(** [sub] occurs in [s] at index [d]. *)
Definition occurs_at (sub s : pystr) (d : Z) : Prop :=
  0 <= d /\ startswith sub (drop (Z.to_nat d) s) = true.

(** [d] is the index of the last occurrence of [sub] in [s]. *)
Definition last_occurrence (sub s : pystr) (d : Z) : Prop :=
  occurs_at sub s d /\ forall j, d < j -> ~ occurs_at sub s j.

(** *** The cut rule in the words of the specification

    "Prefer cutting at the last sentence-ending punctuation ([. ], [! ],
    [? ]) found at or after 70% of [max_chars]; else cut at the last
    whitespace boundary; else hard-cut at [max_chars]."  The functions below
    follow these words, not the code, and give the text kept when no ellipsis
    is requested. *)

(** Index of the last sentence delimiter at or after 70% of [max_chars]. *)
Definition spec_last_sentence_end (t : pystr) (max_chars : Z) : option Z :=
  let found :=
    List.filter (fun d => (0 <=? d) && (7 * max_chars <=? 10 * d))
                (map (rfind t) delimiters) in
  match found with
  | [] => None
  | d :: ds => Some (fold_right Z.max d ds)
  end.

(** Index of the last whitespace character. *)
Fixpoint spec_last_whitespace_from (t : pystr) (i : Z) (last : option Z)
  : option Z :=
  match t with
  | [] => last
  | c :: t' =>
      spec_last_whitespace_from t' (i + 1) (if isspace c then Some i else last)
  end.

Definition spec_cut (text : pystr) (max_chars : Z) : pystr :=
  if len text <=? max_chars then text
  else
    let t := slice_to text max_chars in
    match spec_last_sentence_end t max_chars with
    | Some d => slice_to t (d + 1)
    | None =>
        match spec_last_whitespace_from t 0 None with
        | Some k => slice_to t k
        | None => t
        end
    end.

(** *** Which fields of a structured content each layout forwards *)

(** The layouts whose mapping function never looks at generated content. *)
Definition fixed_layouts : list pystr := [str "L01"; str "L02"; str "L03"].

(** The keys a layout's mapping function copies from structured content;
    [None] stands for every key (the generic mapping returns the generated
    mapping itself). *)
Definition forwarded_keys (layout_id : pystr) : option (list pystr) :=
  if bool_decide (layout_id ∈ fixed_layouts) then Some []
  else if bool_decide (layout_id = str "L04") then
    Some [str "slide_title"; str "main_text_content"; str "subtitle"; str "summary"]
  else if bool_decide (layout_id = str "L05") then
    Some [str "slide_title"; str "bullets"; str "subtitle"]
  else if bool_decide (layout_id = str "L06") then
    Some [str "slide_title"; str "numbered_items"; str "subtitle"]
  else if bool_decide (layout_id = str "L10") then
    Some [str "slide_title"; str "text_content"; str "subtitle"]
  else if bool_decide (layout_id = str "L17") then
    Some [str "slide_title"; str "key_insights"; str "subtitle"; str "summary"]
  else None.

Definition forwards (layout_id key : pystr) : Prop :=
  match forwarded_keys layout_id with
  | Some keys => In key keys
  | None => True
  end.

(** The schema attributes a mapping function reads before it looks at the
    generated content. *)
Definition attributes_read_first (layout_id : pystr) : list (pystr * pystr) :=
  if bool_decide (layout_id = str "L05") then
    [(str "bullets", str "max_items"); (str "bullets", str "max_chars_per_item")]
  else if bool_decide (layout_id = str "L06") then
    [(str "numbered_items", str "max_items")]
  else if bool_decide (layout_id = str "L17") then
    [(str "key_insights", str "max_items");
     (str "key_insights", str "max_chars_per_item")]
  else [].

(** ** Sample data (after [tests/test_format_ownership.py]) *)

Module Sample.

Definition slide : Slide :=
  {| slide_number := 1;
     slide_id := str "test-001";
     title := str "Key Benefits";
     slide_type := str "content_heavy";
     layout_id := Some (str "L05");
     layout_selection_reasoning := None;
     narrative := str "Overview of main advantages";
     key_points := [str "Benefit 1"; str "Benefit 2"; str "Benefit 3"];
     analytics_needed := None;
     visuals_needed := None;
     diagrams_needed := None;
     tables_needed := None;
     structure_preference := None;
     speaker_notes := None |}.

Definition presentation : PresentationStrawman :=
  {| main_title := str "Test Presentation";
     overall_theme := str "Test Theme";
     slides := [];
     design_suggestions := str "Modern professional";
     target_audience := str "Executives";
     presentation_duration := 10 |}.

Definition max_chars_spec (n : Z) : gmap pystr Z :=
  dict_of [(str "max_chars", n)].

Definition list_spec (items chars : Z) : gmap pystr Z :=
  dict_of [(str "max_items", items); (str "max_chars_per_item", chars)].

(** A schema table with a title layout, a bullet list and a numbered list. *)
Definition content_schema_of (layout_id : pystr) : result ContentSchema :=
  subscript
    (dict_of
       [(str "L01",
          dict_of [(str "main_title", max_chars_spec 60);
                   (str "subtitle", max_chars_spec 100);
                   (str "organization", max_chars_spec 50)]);
        (str "L05",
          dict_of [(str "slide_title", max_chars_spec 60);
                   (str "subtitle", max_chars_spec 80);
                   (str "bullets", list_spec 5 100)]);
        (str "L06",
          dict_of [(str "slide_title", max_chars_spec 60);
                   (str "subtitle", max_chars_spec 80);
                   (str "numbered_items", list_spec 5 100)])])
    layout_id.

Definition today : pystr := str "2025-01-01".

Definition structured_content : gmap pystr pyval :=
  dict_of
    [(str "slide_title", PStr (str "Key Benefits"));
     (str "subtitle", PStr (str "Our Competitive Advantages"));
     (str "bullets",
       PStr (str "<ul><li>Cost savings of 30%</li><li>Improved efficiency by 50%</li><li>Enhanced scalability</li></ul>"))].

Definition enriched (c : Content) : EnrichedSlide :=
  {| original_slide := slide;
     es_slide_id := str "test-001";
     generated_text := Some {| content := c; metadata := ∅ |};
     has_text_failure := false |}.

(** Structured content for a title slide. *)
Definition title_content : gmap pystr pyval :=
  dict_of [(str "main_title", PStr (str "Generated Title"))].

(** A slide with four short key points, and one with content hints. *)
Definition four_points : Slide :=
  {| slide_number := 2;
     slide_id := str "slide_002";
     title := str "Agenda";
     slide_type := str "content_heavy";
     layout_id := Some (str "L05");
     layout_selection_reasoning := None;
     narrative := str "What we cover today";
     key_points := [str "Point 1"; str "Point 2"; str "Point 3"; str "Point 4"];
     analytics_needed := None;
     visuals_needed := None;
     diagrams_needed := None;
     tables_needed := None;
     structure_preference := None;
     speaker_notes := None |}.

Definition with_hints : Slide :=
  {| slide_number := 3;
     slide_id := str "slide_003";
     title := str "Growth";
     slide_type := str "data_driven";
     layout_id := None;
     layout_selection_reasoning := None;
     narrative := str "Revenue grew. Costs fell.";
     key_points :=
       [str "Revenue: up 10 percent"; str "Costs down"; str "Third point here"];
     analytics_needed :=
       Some (str "**Goal:** show x **Content:** a chart of y **Style:** flat");
     visuals_needed := Some [];
     diagrams_needed := Some (str "flow diagram");
     tables_needed := None;
     structure_preference := None;
     speaker_notes := None |}.

Definition image_text_schema : ContentSchema :=
  dict_of [(str "slide_title", max_chars_spec 60);
           (str "text_content", max_chars_spec 40)].

(** Legacy contents: three lines, the first of exactly 10 characters; and
    two short lines. *)
Definition legacy_lines : pystr :=
  join [newline]
       [str "Cut costs."; str "- Raise quality of service";
        str "Expand to new markets"].

Definition short_lines : pystr := join [newline] [str "Go"; str "Stop"].

End Sample.

(** *** The legacy parse of a bullet-shaped field, as a pipeline *)

(** A line as the loop sees it: stripped, without one leading marker. *)
Definition clean_line (line : pystr) : pystr :=
  strip_marker (strip line) bullet_markers.

(** The lines the loop keeps. *)
Definition long_enough (line : pystr) : bool := 10 <? len line.

Definition parsed_bullets (generated_content : pystr) (max_items max_chars : Z)
  : list pystr :=
  map (fun line => truncate line max_chars false)
      (slice_to (List.filter long_enough
                             (map clean_line (split_char newline generated_content)))
                max_items).

(** The separators of the numbered-list parse. *)
Definition colon : char := 58%N.
Definition period : char := 46%N.
Definition dash : char := 45%N.

(** The lines the numbered-list parse looks at: stripped, blank ones
    removed. *)
Definition nonblank_lines (generated_content : pystr) : list pystr :=
  map strip
      (List.filter (fun line => match strip line with [] => false | _ => true end)
                   (split_char newline generated_content)).

(** A numbered item whose title and description respect the fixed caps. *)
Definition item_within_caps (item : pyval) : Prop :=
  exists title description,
    item = PDict (dict_of [(str "title", PStr title);
                           (str "description", PStr description)])
    /\ len title <= 40 /\ len description <= 150.

(** *** The legacy parse in the words of the specification

    "Split on newlines, strip leading bullet markers, drop lines shorter than
    10 characters, cap at the field's [max_items]", each item truncated to the
    per-item cap. *)
Definition spec_list_items (generated_content : pystr) (max_items max_chars : Z)
  : list pystr :=
  map (fun line => truncate line max_chars false)
      (slice_to (List.filter (fun line => negb (len line <? 10))
                             (map clean_line (split_char newline generated_content)))
                max_items).

(** "For numbered items, detect a [":"] or [". "] delimiter to split a
    synthetic title/description, defaulting the title to ["Step N"] when no
    delimiter is found." *)
Definition spec_numbered_line (idx : Z) (line : pystr) : pystr * pystr :=
  let at_colon := find line (str ":") in
  let at_period := find line (str ". ") in
  if 0 <=? at_colon
  then (slice_to line at_colon, drop (Z.to_nat at_colon + 1) line)
  else if 0 <=? at_period
  then (slice_to line at_period, drop (Z.to_nat at_period + 2) line)
  else (step_title idx, line).

(** *** Counting text-generation failures *)

(** The number of failed text-generation calls among [calls]. *)
Definition failed_calls (calls : list (Slide * Z * bool)) : Z :=
  len (List.filter snd calls).

(** The slide numbers [first], [first + 1], ... for [n] slides. *)
Fixpoint slide_numbers (first : Z) (n : nat) : list Z :=
  match n with
  | O => []
  | S n' => first :: slide_numbers (first + 1) n'
  end.

(** ** Sample collaborators *)

Module SampleWorld.

(** A one-slide strawman. *)
Definition strawman : PresentationStrawman :=
  {| main_title := str "Test Presentation";
     overall_theme := str "Test Theme";
     slides := [Sample.slide];
     design_suggestions := str "Modern professional";
     target_audience := str "Executives";
     presentation_duration := 10 |}.

Definition generated : GeneratedText :=
  {| content := Legacy Sample.legacy_lines; metadata := ∅ |}.

(** The text service answers; the deck builder is unreachable. *)
Definition deck_builder_down (X : Type) (c : call X) (w : unit)
  : result X * unit :=
  match c in call X return result X * unit with
  | RunLayoutAgent _ => (Raise (Failure (str "model unavailable")), w)
  | GenerateSlideText _ _ _ _ => (Ok generated, w)
  | CreatePresentation _ => (Raise (Failure (str "deck-builder unreachable")), w)
  end.

(** The deck builder fails on the first request and answers the second;
    the state counts the requests it has seen. *)
Definition deck_builder_recovers (X : Type) (c : call X) (w : nat)
  : result X * nat :=
  match c in call X return result X * nat with
  | RunLayoutAgent _ => (Raise (Failure (str "model unavailable")), w)
  | GenerateSlideText _ _ _ _ => (Ok generated, w)
  | CreatePresentation _ =>
      match w with
      | O => (Raise (Failure (str "deck-builder timeout")), S w)
      | S _ => (Ok (dict_of [(str "id", str "deck-1");
                             (str "url", str "/p/deck-1")]), S w)
      end
  end.

Definition clock {W} (w : W) : Z * W := (0, w).

Definition get_full_url (url : pystr) : pystr := str "http://localhost:8000" ++ url.

Definition total_seconds_between (t0 t1 : Z) : pyval := PInt (t1 - t0).

Definition isoformat (t : Z) : pystr := str "1970-01-01T00:00:00".

(** The stage, with the deck builder enabled, on the one-slide strawman. *)
Definition stage : prog Response :=
  process_content_generation Sample.content_schema_of Sample.today get_full_url
                             total_seconds_between isoformat true
                             (Some strawman) (str "session-1").

(** The [CreatePresentation] requests of a trace, with whether each failed. *)
Fixpoint render_calls (trace : list event) : list bool :=
  match trace with
  | [] => []
  | Event c r :: rest =>
      match c with
      | CreatePresentation _ =>
          match r with Ok _ => false | Raise _ => true end :: render_calls rest
      | _ => render_calls rest
      end
  end.

End SampleWorld.



(** ** [CheckpointManager] ([checkpoint_manager.py]): the stage order *)

Module CheckpointManager.

Definition STAGES : list pystr :=
  [ str "PROVIDE_GREETING";
    str "ASK_CLARIFYING_QUESTIONS";
    str "CREATE_CONFIRMATION_PLAN";
    str "GENERATE_STRAWMAN";
    str "REFINE_STRAWMAN";
    str "CONTENT_GENERATION" ].

Definition STAGE_FILES : gmap pystr pystr :=
  dict_of
    [ (str "PROVIDE_GREETING", str "stage_1_greeting.json");
      (str "ASK_CLARIFYING_QUESTIONS", str "stage_2_clarifying.json");
      (str "CREATE_CONFIRMATION_PLAN", str "stage_3_confirmation.json");
      (str "GENERATE_STRAWMAN", str "stage_4_strawman.json");
      (str "REFINE_STRAWMAN", str "stage_5_refined.json");
      (str "CONTENT_GENERATION", str "stage_6_content_ready.json") ].

(** [l.index(x)]: the first position of [x], or nothing when [x] is not in
    [l] (where Python raises). *)
Fixpoint list_index (x : pystr) (l : list pystr) : option Z :=
  match l with
  | [] => None
  | y :: l' =>
      if bool_decide (y = x) then Some 0
      else match list_index x l' with
           | Some i => Some (i + 1)
           | None => None
           end
  end.

Definition get_stage_index (stage : pystr) : result Z :=
  if negb (bool_decide (stage ∈ STAGES))
  then Raise (ValueError (str "Invalid stage: " ++ stage))
  else match list_index stage STAGES with
       | Some i => Ok i
       | None => Raise (ValueError (stage ++ str " is not in list"))
       end.

Definition get_previous_stages (stage : pystr) : result (list pystr) :=
  let* stage_index := get_stage_index stage in
  Ok (slice_to STAGES stage_index).

End CheckpointManager.

(** ** Paths through the workflow *)

(** [t] can be reached from [s] by allowed transitions. *)
Inductive reachable : pystr -> pystr -> Prop :=
| reach_here (s : pystr) : reachable s s
| reach_step (s t u : pystr) :
    WorkflowOrchestrator.validate_transition s t = Ok true ->
    reachable t u -> reachable s u.

(** ** Vocabulary for the payload *)

(** The layout [transform_presentation] uses for the slide at position
    [idx]: its [layout_id] when it has a non-empty one, the positional
    fallback otherwise. *)
Definition assigned_layout (idx total_slides : Z) (slide : Slide) : pystr :=
  match truthy (layout_id slide) with
  | Some l => l
  | None => fallback_layout idx total_slides slide
  end.

(** The fields the generic mapping may fill. *)
Definition generic_fields : list pystr :=
  [str "slide_title"; str "subtitle"; str "bullets"].

(** The output fields that no mapping function measures against the schema:
    fixed texts, the date, asset placeholders, and the numbered items, whose
    caps are fixed in the code. *)
Definition unbudgeted_fields : list pystr :=
  [str "presenter_name"; str "date"; str "contact_email"; str "website";
   str "social_media"; str "image"; str "chart_url"; str "numbered_items"].

(** Every limit of the schema is a non-negative number. *)
Definition schema_nonneg (fields : ContentSchema) : Prop :=
  map_Forall (fun _ spec => map_Forall (fun _ n => 0 <= n) spec) fields.

(** The value [v] of the output field [key] is within the limits the schema
    declares for that field: [max_chars] for a string, [max_items] and
    [max_chars_per_item] for a list of strings. *)
Definition within_budget (fields : ContentSchema) (key : pystr) (v : pyval) : Prop :=
  match v with
  | PStr s =>
      exists n, field_attr fields key (str "max_chars") = Ok n /\ len s <= n
  | PList items =>
      exists max_items max_chars,
        field_attr fields key (str "max_items") = Ok max_items
        /\ field_attr fields key (str "max_chars_per_item") = Ok max_chars
        /\ len items <= max_items
        /\ Forall (fun item => exists s, item = PStr s /\ len s <= max_chars) items
  | _ => True
  end.

(** All budgeted fields of an output dictionary are within budget. *)
Definition fits_schema (fields : ContentSchema) (out : gmap pystr pyval) : Prop :=
  forall key v,
    ~ In key unbudgeted_fields -> out !! key = Some v -> within_budget fields key v.

(** The layouts whose mapping function reads the caps of a list field, with
    that field. *)
Definition list_field_of : list (pystr * pystr) :=
  [(str "L05", str "bullets");
   (str "L06", str "numbered_items");
   (str "L17", str "key_insights")].

(** ** The [GENERATE_STRAWMAN] and [REFINE_STRAWMAN] branches of [process]
       ([src/agents/director.py]), from the formatted strawman on *)

Module StrawmanStages.

(** [slide.layout_id = layout_selection.layout_id;
     slide.layout_selection_reasoning = layout_selection.reasoning] *)
Definition assign_layout (slide : Slide) (layout_selection : LayoutSelection)
  : Slide :=
  {| slide_number := slide_number slide;
     slide_id := slide_id slide;
     title := title slide;
     slide_type := slide_type slide;
     layout_id := Some (sel_layout_id layout_selection);
     layout_selection_reasoning := Some (sel_reasoning layout_selection);
     narrative := narrative slide;
     key_points := key_points slide;
     analytics_needed := analytics_needed slide;
     visuals_needed := visuals_needed slide;
     diagrams_needed := diagrams_needed slide;
     tables_needed := tables_needed slide;
     structure_preference := structure_preference slide;
     speaker_notes := speaker_notes slide |}.

(** The slide position handed to [_select_layout_by_use_case]. *)
Definition position_of (idx total_slides : Z) : pystr :=
  if idx =? 0 then str "first"
  else if idx =? total_slides - 1 then str "last"
  else str "middle".

(** The strawman with its slides replaced. *)
Definition with_slides (strawman : PresentationStrawman) (new_slides : list Slide)
  : PresentationStrawman :=
  {| main_title := main_title strawman;
     overall_theme := overall_theme strawman;
     slides := new_slides;
     design_suggestions := design_suggestions strawman;
     target_audience := target_audience strawman;
     presentation_duration := presentation_duration strawman |}.

(** What these branches return: the response dictionary, whose [strawman]
    entry is kept beside its JSON entries, or the strawman itself. *)
Inductive StrawmanResponse : Type :=
| RespUrl (d : gmap pystr pyval) (strawman : PresentationStrawman)
| RespStrawman (strawman : PresentationStrawman).

Definition strawman_of (response : StrawmanResponse) : PresentationStrawman :=
  match response with
  | RespUrl _ strawman => strawman
  | RespStrawman strawman => strawman
  end.

Section Stages.

(** [self.layout_schema_manager], which a director built with the deck
    builder disabled does not have, and [repr] on strings. *)
Variable layout_schema_manager : option (list pystr -> result pystr).
Variable repr : pystr -> pystr.
Variable content_schema_of : pystr -> result ContentSchema.
Variable today : pystr.
Variable get_full_url : pystr -> pystr.
Variable deck_builder_enabled : bool.

(** The loop [for idx, slide in enumerate(strawman.slides)] that assigns a
    layout to every slide; the slides of a strawman are distinct objects,
    so the assignments are collected in a new list. *)
Fixpoint select_layouts (idx total_slides : Z) (todo : list Slide)
  : prog (list Slide) :=
  match todo with
  | [] => Return []
  | slide :: rest =>
      let position := position_of idx total_slides in
      pbind (_select_layout_by_use_case layout_schema_manager repr
                                        slide position total_slides)
            (fun layout_selection =>
      pbind (select_layouts (idx + 1) total_slides rest) (fun others =>
      Return (assign_layout slide layout_selection :: others)))
  end.

(** [if self.deck_builder_enabled: try: ... except Exception: response = strawman
     else: response = strawman]; [ready] is the beginning of the message,
    which differs between the two branches. *)
Definition send_strawman (ready : pystr) (strawman : PresentationStrawman)
  : prog StrawmanResponse :=
  if deck_builder_enabled then
    try_except
      (pbind (lift (transform_presentation content_schema_of today strawman None))
             (fun api_payload =>
       pbind (await (CreatePresentation api_payload)) (fun api_response =>
       pbind (lift (subscript api_response (str "url"))) (fun url =>
       let presentation_url := get_full_url url in
       pbind (lift (subscript api_response (str "id"))) (fun presentation_id =>
       Return
         (RespUrl
            (dict_of
               [(str "type", PStr (str "presentation_url"));
                (str "url", PStr presentation_url);
                (str "presentation_id", PStr presentation_id);
                (str "slide_count", PInt (len (slides strawman)));
                (str "message", PStr (ready ++ presentation_url))])
            strawman))))))
      (fun e => Return (RespStrawman strawman))
  else Return (RespStrawman strawman).

(** [GENERATE_STRAWMAN], after [AssetFormatter.format_strawman]: the layout
    loop, which raises when the schema manager cannot be asked, then the deck
    builder. *)
Definition generate_strawman (strawman : PresentationStrawman)
  : prog StrawmanResponse :=
  let total_slides := len (slides strawman) in
  pbind (select_layouts 0 total_slides (slides strawman)) (fun new_slides =>
  send_strawman (str "Your presentation is ready! View it at: ")
                (with_slides strawman new_slides)).

(** [REFINE_STRAWMAN], after [AssetFormatter.format_strawman]. *)
Definition refine_strawman (strawman : PresentationStrawman)
  : prog StrawmanResponse :=
  send_strawman (str "Your refined presentation is ready! View it at: ") strawman.

End Stages.

End StrawmanStages.

Import StrawmanStages.

(** The payloads sent to the deck builder in a trace. *)
Fixpoint sent_payloads (trace : list event) : list Payload :=
  match trace with
  | [] => []
  | Event c r :: rest =>
      match c with
      | CreatePresentation api_payload => api_payload :: sent_payloads rest
      | _ => sent_payloads rest
      end
  end.

(** Whether the slide at [idx] is sent to the model for its layout. *)
Definition needs_model (idx total_slides : Z) (slide : Slide) : bool :=
  negb (idx =? 0) && negb (idx =? total_slides - 1)
  && negb (bool_decide (slide_type slide = str "section_divider")).

(** The prompts of the slides sent to the model, in slide order, for the
    layout options the schema manager rendered. *)
Fixpoint expected_prompts (layout_options_text : pystr)
         (idx total_slides : Z) (todo : list Slide) : list pystr :=
  match todo with
  | [] => []
  | slide :: rest =>
      (if needs_model idx total_slides slide
       then [layout_prompt slide layout_options_text]
       else [])
      ++ expected_prompts layout_options_text (idx + 1) total_slides rest
  end.

(** The layout a slide gets when the model is not asked. *)
Definition fixed_layout (idx total_slides : Z) : pystr :=
  if idx =? 0 then str "L01"
  else if idx =? total_slides - 1 then str "L03"
  else str "L02".

(** A stand-in for the schema manager: it renders no layout option. *)
Definition no_options : option (list pystr -> result pystr) :=
  Some (fun exclude_layout_ids => Ok []).

(** [repr] on the strings that need no escape: the text between single
    quotes. *)
Definition quoted (s : pystr) : pystr := str "'" ++ s ++ str "'".

(** The selection returned when the model is asked and answers [r]. *)
Definition model_selection (repr : pystr -> pystr) (r : result LayoutSelection)
  : LayoutSelection :=
  match r with
  | Ok selection => selection
  | Raise e =>
      mkSelection (str "L05")
                  (str "Fallback layout after AI selection error: "
                     ++ slice_to (exn_str repr e) 100)
                  f0_5
  end.

(** Three slides for the layout loop: the one in the middle has content. *)
Definition three_slides : list Slide :=
  [Sample.slide; Sample.four_points; Sample.slide].

(** ** The request sent to the text service
       ([_build_constraints_from_schema] and [_convert_schema_request_to_v1] of
       [src/agents/director.py], [_transform_request] of
       [src/utils/text_service_client.py])

    These functions work on dictionaries of arbitrary values; numbers are
    integers, as [pyval] holds no floats.  A function that may raise returns
    an [option]: [None] stands for the exception ([KeyError],
    [AttributeError] or [TypeError]) that leaves it. *)

Module TextRequest.

(** [v.get(key, dflt)]: only a dictionary has [get]. *)
Definition get (v : pyval) (key : pystr) (dflt : pyval) : option pyval :=
  match v with
  | PDict d => Some (dict_get d key dflt)
  | _ => None
  end.

(** [v == s] for a string literal [s]. *)
Definition is_str (v : pyval) (s : pystr) : bool :=
  match v with
  | PStr s' => bool_decide (s' = s)
  | _ => false
  end.

(** The integer an arithmetic operand stands for; [bool] is a subclass of
    [int].  Adding any other value to an integer raises, and so does adding
    the product of two values that are not both of this kind. *)
Definition as_int (v : pyval) : option Z :=
  match v with
  | PInt z => Some z
  | PBool b => Some (if b then 1 else 0)
  | _ => None
  end.

(** The state of the loop: [total_chars], [has_bullets], [has_numbered]. *)
Definition scan_state : Type := Z * bool * bool.

(** One iteration of [for field_name, field_spec in layout_schema.items()]. *)
Definition scan_field (st : scan_state) (field_spec : pyval) : option scan_state :=
  let '(total_chars, has_bullets, has_numbered) := st in
  type ← get field_spec (str "type") PNone;
  match field_spec with
  | PDict spec =>
      if is_str type (str "string") && dict_has (str "max_chars") spec then
        max_chars ← as_int (dict_get spec (str "max_chars") PNone);
        Some (total_chars + max_chars, has_bullets, has_numbered)
      else if is_str type (str "array") then
        items ← as_int (dict_get spec (str "max_items") (PInt 5));
        chars_per ← as_int (dict_get spec (str "max_chars_per_item") (PInt 100));
        Some (total_chars + items * chars_per, true, has_numbered)
      else if is_str type (str "array_of_objects") then
        Some (total_chars, has_bullets, true)
      else Some st
  | _ => None
  end.

Definition scan_fields (items : list (pystr * pyval)) (st : scan_state)
  : option scan_state :=
  fold_left (fun acc item => st ← acc; scan_field st (snd item)) items (Some st).

(** The format chosen after the loop. *)
Definition format_of (st : scan_state) : pystr :=
  let '(total_chars, has_bullets, has_numbered) := st in
  if has_bullets then str "bullet_points"
  else if has_numbered then str "numbered_list"
  else str "paragraph".

(** The dictionary returned after the loop. *)
Definition constraints_of (st : scan_state) : gmap pystr pyval :=
  let '(total_chars, has_bullets, has_numbered) := st in
  dict_of [(str "max_characters",
             PInt (if total_chars =? 0 then 800 else total_chars));
           (str "tone", PStr (str "professional"));
           (str "format", PStr (format_of st))].

(** The function on the items of the schema, in iteration order. *)
Definition constraints_of_items (items : list (pystr * pyval))
  : option (gmap pystr pyval) :=
  st ← scan_fields items (0, false, false);
  Some (constraints_of st).

Definition _build_constraints_from_schema (layout_schema : pyval)
  : option (gmap pystr pyval) :=
  match layout_schema with
  | PDict fields => constraints_of_items (map_to_list fields)
  | _ => None
  end.

Section Requests.

(** [f"{v}"] for a value [v]: Python's [str]. *)
Variable py_str : pyval -> pystr.

Definition _convert_schema_request_to_v1 (schema_request : gmap pystr pyval)
  : option (gmap pystr pyval) :=
  guidance ← schema_request !! str "content_guidance";
  layout_schema ← schema_request !! str "layout_schema";
  constraints ← _build_constraints_from_schema layout_schema;
  slide_id ← schema_request !! str "slide_id";
  slide_number ← schema_request !! str "slide_number";
  topics ← get guidance (str "key_points") (PList []);
  narrative ← get guidance (str "narrative") (PStr []);
  context_title ← get guidance (str "presentation_context") (PDict ∅);
  main_title ← get context_title (str "main_title") (PStr []);
  context_theme ← get guidance (str "presentation_context") (PDict ∅);
  overall_theme ← get context_theme (str "overall_theme") (PStr []);
  slide_context ← get guidance (str "narrative") (PStr []);
  Some
    (dict_of
       [(str "presentation_id",
          dict_get schema_request (str "presentation_id") (PStr (str "default")));
        (str "slide_id", slide_id);
        (str "slide_number", slide_number);
        (str "topics", topics);
        (str "narrative", narrative);
        (str "context",
          PDict
            (dict_of
               [(str "presentation_context",
                  PStr (py_str main_title ++ str " - " ++ py_str overall_theme));
                (str "slide_context", slide_context);
                (str "previous_slides", PList [])]));
        (str "constraints", PDict constraints)]).

End Requests.

Definition _transform_request (orchestrator_request : gmap pystr pyval)
  : option (gmap pystr pyval) :=
  let context := dict_get orchestrator_request (str "context") (PDict ∅) in
  let constraints := dict_get orchestrator_request (str "constraints") (PDict ∅) in
  presentation_context ← get context (str "presentation_context") (PStr []);
  slide_context ← get context (str "slide_context") (PStr []);
  previous_slides ← get context (str "previous_slides") (PList []);
  word_count ← get constraints (str "word_count") (PInt 150);
  tone ← get constraints (str "tone") (PStr (str "professional"));
  format ← get constraints (str "format") (PStr (str "paragraph"));
  Some
    (dict_of
       [(str "presentation_id",
          dict_get orchestrator_request (str "presentation_id")
                   (PStr (str "default_pres")));
        (str "slide_id",
          dict_get orchestrator_request (str "slide_id") (PStr (str "unknown")));
        (str "slide_number",
          dict_get orchestrator_request (str "slide_number") (PInt 1));
        (str "topics", dict_get orchestrator_request (str "topics") (PList []));
        (str "narrative", dict_get orchestrator_request (str "narrative") (PStr []));
        (str "context",
          PDict
            (dict_of [(str "presentation_context", presentation_context);
                      (str "slide_context", slide_context);
                      (str "previous_slides", previous_slides)]));
        (str "constraints",
          PDict
            (dict_of [(str "word_count", word_count);
                      (str "tone", tone);
                      (str "format", format)]))]).

End TextRequest.

(** The [type] entry of a field specification, when it is a string. *)
Definition type_of (spec : gmap pystr pyval) : option pystr :=
  match spec !! str "type" with
  | Some (PStr type) => Some type
  | _ => None
  end.

(** Whether a field specification is a dictionary of the given [type]. *)
Definition has_type (type : pystr) (item : pystr * pyval) : bool :=
  match snd item with
  | PDict spec => bool_decide (type_of spec = Some type)
  | _ => false
  end.



(** A layout schema with a title and a list of bullets, and a schema
    request that carries it. *)
Definition sample_layout_schema : gmap pystr pyval :=
  dict_of
    [(str "slide_title",
       PDict (dict_of [(str "type", PStr (str "string"));
                       (str "max_chars", PInt 60)]));
     (str "bullets",
       PDict (dict_of [(str "type", PStr (str "array"));
                       (str "max_items", PInt 5);
                       (str "max_chars_per_item", PInt 100)]))].

Definition sample_schema_request : gmap pystr pyval :=
  dict_of
    [(str "slide_id", PStr (str "slide_002"));
     (str "layout_name", PStr (str "Bullet List"));
     (str "layout_schema", PDict sample_layout_schema);
     (str "content_guidance",
       PDict
         (dict_of
            [(str "narrative", PStr (str "Overview of main advantages"));
             (str "key_points", PList [PStr (str "Benefit 1")])]));
     (str "presentation_id", PStr (str "session-1"));
     (str "slide_number", PInt 2)].





(** The format that goes with a layout schema: bullets when it has an array
    field, else a numbered list when it has an array of objects, else a
    paragraph. *)
Definition schema_format (fields : gmap pystr pyval) : pystr :=
  if existsb (has_type (str "array")) (map_to_list fields)
  then str "bullet_points"
  else if existsb (has_type (str "array_of_objects")) (map_to_list fields)
  then str "numbered_list"
  else str "paragraph".

(** The entry the content-generation loop appends for a slide whose text
    call raised. *)
Definition failed_entry (slide : Slide) : EnrichedSlide :=
  mkEnrichedSlide slide (slide_id slide) None true.

(** * Properties *)

(** ** The embedding at work *)

(** [tests/test_format_ownership.py], [test_truncate_without_ellipsis]. *)
Example truncate_test_sentence :
  truncate (str "This is a very long sentence that needs to be truncated to fit within the character limit.") 50 false
  = str "This is a very long sentence that needs to be"
  /\ truncate (str "This is a very long sentence that needs to be truncated to fit within the character limit.") 50 true
     = str "This is a very long sentence that needs to be...".
Proof. split; reflexivity. Qed.

(** A bullet list without enriched content shows the key points. *)
Example bullet_list_from_key_points :
  exists out,
    transform_slide Sample.content_schema_of Sample.today Sample.four_points
                    (str "L05") Sample.presentation None = Ok out
    /\ ts_content out !! str "bullets"
       = Some (str_list [str "Point 1"; str "Point 2"; str "Point 3"; str "Point 4"]).
Proof. eexists. split; reflexivity. Qed.

(** Placeholders: the [Content] part of a hint in Goal/Content/Style form,
    the whole hint otherwise. *)
Example placeholder_content_part :
  generate_placeholder
    (str "**Goal:** show x **Content:** a chart of y **Style:** flat") (str "CHART")
  = str "PLACEHOLDER_CHART: a chart of y"
  /\ generate_placeholder (str "flow diagram") (str "DIAGRAM")
     = str "PLACEHOLDER_DIAGRAM: flow diagram".
Proof. split; reflexivity. Qed.

(** An image slide without enriched content: an empty [visuals_needed] is
    skipped in favour of [diagrams_needed]; the text is the narrative followed
    by the key points, cut at the last space within 40 characters. *)
Example image_text_placeholders :
  exists out,
    _map_image_text Sample.with_hints Sample.image_text_schema
                    Sample.presentation None = Ok out
    /\ out !! str "image" = Some (PStr (str "PLACEHOLDER_DIAGRAM: flow diagram"))
    /\ out !! str "text_content"
       = Some (PStr (str "Revenue grew. Costs fell." ++ [newline; newline]
                       ++ str "Revenue: up"))
    /\ out !! str "subtitle" = None.
Proof. eexists. repeat split; reflexivity. Qed.

(** Slides without [layout_id]: the position decides. *)
Example fallback_layouts :
  fallback_layout 0 5 Sample.with_hints = str "L01"
  /\ fallback_layout 4 5 Sample.with_hints = str "L03"
  /\ fallback_layout 2 5 Sample.with_hints = str "L05".
Proof. repeat split; reflexivity. Qed.

(** ** Facts about the string primitives *)

Section StringFacts.

Lemma len_nonneg {A} (s : list A) : 0 <= len s.
Proof. unfold len. lia. Qed.

Lemma len_app {A} (s t : list A) : len (s ++ t) = len s + len t.
Proof. unfold len. rewrite length_app. lia. Qed.

Lemma len_str_literal (s : string) : len (str s) = Z.of_nat (String.length s).
Proof.
  unfold len, str. rewrite length_map. f_equal.
  induction s as [|c s IH]; simpl; [reflexivity | now rewrite IH].
Qed.

(** Every slice [s[:k]] is a prefix of [s]. *)
Lemma slice_to_is_take {A} (s : list A) (k : Z) :
  exists m : nat, slice_to s k = take m s.
Proof. unfold slice_to. destruct (0 <=? k); eauto. Qed.

Lemma len_slice_to_le {A} (s : list A) (k : Z) : len (slice_to s k) <= len s.
Proof.
  destruct (slice_to_is_take s k) as [m ->]. unfold len.
  rewrite length_take. lia.
Qed.

Lemma slice_to_nonneg {A} (s : list A) (k : Z) :
  0 <= k -> slice_to s k = take (Z.to_nat k) s.
Proof. intros H. unfold slice_to. destruct (Z.leb_spec 0 k); [reflexivity | lia]. Qed.

Lemma len_slice_to_exact {A} (s : list A) (k : Z) :
  0 <= k <= len s -> len (slice_to s k) = k.
Proof.
  intros [H0 H1]. rewrite slice_to_nonneg by assumption. unfold len in *.
  rewrite length_take. lia.
Qed.

Lemma slice_to_all {A} (s : list A) (k : Z) :
  len s <= k -> slice_to s k = s.
Proof.
  intros H. pose proof (len_nonneg s). rewrite slice_to_nonneg by lia.
  apply take_ge. unfold len in *. lia.
Qed.

(** A slice of a slice taken at non-negative bounds is a slice of the
    original string. *)
Lemma slice_to_slice_to {A} (s : list A) (n k : Z) :
  0 <= k <= n -> slice_to (slice_to s n) k = take (Z.to_nat k) s.
Proof.
  intros [H0 H1]. rewrite !slice_to_nonneg by lia.
  rewrite take_take. f_equal. lia.
Qed.

End StringFacts.

(** ** [rfind] returns the last occurrence *)

Section RfindFacts.

Lemma startswith_length (sub s : pystr) :
  startswith sub s = true -> (length sub <= length s)%nat.
Proof.
  revert s. induction sub as [|a sub IH]; intros [|b s] H; simpl in *;
    try lia; try discriminate.
  apply andb_true_iff in H as [_ H]. apply IH in H. lia.
Qed.

Lemma startswith_nil_r (sub : pystr) :
  sub <> [] -> startswith sub [] = false.
Proof. destruct sub; [congruence | reflexivity]. Qed.

(** What the scan computes: either no suffix of [s] starts with [sub] and
    the default is returned, or the result is the offset of the last suffix
    that does. *)
Lemma rfind_from_spec (sub : pystr) : sub <> [] ->
  forall (s : pystr) (i last : Z),
    (rfind_from sub s i last = last
     /\ forall j : nat, startswith sub (drop j s) = false)
    \/ (exists j : nat,
          rfind_from sub s i last = i + Z.of_nat j
          /\ startswith sub (drop j s) = true
          /\ forall j' : nat, (j < j')%nat -> startswith sub (drop j' s) = false).
Proof.
  intros Hsub. induction s as [|c s IH]; intros i last.
  - left. simpl. rewrite startswith_nil_r by assumption. split; [reflexivity|].
    intros j. rewrite drop_nil. now apply startswith_nil_r.
  - cbn [rfind_from].
    destruct (IH (i + 1) (if startswith sub (c :: s) then i else last))
      as [[Hr Hnone] | (j & Hr & Hj & Hmax)].
    + destruct (startswith sub (c :: s)) eqn:Hhd.
      * right. exists 0%nat. rewrite Hr. split; [lia|]. split; [exact Hhd|].
        intros [|j'] Hlt; [lia|]. apply Hnone.
      * left. split; [exact Hr|]. intros [|j]; [exact Hhd | apply Hnone].
    + right. exists (S j). rewrite Hr. split; [lia|]. split; [exact Hj|].
      intros [|j'] Hlt; [lia|]. apply Hmax. lia.
Qed.

Lemma occurs_at_bound (sub s : pystr) (d : Z) :
  sub <> [] -> occurs_at sub s d -> d + len sub <= len s.
Proof.
  intros Hsub [Hd H]. apply startswith_length in H.
  rewrite length_drop in H. unfold len.
  destruct sub; [congruence|]. simpl in H. simpl length. lia.
Qed.

Lemma rfind_spec (s sub : pystr) : sub <> [] ->
  (rfind s sub = -1 /\ forall d, ~ occurs_at sub s d)
  \/ last_occurrence sub s (rfind s sub).
Proof.
  intros Hsub. unfold rfind.
  destruct (rfind_from_spec sub Hsub s 0 (-1)) as [[Hr Hnone] | (j & Hr & Hj & Hmax)].
  - left. split; [exact Hr|]. intros d [_ H]. now rewrite Hnone in H.
  - right. rewrite Hr. split.
    + split; [lia|]. now replace (Z.to_nat (0 + Z.of_nat j)) with j by lia.
    + intros k Hk [Hk0 H]. rewrite Hmax in H; [discriminate | lia].
Qed.

Lemma last_occurrence_unique (sub s : pystr) (d d' : Z) :
  last_occurrence sub s d -> last_occurrence sub s d' -> d = d'.
Proof.
  intros [Ho Hm] [Ho' Hm'].
  destruct (Z.lt_trichotomy d d') as [H | [H | H]]; [|assumption|].
  - exfalso. now apply (Hm d').
  - exfalso. now apply (Hm' d).
Qed.

Lemma rfind_last_occurrence (s sub : pystr) (d : Z) :
  sub <> [] -> last_occurrence sub s d -> rfind s sub = d.
Proof.
  intros Hsub Hd. destruct (rfind_spec s sub Hsub) as [[_ Hnone] | Hlast].
  - exfalso. apply (Hnone d), Hd.
  - eapply last_occurrence_unique; eassumption.
Qed.

Lemma rfind_none (s sub : pystr) :
  sub <> [] -> (forall d, ~ occurs_at sub s d) -> rfind s sub = -1.
Proof.
  intros Hsub Hnone. destruct (rfind_spec s sub Hsub) as [[H _] | [Ho _]].
  - exact H.
  - exfalso. exact (Hnone _ Ho).
Qed.

Lemma rfind_range (s sub : pystr) :
  sub <> [] ->
  rfind s sub = -1 \/ (0 <= rfind s sub /\ rfind s sub + len sub <= len s).
Proof.
  intros Hsub.
  destruct (rfind_spec s sub Hsub) as [[-> _] | [Ho _]]; [now left | right].
  pose proof (occurs_at_bound _ _ _ Hsub Ho). destruct Ho. lia.
Qed.

End RfindFacts.

(** ** [truncate]: budget, idempotence, exits *)

Section TruncateFacts.

Lemma sentence_cut_some (t : pystr) (n : Z) (ds : list pystr) (r : pystr) :
  sentence_cut t n ds = Some r ->
  exists delimiter,
    In delimiter ds
    /\ int_gt_float (rfind t delimiter) (int_mul_float n f0_7) = true
    /\ r = slice_to t (rfind t delimiter + 1).
Proof.
  induction ds as [|d ds IH]; simpl; [discriminate|].
  destruct (int_gt_float _ _) eqn:Hgt.
  - intros [= <-]. exists d. auto.
  - intros H. destruct (IH H) as (d' & Hin & Hd'). exists d'. auto.
Qed.

Lemma sentence_cut_none (t : pystr) (n : Z) (ds : list pystr) :
  sentence_cut t n ds = None <->
  forall delimiter, In delimiter ds ->
    int_gt_float (rfind t delimiter) (int_mul_float n f0_7) = false.
Proof.
  induction ds as [|d ds IH]; simpl.
  - split; [intros _ ? [] | reflexivity].
  - destruct (int_gt_float (rfind t d) _) eqn:Hgt.
    + split; [discriminate|]. intros H. specialize (H d (or_introl eq_refl)).
      congruence.
    + rewrite IH. split.
      * intros H x [<- | Hx]; auto.
      * intros H x Hx. apply H. now right.
Qed.

Lemma sentence_cut_len (t : pystr) (n : Z) (ds : list pystr) (r : pystr) :
  sentence_cut t n ds = Some r -> len r <= len t.
Proof.
  intros H. apply sentence_cut_some in H as (d & _ & _ & ->).
  apply len_slice_to_le.
Qed.

Lemma len_ellipsis (e : bool) : len (ellipsis e) = if e then 3 else 0.
Proof. now destruct e. Qed.

(** The exit taken does not depend on [add_ellipsis]. *)
Lemma truncate_via_exit (text : pystr) (n : Z) (e e' : bool) :
  fst (truncate_via text n e) = fst (truncate_via text n e').
Proof.
  unfold truncate_via. destruct text as [|c text]; [reflexivity|].
  destruct (len (c :: text) <=? n); [reflexivity|].
  destruct (sentence_cut _ _ _); [reflexivity|].
  now destruct (0 <? rfind _ _).
Qed.

Lemma truncate_len (text : pystr) (n : Z) (e : bool) :
  0 <= n -> len (truncate text n e) <= n + (if e then 3 else 0).
Proof.
  intros Hn. unfold truncate, truncate_via.
  destruct text as [|c text]; [simpl; destruct e; unfold len; simpl; lia|].
  destruct (Z.leb_spec (len (c :: text)) n) as [Hle | Hgt]; cbn [snd].
  - destruct e; lia.
  - assert (Ht : len (slice_to (c :: text) n) = n)
      by (apply len_slice_to_exact; lia).
    destruct (sentence_cut _ _ _) eqn:Hcut; cbn [snd].
    + apply sentence_cut_len in Hcut. destruct e; lia.
    + destruct (0 <? rfind _ _); cbn [snd]; rewrite len_app, len_ellipsis.
      * pose proof (len_slice_to_le (slice_to (c :: text) n)
                      (rfind (slice_to (c :: text) n) (str " "))). lia.
      * lia.
Qed.

Lemma truncate_within (text : pystr) (n : Z) (e : bool) :
  len text <= n -> truncate text n e = text.
Proof.
  intros H. unfold truncate, truncate_via. destruct text as [|c text]; [reflexivity|].
  destruct (Z.leb_spec (len (c :: text)) n); [reflexivity | lia].
Qed.

End TruncateFacts.

(** C5 (as amended).  For a non-negative budget, the result of [truncate]
    has at most [max_chars] characters (at most [max_chars + 3] when an
    ellipsis is requested); in the default mode without ellipsis, truncating
    a truncated text again changes nothing; and a text within budget is
    returned unchanged. *)
Theorem truncate_budget (text : pystr) (max_chars : Z) (add_ellipsis : bool) :
  0 <= max_chars ->
  len (truncate text max_chars add_ellipsis)
    <= max_chars + (if add_ellipsis then 3 else 0)
  /\ truncate (truncate text max_chars false) max_chars false
     = truncate text max_chars false
  /\ (len text <= max_chars -> truncate text max_chars add_ellipsis = text).
Proof.
  intros Hn. split; [now apply truncate_len|]. split.
  - apply truncate_within. pose proof (truncate_len text max_chars false Hn).
    simpl in H. lia.
  - apply truncate_within.
Qed.

Lemma truncate_budget_witness :
  len (truncate (str "Alpha beta. Gamma delta epsilon") 20 true) <= 20 + 3
  /\ truncate (truncate (str "Alpha beta. Gamma delta epsilon") 20 false) 20 false
     = truncate (str "Alpha beta. Gamma delta epsilon") 20 false
  /\ (len (str "Alpha beta. Gamma delta epsilon") <= 20 ->
      truncate (str "Alpha beta. Gamma delta epsilon") 20 true
      = str "Alpha beta. Gamma delta epsilon").
Proof.
  apply (truncate_budget (str "Alpha beta. Gamma delta epsilon") 20 true). lia.
Defined.

(** C5, counterexample.  With a negative budget the slice [text[:max_chars]]
    only drops characters from the end, so the result is longer than
    [max_chars]; and when an ellipsis is requested, a second truncation cuts
    again. *)
Lemma truncate_budget_counterexample :
  truncate (str "abc") (-1) false = str "ab"
  /\ ~ (len (truncate (str "abc") (-1) false) <= -1)
  /\ truncate (str "ab cd efgh") 6 true = str "ab cd..."
  /\ truncate (truncate (str "ab cd efgh") 6 true) 6 true = str "ab..."
  /\ truncate (truncate (str "ab cd efgh") 6 true) 6 true
     <> truncate (str "ab cd efgh") 6 true.
Proof.
  split; [reflexivity|]. split; [|split; [reflexivity|split; [reflexivity|]]].
  - intros H. vm_compute in H. now apply H.
  - vm_compute. discriminate.
Qed.

Section EllipsisFacts.

Lemma app_ellipsis_neq (r : pystr) : r ++ str "..." <> r.
Proof.
  intros H. apply (f_equal (@length _)) in H. rewrite length_app in H.
  simpl in H. lia.
Qed.

(** Each exit, with the value returned through it. *)
Lemma truncate_via_cases (text : pystr) (n : Z) (e : bool) :
  let t := slice_to text n in
  match fst (truncate_via text n e) with
  | ExitEmpty => text = [] /\ truncate text n e = []
  | ExitWithinBudget => len text <= n /\ truncate text n e = text
  | ExitSentence =>
      n < len text /\
      exists delimiter,
        In delimiter delimiters
        /\ int_gt_float (rfind t delimiter) (int_mul_float n f0_7) = true
        /\ truncate text n e = slice_to t (rfind t delimiter + 1)
  | ExitLastSpace =>
      n < len text /\ 0 < rfind t (str " ")
      /\ truncate text n e = slice_to t (rfind t (str " ")) ++ ellipsis e
  | ExitHardCut =>
      n < len text /\ rfind t (str " ") <= 0
      /\ truncate text n e = t ++ ellipsis e
  end.
Proof.
  unfold truncate, truncate_via. destruct text as [|c text]; [now split|].
  destruct (Z.leb_spec (len (c :: text)) n) as [Hle | Hgt]; [now split|].
  destruct (sentence_cut _ _ _) eqn:Hcut; cbn [fst snd].
  - split; [assumption|]. apply sentence_cut_some in Hcut as (d & Hin & Hgt' & ->).
    exists d. auto.
  - destruct (Z.ltb_spec 0 (rfind (slice_to (c :: text) n) (str " ")));
      cbn [fst snd]; auto.
Qed.

End EllipsisFacts.

(** C10.  When [truncate] leaves through the sentence-boundary return, the
    result is the slice that ends just after the punctuation mark, a prefix of
    the text, whatever [add_ellipsis] is; and the result with
    [add_ellipsis=True] is the result without it followed by ["..."] exactly
    when the call leaves through the last-space or the hard-cut return. *)
Theorem truncate_sentence_exit_no_ellipsis (text : pystr) (max_chars : Z) :
  (forall add_ellipsis r,
      truncate_via text max_chars add_ellipsis = (ExitSentence, r) ->
      max_chars < len text
      /\ (exists delimiter,
             In delimiter delimiters
             /\ r = slice_to (slice_to text max_chars)
                      (rfind (slice_to text max_chars) delimiter + 1))
      /\ (exists m : nat, r = take m text)
      /\ truncate text max_chars true = r
      /\ truncate text max_chars false = r)
  /\ (truncate text max_chars true = truncate text max_chars false ++ str "..."
      <-> fst (truncate_via text max_chars true) = ExitLastSpace
          \/ fst (truncate_via text max_chars true) = ExitHardCut).
Proof.
  split.
  - intros e r Hvia.
    assert (Hexit : forall e', fst (truncate_via text max_chars e') = ExitSentence)
      by (intros e'; rewrite (truncate_via_exit text max_chars e' e), Hvia;
          reflexivity).
    assert (Hr : truncate text max_chars e = r)
      by (unfold truncate; now rewrite Hvia).
    pose proof (truncate_via_cases text max_chars e) as Hc.
    rewrite Hexit in Hc. cbn zeta in Hc. destruct Hc as (Hlt & d & Hin & _ & Hd).
    rewrite Hr in Hd.
    assert (Hsame : forall e', truncate text max_chars e' = r).
    { intros e'. unfold truncate, truncate_via in *.
      destruct text as [|c text]; [assumption|].
      destruct (len (c :: text) <=? max_chars); [assumption|].
      destruct (sentence_cut _ _ _); [assumption|].
      specialize (Hexit e'). unfold truncate_via in Hexit.
      exfalso. revert Hvia. destruct (0 <? rfind _ _); cbn; congruence. }
    split; [assumption|]. split; [exists d; auto|]. split; [|split; apply Hsame].
    rewrite Hd.
    destruct (slice_to_is_take (slice_to text max_chars)
                (rfind (slice_to text max_chars) d + 1)) as [m1 ->].
    destruct (slice_to_is_take text max_chars) as [m2 ->].
    rewrite take_take. eauto.
  - pose proof (truncate_via_cases text max_chars true) as Ht.
    pose proof (truncate_via_cases text max_chars false) as Hf.
    rewrite (truncate_via_exit text max_chars false true) in Hf.
    cbn zeta in Ht, Hf.
    destruct (fst (truncate_via text max_chars true)).
    + destruct Ht as [_ ->], Hf as [_ ->]. split; [discriminate | intros [|]; discriminate].
    + destruct Ht as [_ ->], Hf as [_ ->]. split; [|intros [|]; discriminate].
      intros H. symmetry in H. now apply app_ellipsis_neq in H.
    + destruct Ht as (_ & d & Hd & Hgt & Ht), Hf as (_ & _).
      assert (Hsame : truncate text max_chars true = truncate text max_chars false).
      { unfold truncate, truncate_via. destruct text as [|c text]; [reflexivity|].
        destruct (len (c :: text) <=? max_chars); [reflexivity|].
        destruct (sentence_cut _ _ _) eqn:Hcut; [reflexivity|].
        exfalso. rewrite sentence_cut_none in Hcut. rewrite (Hcut d Hd) in Hgt.
        discriminate. }
      split; [|intros [|]; discriminate].
      rewrite Hsame. intros H. symmetry in H. now apply app_ellipsis_neq in H.
    + destruct Ht as (_ & _ & ->), Hf as (_ & _ & ->). simpl ellipsis.
      rewrite app_nil_r. split; auto.
    + destruct Ht as (_ & _ & ->), Hf as (_ & _ & ->). simpl ellipsis.
      rewrite app_nil_r. split; auto.
Qed.

Lemma truncate_sentence_exit_no_ellipsis_witness :
  truncate (str "Budget is final. Next item follows here") 20 true
  = str "Budget is final."
  /\ truncate (str "Budget is final. Next item follows here") 20 false
     = str "Budget is final.".
Proof.
  destruct (truncate_sentence_exit_no_ellipsis
              (str "Budget is final. Next item follows here") 20) as [H _].
  destruct (H true (str "Budget is final.") eq_refl) as (_ & _ & _ & Ht & Hf).
  exact (conj Ht Hf).
Defined.

(** ** The comparison [last_delimiter > max_chars * 0.7] *)

Section FloatFacts.

Lemma float_of_int_small (n : Z) :
  0 <= n < 2 ^ 53 -> float_of_int n = Float false n 0.
Proof.
  intros [H0 H1]. unfold float_of_int, round53.
  rewrite Z.abs_eq by assumption.
  destruct (Z.ltb_spec n (2 ^ 53)); [|lia].
  destruct (Z.ltb_spec n 0); [lia | reflexivity].
Qed.

(** The rounded significand of [m * 2^e] is within half a unit in the last
    place of [m]. *)
Lemma round53_error (m e : Z) :
  2 ^ 53 <= m < 2 ^ 103 ->
  exists sh q,
    round53 m e = (q, e + sh)
    /\ 1 <= sh <= 50
    /\ 2 ^ sh * 2 ^ 52 <= m
    /\ 2 * (m - q * 2 ^ sh) <= 2 ^ sh
    /\ 2 * (q * 2 ^ sh - m) <= 2 ^ sh.
Proof.
  intros [Hlo Hhi]. unfold round53.
  destruct (Z.ltb_spec m (2 ^ 53)); [lia|].
  assert (Hm : 0 < m) by lia.
  pose proof (Z.log2_spec m Hm) as [Hl1 Hl2].
  assert (Hl53 : 53 <= Z.log2 m) by (apply Z.log2_le_pow2; lia).
  assert (Hl103 : Z.log2 m < 103) by (apply Z.log2_lt_pow2; lia).
  set (sh := Z.log2 m - 52) in *.
  assert (Hsh : 1 <= sh <= 50) by (subst sh; lia).
  assert (HT : 2 ^ Z.log2 m = 2 ^ sh * 2 ^ 52)
    by (rewrite <- Z.pow_add_r by lia; f_equal; subst sh; lia).
  assert (Hhalf : 2 ^ sh = 2 * 2 ^ (sh - 1))
    by (replace sh with (1 + (sh - 1)) at 1 by lia;
        rewrite Z.pow_add_r by lia; reflexivity).
  assert (HTpos : 0 < 2 ^ sh) by (apply Z.pow_pos_nonneg; lia).
  rewrite Z.shiftr_div_pow2 by lia.
  pose proof (Z.div_mod m (2 ^ sh) ltac:(lia)) as Hdm.
  pose proof (Z.mod_pos_bound m (2 ^ sh) HTpos) as Hr.
  set (q := m / 2 ^ sh) in *. set (r := m mod 2 ^ sh) in *.
  set (half := 2 ^ (sh - 1)) in *.
  exists sh. destruct ((half <? r) || ((r =? half) && Z.odd q)) eqn:Hup.
  - exists (q + 1). split; [reflexivity|]. split; [assumption|].
    assert (half <= r).
    { apply orb_true_iff in Hup as [Hup | Hup].
      - apply Z.ltb_lt in Hup. lia.
      - apply andb_true_iff in Hup as [Hup _]. apply Z.eqb_eq in Hup. lia. }
    nia.
  - exists q. split; [reflexivity|]. split; [assumption|].
    assert (r <= half).
    { apply orb_false_iff in Hup as [Hup _]. apply Z.ltb_ge in Hup. lia. }
    nia.
Qed.

(** For budgets below [2^49] the floating-point test agrees with the exact
    comparison against 70% of [max_chars], except possibly when
    [last_delimiter] is exactly 70% of [max_chars]. *)
Lemma threshold_70 (n d : Z) :
  0 <= n < 2 ^ 49 ->
  (7 * n < 10 * d -> int_gt_float d (int_mul_float n f0_7) = true)
  /\ (10 * d < 7 * n -> int_gt_float d (int_mul_float n f0_7) = false).
Proof.
  intros [Hn0 Hn1]. unfold int_mul_float, fmul.
  rewrite float_of_int_small by lia. cbn [f_mant f_exp f_neg f0_7 xorb].
  set (P := n * 6305039478318694).
  destruct (Z_lt_ge_dec P (2 ^ 53)) as [Hsmall | Hbig].
  - unfold round53. destruct (Z.ltb_spec P (2 ^ 53)); [|lia].
    unfold int_gt_float. cbn [f_mant f_exp f_neg].
    change (0 <=? 0 + -53) with false. cbv iota.
    change (- (0 + -53)) with 53.
    split; intros H70.
    + apply Z.ltb_lt. subst P. lia.
    + apply Z.ltb_ge. subst P. lia.
  - destruct (round53_error P (0 + -53)) as (sh & q & -> & Hsh & H52 & He1 & He2).
    { split; [lia|]. subst P. lia. }
    unfold int_gt_float. cbn [f_mant f_exp f_neg].
    destruct (Z.leb_spec 0 (0 + -53 + sh)); [lia|].
    replace (- (0 + -53 + sh)) with (53 - sh) by lia.
    assert (HTpos : 0 < 2 ^ sh) by (apply Z.pow_pos_nonneg; lia).
    assert (HU : 2 ^ (53 - sh) * 2 ^ sh = 2 ^ 53)
      by (rewrite <- Z.pow_add_r by lia; f_equal; lia).
    assert (HUpos : 0 < 2 ^ (53 - sh)) by (apply Z.pow_pos_nonneg; lia).
    set (T := 2 ^ sh) in *. set (U := 2 ^ (53 - sh)) in *.
    assert (HTn : T * 2 ^ 52 <= n * 6305039478318694) by (subst P; lia).
    split; intros H70.
    + apply Z.ltb_lt.
      assert (q * T < d * 2 ^ 53) by (subst P; lia).
      apply Z.mul_lt_mono_pos_r with (p := T); [assumption|].
      rewrite <- Z.mul_assoc, HU. assumption.
    + apply Z.ltb_ge.
      assert (d * 2 ^ 53 <= q * T) by (subst P; lia).
      apply Z.mul_le_mono_pos_r with (p := T); [assumption|].
      rewrite <- Z.mul_assoc, HU. assumption.
Qed.

End FloatFacts.

(** ** [truncate]: where the cut falls *)

Section CutRuleFacts.

Lemma space_nonempty : str " " <> [].
Proof. discriminate. Qed.

Lemma delimiters_nonempty (delimiter : pystr) :
  In delimiter delimiters -> delimiter <> [].
Proof. intros [<- | [<- | [<- | []]]]; discriminate. Qed.

(** A delimiter none of whose occurrences reaches 70% of the budget does not
    pass the test of the loop. *)
Lemma below_70_rejected (t delimiter : pystr) (n : Z) :
  0 <= n < 2 ^ 49 -> delimiter <> [] ->
  (forall d, occurs_at delimiter t d -> 10 * d < 7 * n) ->
  int_gt_float (rfind t delimiter) (int_mul_float n f0_7) = false.
Proof.
  intros Hn Hne Hocc. apply threshold_70; [assumption|].
  destruct (rfind_spec t delimiter Hne) as [[-> _] | [Ho _]]; [lia|].
  now apply Hocc.
Qed.

Lemma sentence_cut_first (t : pystr) (n : Z) (pre post : list pystr)
      (delimiter : pystr) :
  (forall d', In d' pre ->
              int_gt_float (rfind t d') (int_mul_float n f0_7) = false) ->
  int_gt_float (rfind t delimiter) (int_mul_float n f0_7) = true ->
  sentence_cut t n (pre ++ delimiter :: post)
  = Some (slice_to t (rfind t delimiter + 1)).
Proof.
  intros Hpre Hd. induction pre as [|p pre IH]; simpl.
  - now rewrite Hd.
  - rewrite (Hpre p) by now left. apply IH. intros d' Hin. apply Hpre. now right.
Qed.

Lemma truncate_over_budget (text : pystr) (n : Z) (e : bool) :
  0 <= n < len text ->
  truncate text n e =
  match sentence_cut (slice_to text n) n delimiters with
  | Some r => r
  | None =>
      if 0 <? rfind (slice_to text n) (str " ")
      then slice_to (slice_to text n) (rfind (slice_to text n) (str " "))
             ++ ellipsis e
      else slice_to text n ++ ellipsis e
  end.
Proof.
  intros Hlt. unfold truncate, truncate_via.
  destruct text as [|c text]; [unfold len in Hlt; simpl in Hlt; lia|].
  destruct (Z.leb_spec (len (c :: text)) n); [lia|].
  destruct (sentence_cut _ _ _); [reflexivity|].
  now destruct (0 <? rfind _ _).
Qed.

End CutRuleFacts.

(** The cut rule as the code has it.  Let [t] be the first [max_chars]
    characters of a text longer than [max_chars].  The delimiters are tried in
    the order [. ], [! ], [? ]: for the first of them whose last occurrence in
    [t] lies
    strictly beyond 70% of [max_chars] (the earlier ones having no occurrence
    at or beyond 70%), the text is cut just after that punctuation mark.
    When no delimiter occurs at or beyond 70%, the text is cut before the
    last space of [t] if that space is not at index 0, and at exactly
    [max_chars] otherwise; only in these two cases, and only on request, is
    ["..."] appended. *)
Lemma truncate_cut_rule (text : pystr) (max_chars : Z) (add_ellipsis : bool) :
  0 <= max_chars < 2 ^ 49 ->
  max_chars < len text ->
  let t := take (Z.to_nat max_chars) text in
  (forall pre delimiter post d,
      delimiters = pre ++ delimiter :: post ->
      last_occurrence delimiter t d ->
      7 * max_chars < 10 * d ->
      (forall delimiter' d',
          In delimiter' pre -> occurs_at delimiter' t d' ->
          10 * d' < 7 * max_chars) ->
      truncate text max_chars add_ellipsis = take (Z.to_nat (d + 1)) text)
  /\ ((forall delimiter d,
          In delimiter delimiters -> occurs_at delimiter t d ->
          10 * d < 7 * max_chars) ->
      (forall k,
          last_occurrence (str " ") t k -> 0 < k ->
          truncate text max_chars add_ellipsis
          = take (Z.to_nat k) text ++ ellipsis add_ellipsis)
      /\ ((forall k, occurs_at (str " ") t k -> k = 0) ->
          truncate text max_chars add_ellipsis = t ++ ellipsis add_ellipsis)).
Proof.
  intros Hn Hlt t.
  assert (Ht : slice_to text max_chars = t) by (apply slice_to_nonneg; lia).
  assert (Hlen : len t = max_chars)
    by (rewrite <- Ht; apply len_slice_to_exact; lia).
  rewrite truncate_over_budget, Ht by lia.
  split.
  - intros pre delimiter post d Hds Hlast H70 Hpre.
    assert (Hin : forall x, In x (pre ++ delimiter :: post) -> x <> [])
      by (intros x Hx; apply delimiters_nonempty; now rewrite Hds).
    assert (Hne : delimiter <> []) by (apply Hin, in_elt).
    pose proof (rfind_last_occurrence t delimiter d Hne Hlast) as Hrf.
    rewrite Hds, (sentence_cut_first t max_chars pre post delimiter).
    + rewrite Hrf, <- Ht. apply slice_to_slice_to.
      destruct Hlast as [Ho _]. pose proof (occurs_at_bound _ _ _ Hne Ho).
      destruct Ho. destruct delimiter; [congruence|].
      unfold len in *. simpl length in *. lia.
    + intros d' Hd'. apply below_70_rejected; [assumption| |].
      * apply Hin, in_or_app. now left.
      * intros x Hx. now apply (Hpre d').
    + rewrite Hrf. now apply threshold_70.
  - intros Hbelow.
    assert (Hnone : sentence_cut t max_chars delimiters = None).
    { apply sentence_cut_none. intros delimiter Hin.
      apply below_70_rejected; [assumption | now apply delimiters_nonempty |].
      intros d. now apply Hbelow. }
    rewrite Hnone. split.
    + intros k Hlast Hk.
      rewrite (rfind_last_occurrence t (str " ") k space_nonempty Hlast).
      destruct (Z.ltb_spec 0 k); [|lia]. f_equal.
      rewrite <- Ht. apply slice_to_slice_to.
      destruct Hlast as [Ho _].
      pose proof (occurs_at_bound _ _ _ space_nonempty Ho) as Hb.
      unfold len in *. simpl length in *. lia.
    + intros Hsp.
      destruct (rfind_spec t (str " ") space_nonempty) as [[-> _] | [Ho _]].
      * reflexivity.
      * rewrite (Hsp _ Ho). reflexivity.
Qed.

Section RfindComputed.

(** Turning a computed [rfind] into statements about occurrences. *)
Lemma rfind_eq_last (s sub : pystr) (d : Z) :
  sub <> [] -> rfind s sub = d -> 0 <= d -> last_occurrence sub s d.
Proof.
  intros Hne <- Hd. destruct (rfind_spec s sub Hne) as [[H _] | H]; [lia | exact H].
Qed.

Lemma occurs_le_rfind (s sub : pystr) (d : Z) :
  sub <> [] -> occurs_at sub s d -> d <= rfind s sub.
Proof.
  intros Hne Ho. destruct (rfind_spec s sub Hne) as [[_ Hnone] | [_ Hmax]].
  - exfalso. exact (Hnone d Ho).
  - destruct (Z_le_gt_dec d (rfind s sub)); [assumption|].
    exfalso. apply (Hmax d); [lia | assumption].
Qed.

End RfindComputed.

Lemma truncate_cut_rule_witness :
  0 <= 24 < 2 ^ 49
  /\ 24 < len (str "One. Two three four! Five six seven")
  /\ truncate (str "One. Two three four! Five six seven") 24 true
     = str "One. Two three four!".
Proof.
  split; [lia|]. split; [reflexivity|].
  destruct (truncate_cut_rule (str "One. Two three four! Five six seven") 24 true)
    as [Hcut _]; [lia | reflexivity |].
  apply (Hcut [str ". "] (str "! ") [str "? "] 19).
  - reflexivity.
  - apply rfind_eq_last; [discriminate | reflexivity | lia].
  - lia.
  - intros delimiter' d' [<- | []] Ho.
    apply occurs_le_rfind in Ho; [|discriminate].
    vm_compute (rfind _ _) in Ho. lia.
Defined.

(** C6, at the failing inputs.  The comments of [truncate] say
    [# Look for last sentence ending] and [# At least 70% of max_chars], and
    [spec_cut] cuts by those words.  (1) With budget 21 both [. ] (index 15)
    and [! ] (index 19) occur beyond 70% of the budget; the last sentence end
    is the [!], but the loop returns at the first delimiter kind that passes
    and cuts after [fast.].  (2) With budget 20 the [. ] sits exactly at 70%
    (index 14); the test is a strict [>], so the sentence end is passed over
    and the text is cut at the last space instead. *)
Theorem truncate_misses_last_sentence_end :
  (truncate (str "Sales grew fast. Ok! More to come") 21 false
     = str "Sales grew fast."
   /\ spec_cut (str "Sales grew fast. Ok! More to come") 21
     = str "Sales grew fast. Ok!")
  /\ (truncate (str "Sales grew big. Up next is the plan") 20 false
        = str "Sales grew big. Up"
      /\ spec_cut (str "Sales grew big. Up next is the plan") 20
        = str "Sales grew big.").
Proof. split; split; reflexivity. Qed.

(** ** The workflow state machine *)

Import WorkflowOrchestrator.

Section StateMachineFacts.

Lemma stage_name_inj (s t : Stage) : stage_name s = stage_name t -> s = t.
Proof. destruct s, t; intros H; (reflexivity || (vm_compute in H; discriminate)). Qed.

Lemma transitions_lookup_stage (s : Stage) :
  TRANSITIONS !! stage_name s = Some (map stage_name (spec_transition_table s)).
Proof. destruct s; reflexivity. Qed.

Lemma transitions_lookup_unknown (s : pystr) :
  ~ In s STATES -> TRANSITIONS !! s = None.
Proof.
  intros Hs. unfold TRANSITIONS. apply not_elem_of_list_to_map_1.
  rewrite list_elem_of_In. exact Hs.
Qed.

Lemma list_contains_In (x : pystr) (l : list pystr) :
  list_contains x l = true <-> In x l.
Proof.
  unfold list_contains. rewrite bool_decide_eq_true. apply list_elem_of_In.
Qed.

(** Both functions are determined by the lookup in [TRANSITIONS]. *)
Lemma validate_transition_lookup (s t : pystr) :
  validate_transition s t
  = Ok (match TRANSITIONS !! s with
        | Some next => list_contains t next
        | None => false
        end).
Proof.
  unfold validate_transition, dict_contains, subscript.
  destruct (TRANSITIONS !! s) as [next|] eqn:Hs.
  - rewrite bool_decide_eq_true_2 by eauto. reflexivity.
  - rewrite bool_decide_eq_false_2 by (intros [? ?]; discriminate). reflexivity.
Qed.

End StateMachineFacts.

(** C1.  For each of the six stages, [get_next_states] returns the entries of
    the transition table of the specification, in order; and for every pair of
    stages [validate_transition] returns without raising, and returns [True]
    exactly when the target is among the next states of the source. *)
Theorem transitions_follow_table :
  (forall s : Stage,
      get_next_states (stage_name s)
      = Ok (map stage_name (spec_transition_table s)))
  /\ (forall s t : Stage,
         exists (b : bool) (next : list pystr),
           validate_transition (stage_name s) (stage_name t) = Ok b
           /\ get_next_states (stage_name s) = Ok next
           /\ (b = true <-> In (stage_name t) next)
           /\ (b = true <-> In t (spec_transition_table s))).
Proof.
  split.
  - intros s. unfold get_next_states. now rewrite transitions_lookup_stage.
  - intros s t. rewrite validate_transition_lookup. unfold get_next_states.
    rewrite transitions_lookup_stage. cbn [default].
    eexists _, _. split; [reflexivity|]. split; [reflexivity|].
    rewrite list_contains_In. split; [reflexivity|].
    rewrite in_map_iff. split.
    + intros (t' & Heq & Hin). apply stage_name_inj in Heq. now subst.
    + intros Hin. eauto.
Qed.

(** C9.  On a string that is not one of the six state names both functions
    return normally: [validate_transition] gives [False] for every target and
    [get_next_states] gives the empty list. *)
Theorem unknown_state_is_rejected (s : pystr) :
  ~ In s STATES ->
  (forall t, validate_transition s t = Ok false)
  /\ get_next_states s = Ok [].
Proof.
  intros Hs. apply transitions_lookup_unknown in Hs. split.
  - intros t. now rewrite validate_transition_lookup, Hs.
  - unfold get_next_states. now rewrite Hs.
Qed.

Lemma unknown_state_is_rejected_witness :
  ~ In (str "LAYOUT_GENERATION") STATES
  /\ (forall t, validate_transition (str "LAYOUT_GENERATION") t = Ok false)
  /\ get_next_states (str "LAYOUT_GENERATION") = Ok [].
Proof.
  assert (H : ~ In (str "LAYOUT_GENERATION") STATES).
  { intros H. vm_compute in H. repeat destruct H as [H | H]; try discriminate H.
    exact H. }
  split; [exact H|]. exact (unknown_state_is_rejected _ H).
Defined.

(** ** Structured content is passed through *)

(** Looking a key up in a dictionary display. *)
Ltac key_neq :=
  let H := fresh in intros H; vm_compute in H; discriminate H.

Ltac dict_lookup :=
  unfold dict_of; cbn [fold_left fst snd];
  repeat first [ rewrite lookup_insert_eq
               | rewrite lookup_insert_ne by key_neq
               | rewrite lookup_empty ].

Section PassThroughFacts.

Variable today : pystr.

Lemma copy_if_in_both_lookup (key key' : pystr) (fields : ContentSchema)
      (generated result : gmap pystr pyval) :
  copy_if_in_both key fields generated result !! key'
  = if bool_decide (key = key' /\ is_Some (fields !! key)
                    /\ is_Some (generated !! key))
    then generated !! key
    else result !! key'.
Proof.
  unfold copy_if_in_both.
  destruct (fields !! key) as [f|] eqn:Hf, (generated !! key) as [v|] eqn:Hg.
  - destruct (decide (key = key')) as [<- | Hne].
    + rewrite lookup_insert_eq, bool_decide_eq_true_2; eauto.
    + rewrite lookup_insert_ne by assumption.
      rewrite bool_decide_eq_false_2; [reflexivity | tauto].
  - rewrite bool_decide_eq_false_2; [reflexivity|].
    intros (_ & _ & [? ?]); discriminate.
  - rewrite bool_decide_eq_false_2; [reflexivity|].
    intros (_ & [? ?] & _); discriminate.
  - rewrite bool_decide_eq_false_2; [reflexivity|].
    intros (_ & [? ?] & _); discriminate.
Qed.

Lemma dict_get_some {V} (d : gmap pystr V) (key : pystr) (dflt v : V) :
  d !! key = Some v -> dict_get d key dflt = v.
Proof. unfold dict_get. now intros ->. Qed.

Lemma content_to_layout_L01 s f p e :
  _map_content_to_layout today s (str "L01") f p e = _map_title_slide today s f p e.
Proof. unfold _map_content_to_layout. now dict_lookup. Qed.

Lemma content_to_layout_L02 s f p e :
  _map_content_to_layout today s (str "L02") f p e = _map_section_divider s f p e.
Proof. unfold _map_content_to_layout. now dict_lookup. Qed.

Lemma content_to_layout_L03 s f p e :
  _map_content_to_layout today s (str "L03") f p e = _map_closing_slide s f p e.
Proof. unfold _map_content_to_layout. now dict_lookup. Qed.

Lemma content_to_layout_L04 s f p e :
  _map_content_to_layout today s (str "L04") f p e = _map_text_summary s f p e.
Proof. unfold _map_content_to_layout. now dict_lookup. Qed.

Lemma content_to_layout_L05 s f p e :
  _map_content_to_layout today s (str "L05") f p e = _map_bullet_list s f p e.
Proof. unfold _map_content_to_layout. now dict_lookup. Qed.

Lemma content_to_layout_L06 s f p e :
  _map_content_to_layout today s (str "L06") f p e = _map_numbered_list s f p e.
Proof. unfold _map_content_to_layout. now dict_lookup. Qed.

Lemma content_to_layout_L10 s f p e :
  _map_content_to_layout today s (str "L10") f p e = _map_image_text s f p e.
Proof. unfold _map_content_to_layout. now dict_lookup. Qed.

Lemma content_to_layout_L17 s f p e :
  _map_content_to_layout today s (str "L17") f p e = _map_chart_insights s f p e.
Proof. unfold _map_content_to_layout. now dict_lookup. Qed.

Lemma content_to_layout_other s l f p e :
  l <> str "L01" -> l <> str "L02" -> l <> str "L03" -> l <> str "L04" ->
  l <> str "L05" -> l <> str "L06" -> l <> str "L10" -> l <> str "L17" ->
  _map_content_to_layout today s l f p e = _map_generic s f e.
Proof.
  intros. unfold _map_content_to_layout, dict_of. cbn [fold_left fst snd].
  rewrite !lookup_insert_ne by congruence. now rewrite lookup_empty.
Qed.

End PassThroughFacts.

Section PassThrough.

Variable content_schema_of : pystr -> result ContentSchema.
Variable today : pystr.

Lemma usable_content_structured (es : EnrichedSlide) (g : GeneratedText)
      (d : gmap pystr pyval) :
  generated_text es = Some g -> has_text_failure es = false ->
  content g = Structured d ->
  usable_content (Some es) = Some (Structured d).
Proof. intros Hg Hf Hc. unfold usable_content. now rewrite Hg, Hf, Hc. Qed.

(** What [_map_content_to_layout] returns on usable structured content, for
    a layout outside [fixed_layouts]: either a [KeyError] from an attribute
    read first, or a mapping that holds every forwarded key. *)
Lemma structured_mapping (slide : Slide) (layout_id : pystr)
      (fields : ContentSchema) (presentation : PresentationStrawman)
      (enriched_slide : option EnrichedSlide) (d : gmap pystr pyval) :
  usable_content enriched_slide = Some (Structured d) ->
  ~ In layout_id fixed_layouts ->
  ((forall name attr, In (name, attr) (attributes_read_first layout_id) ->
                      exists z, field_attr fields name attr = Ok z) ->
   exists out,
     _map_content_to_layout today slide layout_id fields presentation
                            enriched_slide = Ok out)
  /\ forall out,
      _map_content_to_layout today slide layout_id fields presentation
                             enriched_slide = Ok out ->
      forall key v,
        d !! key = Some v -> is_Some (fields !! key) ->
        forwards layout_id key -> out !! key = Some v.
Proof.
  intros Hu Hfixed.
  assert (N1 : layout_id <> str "L01") by (intros ->; apply Hfixed; simpl; auto).
  assert (N2 : layout_id <> str "L02") by (intros ->; apply Hfixed; simpl; auto).
  assert (N3 : layout_id <> str "L03") by (intros ->; apply Hfixed; simpl; auto).
  unfold forwards, forwarded_keys, attributes_read_first.
  rewrite (bool_decide_eq_false_2 (layout_id ∈ fixed_layouts))
    by (rewrite list_elem_of_In; exact Hfixed).
  destruct (decide (layout_id = str "L04")) as [-> | N4].
  { rewrite content_to_layout_L04. unfold _map_text_summary. rewrite Hu.
    split; [intros _; eexists; reflexivity|]. intros out [= <-] key v Hd Hf Hin.
    rewrite !copy_if_in_both_lookup.
    destruct Hin as [<- | [<- | [<- | [<- | []]]]].
    - rewrite !bool_decide_eq_false_2 by (intros [E _]; revert E; key_neq).
      dict_lookup. now rewrite (dict_get_some _ _ _ _ Hd).
    - rewrite !bool_decide_eq_false_2 by (intros [E _]; revert E; key_neq).
      dict_lookup. now rewrite (dict_get_some _ _ _ _ Hd).
    - rewrite bool_decide_eq_false_2 by (intros [E _]; revert E; key_neq).
      rewrite bool_decide_eq_true_2 by eauto. assumption.
    - rewrite bool_decide_eq_true_2 by eauto. assumption. }
  rewrite (bool_decide_eq_false_2 _ N4).
  destruct (decide (layout_id = str "L05")) as [-> | N5].
  { rewrite content_to_layout_L05. unfold _map_bullet_list.
    rewrite bool_decide_eq_true_2 by reflexivity. split.
    - intros Hattr.
      destruct (Hattr (str "bullets") (str "max_items")) as [z1 ->]; [simpl; auto|].
      destruct (Hattr (str "bullets") (str "max_chars_per_item")) as [z2 ->];
        [simpl; auto|].
      cbn [bind]. rewrite Hu. eexists; reflexivity.
    - intros out Hout key v Hd Hf Hin.
      destruct (field_attr fields (str "bullets") (str "max_items")); [|discriminate].
      destruct (field_attr fields (str "bullets") (str "max_chars_per_item"));
        [|discriminate].
      cbn [bind] in Hout. rewrite Hu in Hout. injection Hout as <-.
      rewrite copy_if_in_both_lookup.
      destruct Hin as [<- | [<- | [<- | []]]].
      + rewrite bool_decide_eq_false_2 by (intros [E _]; revert E; key_neq).
        dict_lookup. now rewrite (dict_get_some _ _ _ _ Hd).
      + rewrite bool_decide_eq_false_2 by (intros [E _]; revert E; key_neq).
        dict_lookup. now rewrite (dict_get_some _ _ _ _ Hd).
      + rewrite bool_decide_eq_true_2 by eauto. assumption. }
  rewrite !(bool_decide_eq_false_2 _ N5).
  destruct (decide (layout_id = str "L06")) as [-> | N6].
  { rewrite content_to_layout_L06. unfold _map_numbered_list.
    rewrite bool_decide_eq_true_2 by reflexivity. split.
    - intros Hattr.
      destruct (Hattr (str "numbered_items") (str "max_items")) as [z1 ->];
        [simpl; auto|].
      cbn [bind]. rewrite Hu. eexists; reflexivity.
    - intros out Hout key v Hd Hf Hin.
      destruct (field_attr fields (str "numbered_items") (str "max_items"));
        [|discriminate].
      cbn [bind] in Hout. rewrite Hu in Hout. injection Hout as <-.
      rewrite copy_if_in_both_lookup.
      destruct Hin as [<- | [<- | [<- | []]]].
      + rewrite bool_decide_eq_false_2 by (intros [E _]; revert E; key_neq).
        dict_lookup. now rewrite (dict_get_some _ _ _ _ Hd).
      + rewrite bool_decide_eq_false_2 by (intros [E _]; revert E; key_neq).
        dict_lookup. now rewrite (dict_get_some _ _ _ _ Hd).
      + rewrite bool_decide_eq_true_2 by eauto. assumption. }
  rewrite !(bool_decide_eq_false_2 _ N6).
  destruct (decide (layout_id = str "L10")) as [-> | N10].
  { rewrite content_to_layout_L10. unfold _map_image_text. rewrite Hu.
    rewrite bool_decide_eq_false_2 by key_neq.
    split; [intros _; eexists; reflexivity|]. intros out [= <-] key v Hd Hf Hin.
    rewrite copy_if_in_both_lookup.
    destruct Hin as [<- | [<- | [<- | []]]].
    - rewrite bool_decide_eq_false_2 by (intros [E _]; revert E; key_neq).
      dict_lookup. now rewrite (dict_get_some _ _ _ _ Hd).
    - rewrite bool_decide_eq_false_2 by (intros [E _]; revert E; key_neq).
      dict_lookup. now rewrite (dict_get_some _ _ _ _ Hd).
    - rewrite bool_decide_eq_true_2 by eauto. assumption. }
  rewrite !(bool_decide_eq_false_2 _ N10).
  destruct (decide (layout_id = str "L17")) as [-> | N17].
  { rewrite content_to_layout_L17. unfold _map_chart_insights.
    rewrite bool_decide_eq_true_2 by reflexivity. split.
    - intros Hattr.
      destruct (Hattr (str "key_insights") (str "max_items")) as [z1 ->];
        [simpl; auto|].
      destruct (Hattr (str "key_insights") (str "max_chars_per_item")) as [z2 ->];
        [simpl; auto|].
      cbn [bind]. rewrite Hu. eexists; reflexivity.
    - intros out Hout key v Hd Hf Hin.
      destruct (field_attr fields (str "key_insights") (str "max_items"));
        [|discriminate].
      destruct (field_attr fields (str "key_insights") (str "max_chars_per_item"));
        [|discriminate].
      cbn [bind] in Hout. rewrite Hu in Hout. injection Hout as <-.
      rewrite !copy_if_in_both_lookup.
      destruct Hin as [<- | [<- | [<- | [<- | []]]]].
      + rewrite !bool_decide_eq_false_2 by (intros [E _]; revert E; key_neq).
        dict_lookup. now rewrite (dict_get_some _ _ _ _ Hd).
      + rewrite !bool_decide_eq_false_2 by (intros [E _]; revert E; key_neq).
        dict_lookup. now rewrite (dict_get_some _ _ _ _ Hd).
      + rewrite bool_decide_eq_false_2 by (intros [E _]; revert E; key_neq).
        rewrite bool_decide_eq_true_2 by eauto. assumption.
      + rewrite bool_decide_eq_true_2 by eauto. assumption. }
  rewrite !(bool_decide_eq_false_2 _ N17).
  rewrite content_to_layout_other by assumption.
  unfold _map_generic. rewrite Hu. split; [intros _; eexists; reflexivity|].
  intros out [= <-] key v Hd _ _. exact Hd.
Qed.

End PassThrough.

Section PassThroughLaw.

Variable content_schema_of : pystr -> result ContentSchema.
Variable today : pystr.

(** The mapping functions of the title, section-divider and closing layouts
    do not look at the enriched slide. *)
Lemma fixed_layout_ignores_enriched (slide : Slide) (layout_id : pystr)
      (presentation : PresentationStrawman)
      (enriched_slide enriched_slide' : option EnrichedSlide) :
  In layout_id fixed_layouts ->
  transform_slide content_schema_of today slide layout_id presentation
                  enriched_slide
  = transform_slide content_schema_of today slide layout_id presentation
                    enriched_slide'.
Proof.
  intros [<- | [<- | [<- | []]]]; unfold transform_slide;
    destruct (content_schema_of _); cbn [bind]; try reflexivity;
    now rewrite ?content_to_layout_L01, ?content_to_layout_L02,
                ?content_to_layout_L03.
Qed.

End PassThroughLaw.

(** C2 (as amended).  Let the enriched slide carry generated text without
    failure flag whose content is a structured mapping.  For a layout other
    than the title, section-divider and closing layouts, [transform_slide]
    returns a result as soon as the attributes its mapping function reads
    first are in the schema, and every field that is in the generated content,
    in the content schema and among the fields the mapping function forwards
    (all fields, for the generic mapping) appears in the output content with
    the generated value, unchanged.  For the title, section-divider and
    closing layouts the output does not depend on the enriched slide. *)
Theorem structured_content_pass_through
        (content_schema_of : pystr -> result ContentSchema) (today : pystr)
        (slide : Slide) (layout_id : pystr) (presentation : PresentationStrawman)
        (es : EnrichedSlide) (g : GeneratedText) (d : gmap pystr pyval)
        (fields : ContentSchema) :
  content_schema_of layout_id = Ok fields ->
  generated_text es = Some g ->
  has_text_failure es = false ->
  content g = Structured d ->
  (~ In layout_id fixed_layouts ->
   ((forall name attr,
        In (name, attr) (attributes_read_first layout_id) ->
        exists z, field_attr fields name attr = Ok z) ->
    exists out,
      transform_slide content_schema_of today slide layout_id presentation
                      (Some es) = Ok out)
   /\ forall out,
       transform_slide content_schema_of today slide layout_id presentation
                       (Some es) = Ok out ->
       ts_layout out = layout_id
       /\ forall key v,
           d !! key = Some v -> is_Some (fields !! key) ->
           forwards layout_id key ->
           ts_content out !! key = Some v)
  /\ (In layout_id fixed_layouts ->
      transform_slide content_schema_of today slide layout_id presentation
                      (Some es)
      = transform_slide content_schema_of today slide layout_id presentation
                        None).
Proof.
  intros Hschema Hg Hf Hc.
  pose proof (usable_content_structured es g d Hg Hf Hc) as Hu.
  split; [|apply fixed_layout_ignores_enriched].
  intros Hfixed.
  destruct (structured_mapping today slide layout_id fields presentation
              (Some es) d Hu Hfixed) as [Hret Hkeys].
  unfold transform_slide. rewrite Hschema. cbn [bind]. split.
  - intros Hattr. destruct (Hret Hattr) as [out ->]. cbn [bind]. eauto.
  - intros out Hout.
    destruct (_map_content_to_layout _ _ _ _ _ _) as [c|] eqn:Hmap;
      [|discriminate].
    cbn [bind] in Hout. injection Hout as <-. cbn [ts_layout ts_content].
    split; [reflexivity|]. intros key v. now apply Hkeys.
Qed.

Lemma structured_content_pass_through_witness :
  exists out,
    transform_slide Sample.content_schema_of Sample.today Sample.slide
                    (str "L05") Sample.presentation
                    (Some (Sample.enriched (Structured Sample.structured_content)))
    = Ok out
    /\ ts_content out !! str "bullets"
       = Some (PStr (str "<ul><li>Cost savings of 30%</li><li>Improved efficiency by 50%</li><li>Enhanced scalability</li></ul>")).
Proof.
  destruct (structured_content_pass_through
              Sample.content_schema_of Sample.today Sample.slide (str "L05")
              Sample.presentation
              (Sample.enriched (Structured Sample.structured_content))
              {| content := Structured Sample.structured_content; metadata := ∅ |}
              Sample.structured_content
              (dict_of [(str "slide_title", Sample.max_chars_spec 60);
                        (str "subtitle", Sample.max_chars_spec 80);
                        (str "bullets", Sample.list_spec 5 100)])
              eq_refl eq_refl eq_refl eq_refl) as [Hlaw _].
  destruct Hlaw as [Hret Hkeys].
  { intros H. vm_compute in H. repeat destruct H as [H | H]; try discriminate H.
    exact H. }
  destruct Hret as [out Hout].
  { intros name attr [[= <- <-] | [[= <- <-] | []]]; eexists; reflexivity. }
  exists out. split; [exact Hout|].
  destruct (Hkeys out Hout) as [_ Hk].
  apply Hk; [reflexivity | eexists; reflexivity | right; left; reflexivity].
Defined.

(** C2, counterexample.  The title layout has a [main_title] field, and the
    structured content supplies one; the output carries the title of the
    presentation instead. *)
Lemma structured_content_pass_through_counterexample :
  exists fields out,
    Sample.content_schema_of (str "L01") = Ok fields
    /\ is_Some (fields !! str "main_title")
    /\ Sample.title_content !! str "main_title"
       = Some (PStr (str "Generated Title"))
    /\ transform_slide Sample.content_schema_of Sample.today Sample.slide
                       (str "L01") Sample.presentation
                       (Some (Sample.enriched (Structured Sample.title_content)))
       = Ok out
    /\ ts_content out !! str "main_title" = Some (PStr (str "Test Presentation"))
    /\ ts_content out !! str "main_title"
       <> Sample.title_content !! str "main_title".
Proof.
  eexists _, _. split; [reflexivity|]. split; [eexists; reflexivity|].
  split; [reflexivity|]. split; [reflexivity|]. split; [reflexivity|].
  vm_compute. discriminate.
Qed.

(** ** Legacy content: bullets and numbered items *)

Section SplitFacts.

Lemma char_eqb_eq (a b : char) : char_eqb a b = true <-> a = b.
Proof. apply N.eqb_eq. Qed.

Lemma startswith_char (c : char) (s : pystr) :
  startswith [c] s = true <-> exists s', s = c :: s'.
Proof.
  destruct s as [|b s]; simpl.
  - split; [discriminate | intros [? ?]; discriminate].
  - rewrite andb_true_r, char_eqb_eq. split.
    + intros ->. eauto.
    + now intros [s' [= ->]].
Qed.

Lemma find_from_char (c : char) (s : pystr) (i : Z) :
  0 <= i ->
  (find_from [c] s i = -1 /\ ~ In c s)
  \/ (i <= find_from [c] s i /\ In c s).
Proof.
  revert i. induction s as [|b s IH]; intros i Hi.
  - left. simpl. split; [reflexivity | tauto].
  - cbn [find_from]. destruct (startswith [c] (b :: s)) eqn:Hs.
    + right. apply startswith_char in Hs as [s' [= -> ->]]. split; [lia|now left].
    + destruct (IH (i + 1) ltac:(lia)) as [[-> Hn] | [Hle Hin]].
      * left. split; [reflexivity|]. intros [-> | Hin]; [|tauto].
        simpl in Hs. rewrite andb_true_r in Hs.
        unfold char_eqb in Hs. now rewrite N.eqb_refl in Hs.
      * right. split; [lia | now right].
Qed.

(** [c in s] for a one-character string [c]. *)
Lemma contains_char (c : char) (s : pystr) :
  contains [c] s = true <-> In c s.
Proof.
  unfold contains, find.
  destruct (find_from_char c s 0 ltac:(lia)) as [[-> Hn] | [Hle Hin]].
  - split; [discriminate | tauto].
  - split; [tauto|]. intros _. now apply Z.leb_le.
Qed.

(** [s.split(c, 1)] splits at the first [c]. *)
Lemma split_once_In (c : char) (s : pystr) :
  In c s ->
  exists a b, split_once c s = [a; b] /\ s = a ++ c :: b /\ ~ In c a.
Proof.
  induction s as [|x s IH]; [intros []|]. intros Hin. cbn [split_once].
  destruct (char_eqb x c) eqn:Hx.
  - apply char_eqb_eq in Hx as ->. exists [], s. now repeat split.
  - assert (Hne : x <> c) by (intros ->; unfold char_eqb in Hx;
                              now rewrite N.eqb_refl in Hx).
    destruct Hin as [-> | Hin]; [congruence|].
    destruct (IH Hin) as (a & b & -> & -> & Hna).
    exists (x :: a), b. split; [reflexivity|]. split; [reflexivity|].
    intros [-> | H]; [congruence | tauto].
Qed.

Lemma unpack2_split_once (c : char) (s : pystr) :
  In c s ->
  exists a b, unpack2 (split_once c s) = Ok (a, b)
              /\ s = a ++ c :: b /\ ~ In c a.
Proof.
  intros Hin. destruct (split_once_In c s Hin) as (a & b & -> & Hs & Hna).
  exists a, b. auto.
Qed.

End SplitFacts.

Section LegacyBulletFacts.

Lemma keep_condition (line : pystr) :
  (match line with [] => false | _ => true end) && (10 <? len line)
  = long_enough line.
Proof. unfold long_enough. now destruct line. Qed.

(** The loop with its [break] collects the first [max_items] kept lines. *)
Lemma collect_bullets_spec (lines bullets : list pystr) (max_items max_chars : Z) :
  len bullets < max_items ->
  collect_bullets lines bullets max_items max_chars
  = bullets ++
    map (fun line => truncate line max_chars false)
        (take (Z.to_nat (max_items - len bullets))
              (List.filter long_enough (map clean_line lines))).
Proof.
  revert bullets. induction lines as [|line lines IH]; intros bullets Hlt.
  - simpl. rewrite take_nil. simpl. now rewrite app_nil_r.
  - cbn [collect_bullets map List.filter]. fold (clean_line line).
    rewrite keep_condition. destruct (long_enough (clean_line line)).
    + assert (Hlen : len (bullets ++ [truncate (clean_line line) max_chars false])
                     = len bullets + 1)
        by (rewrite len_app; reflexivity).
      rewrite Hlen.
      replace (Z.to_nat (max_items - len bullets))
        with (S (Z.to_nat (max_items - (len bullets + 1)))) by lia.
      cbn [take map]. destruct (Z.leb_spec max_items (len bullets + 1)).
      * replace (Z.to_nat (max_items - (len bullets + 1))) with 0%nat by lia.
        now rewrite take_0.
      * rewrite IH by lia. rewrite Hlen, <- app_assoc. reflexivity.
    + now apply IH.
Qed.

(** With no room left the loop adds at most one item. *)
Lemma collect_bullets_full (lines bullets : list pystr) (max_items max_chars : Z) :
  max_items <= len bullets ->
  len (collect_bullets lines bullets max_items max_chars) <= len bullets + 1.
Proof.
  intros Hfull. induction lines as [|line lines IH]; cbn [collect_bullets]; [lia|].
  destruct (_ && _); [|exact IH].
  rewrite len_app. change (len [_]) with 1.
  destruct (Z.leb_spec max_items (len bullets + 1)); [|lia].
  rewrite len_app. change (len [_]) with 1. lia.
Qed.

Lemma len_map {A B} (f : A -> B) (l : list A) : len (map f l) = len l.
Proof. unfold len. now rewrite length_map. Qed.

Lemma len_slice_to_cap {A} (l : list A) (k : Z) :
  0 <= k -> len (slice_to l k) <= k.
Proof.
  intros Hk. rewrite slice_to_nonneg by assumption. unfold len.
  rewrite length_take. lia.
Qed.

Lemma key_point_bullets_bounds (slide : Slide) (max_items max_chars : Z) :
  0 <= max_items -> 0 <= max_chars ->
  len (key_point_bullets slide max_items max_chars) <= max_items
  /\ Forall (fun item => len item <= max_chars)
            (key_point_bullets slide max_items max_chars).
Proof.
  intros Hi Hc. unfold key_point_bullets. split.
  - rewrite len_map. now apply len_slice_to_cap.
  - apply Forall_forall. intros item Hin. apply list_elem_of_In, in_map_iff in Hin.
    destruct Hin as (point & <- & _).
    pose proof (truncate_len point max_chars false Hc). simpl in H. lia.
Qed.

Lemma legacy_bullets_pipeline (generated_content : pystr) (slide : Slide)
      (max_items max_chars : Z) :
  1 <= max_items ->
  legacy_bullets generated_content slide max_items max_chars
  = if len (parsed_bullets generated_content max_items max_chars) <? 2
    then key_point_bullets slide max_items max_chars
    else parsed_bullets generated_content max_items max_chars.
Proof.
  intros Hi. unfold legacy_bullets, parsed_bullets.
  rewrite collect_bullets_spec by (change (len []) with 0; lia).
  change (len []) with 0. rewrite Z.sub_0_r, app_nil_l.
  now rewrite slice_to_nonneg by lia.
Qed.

Lemma legacy_bullets_bounds (generated_content : pystr) (slide : Slide)
      (max_items max_chars : Z) :
  0 <= max_items -> 0 <= max_chars ->
  len (legacy_bullets generated_content slide max_items max_chars) <= max_items
  /\ Forall (fun item => len item <= max_chars)
            (legacy_bullets generated_content slide max_items max_chars).
Proof.
  intros Hi Hc.
  pose proof (key_point_bullets_bounds slide max_items max_chars Hi Hc) as Hkp.
  destruct (Z_le_gt_dec 1 max_items) as [H1 | H0].
  - rewrite legacy_bullets_pipeline by assumption.
    destruct (_ <? 2); [exact Hkp|]. unfold parsed_bullets. split.
    + rewrite len_map. now apply len_slice_to_cap.
    + apply Forall_forall. intros item Hin.
      apply list_elem_of_In, in_map_iff in Hin. destruct Hin as (line & <- & _).
      pose proof (truncate_len line max_chars false Hc). simpl in H. lia.
  - unfold legacy_bullets.
    pose proof (collect_bullets_full (split_char newline generated_content) []
                  max_items max_chars) as Hfull.
    change (len []) with 0 in Hfull.
    destruct (Z.ltb_spec (len (collect_bullets (split_char newline generated_content)
                                 [] max_items max_chars)) 2); [exact Hkp | lia].
Qed.

End LegacyBulletFacts.

Section LegacyNumberedFacts.

(** How one line of a legacy numbered list is taken apart. *)
Lemma split_numbered_line_cases (idx : Z) (line : pystr) (n_lines : Z) :
  idx < n_lines ->
  (In colon line ->
   exists t d, line = t ++ colon :: d /\ ~ In colon t
               /\ split_numbered_line idx line n_lines = Ok (t, d))
  /\ (~ In colon line -> In period line ->
      exists a b,
        line = a ++ period :: b /\ ~ In period a
        /\ (In dash (strip b) ->
            exists t d, strip b = t ++ dash :: d /\ ~ In dash t
                        /\ split_numbered_line idx line n_lines = Ok (t, d))
        /\ (~ In dash (strip b) ->
            split_numbered_line idx line n_lines = Ok (step_title idx, strip b)))
  /\ (~ In colon line -> ~ In period line ->
      split_numbered_line idx line n_lines = Ok (step_title idx, line)).
Proof.
  intros Hidx. unfold split_numbered_line.
  change (str ":") with [colon]. change (str ".") with [period].
  change (str "-") with [dash]. change 58%N with colon. change 46%N with period.
  change 45%N with dash.
  assert (Hlt : (idx <? n_lines) = true) by now apply Z.ltb_lt.
  split; [|split].
  - intros Hin. rewrite (proj2 (contains_char colon line) Hin).
    destruct (unpack2_split_once colon line Hin) as (t & d & -> & Hl & Hn). eauto.
  - intros Hnc Hp.
    destruct (contains [colon] line) eqn:Hc;
      [apply contains_char in Hc; tauto|].
    rewrite (proj2 (contains_char period line) Hp), Hlt. cbn [andb].
    destruct (split_once_In period line Hp) as (a & b & -> & Hl & Hn).
    change (1 <? len [a; b]) with true. cbn [nth].
    exists a, b. split; [assumption|]. split; [assumption|]. split.
    + intros Hd. rewrite (proj2 (contains_char dash (strip b)) Hd).
      destruct (unpack2_split_once dash (strip b) Hd) as (t & d & -> & Hs & Hnd).
      eauto.
    + intros Hnd. destruct (contains [dash] (strip b)) eqn:Hd;
        [apply contains_char in Hd; tauto | reflexivity].
  - intros Hnc Hnp.
    destruct (contains [colon] line) eqn:Hc;
      [apply contains_char in Hc; tauto|].
    destruct (contains [period] line) eqn:Hp;
      [apply contains_char in Hp; tauto | reflexivity].
Qed.

Lemma split_numbered_line_ok (idx : Z) (line : pystr) (n_lines : Z) :
  idx < n_lines ->
  exists t d, split_numbered_line idx line n_lines = Ok (t, d).
Proof.
  intros Hidx.
  destruct (split_numbered_line_cases idx line n_lines Hidx) as (Hc & Hp & Hn).
  destruct (in_dec N.eq_dec colon line) as [Hic | Hnc].
  - destruct (Hc Hic) as (t & d & _ & _ & ->). eauto.
  - destruct (in_dec N.eq_dec period line) as [Hip | Hnp].
    + destruct (Hp Hnc Hip) as (a & b & _ & _ & Hd & Hnd).
      destruct (in_dec N.eq_dec dash (strip b)) as [Hid | Hnid].
      * destruct (Hd Hid) as (t & d & _ & _ & ->). eauto.
      * rewrite (Hnd Hnid). eauto.
    + rewrite (Hn Hnc Hnp). eauto.
Qed.

Lemma numbered_item_within_caps (t d : pystr) :
  item_within_caps (numbered_item t d).
Proof.
  exists (truncate t 40 false), (truncate d 150 false).
  split; [reflexivity|].
  pose proof (truncate_len t 40 false ltac:(lia)).
  pose proof (truncate_len d 150 false ltac:(lia)). simpl in *. lia.
Qed.

(** The loop over the lines never raises and yields one item per line. *)
Lemma collect_numbered_ok (lines : list pystr) (idx n_lines : Z) :
  idx + len lines <= n_lines ->
  exists items,
    collect_numbered idx lines n_lines = Ok items
    /\ len items = len lines
    /\ Forall item_within_caps items.
Proof.
  revert idx. induction lines as [|line lines IH]; intros idx Hidx.
  - exists []. repeat split. constructor.
  - unfold len in Hidx. simpl length in Hidx. cbn [collect_numbered].
    destruct (split_numbered_line_ok idx line n_lines ltac:(lia)) as (t & d & ->).
    cbn [bind]. destruct (IH (idx + 1)) as (items & -> & Hlen & Hall).
    { unfold len. lia. }
    cbn [bind fst snd]. eexists. split; [reflexivity|]. split.
    + unfold len in *. simpl length. lia.
    + constructor; [apply numbered_item_within_caps | assumption].
Qed.

Lemma key_point_items_ok (points : list pystr) (idx : Z) :
  exists items,
    key_point_items idx points = Ok items
    /\ len items = len points
    /\ Forall item_within_caps items.
Proof.
  revert idx. induction points as [|point points IH]; intros idx.
  - exists []. repeat split. constructor.
  - cbn [key_point_items]. change (str ":") with [colon].
    change 58%N with colon.
    assert (Htd : exists t d,
               (if contains [colon] point then unpack2 (split_once colon point)
                else Ok (step_title idx, point)) = Ok (t, d)).
    { destruct (contains [colon] point) eqn:Hc; [|eauto].
      apply contains_char in Hc.
      destruct (unpack2_split_once colon point Hc) as (t & d & -> & _). eauto. }
    destruct Htd as (t & d & ->). cbn [bind].
    destruct (IH (idx + 1)) as (items & -> & Hlen & Hall).
    cbn [bind fst snd]. eexists. split; [reflexivity|]. split.
    + unfold len in *. simpl length. lia.
    + constructor; [apply numbered_item_within_caps | assumption].
Qed.

(** One key point of the fallback: split at its first [:], or titled
    ["Step N"]. *)
Lemma key_point_items_step (idx : Z) (point : pystr) (rest : list pystr) :
  exists t d,
    (In colon point -> point = t ++ colon :: d /\ ~ In colon t)
    /\ (~ In colon point -> t = step_title idx /\ d = point)
    /\ key_point_items idx (point :: rest)
       = (let* items := key_point_items (idx + 1) rest in
          Ok (numbered_item t d :: items)).
Proof.
  cbn [key_point_items]. change (str ":") with [colon]. change 58%N with colon.
  destruct (in_dec N.eq_dec colon point) as [Hin | Hnin].
  - rewrite (proj2 (contains_char colon point) Hin).
    destruct (unpack2_split_once colon point Hin) as (t & d & -> & Hp & Hn).
    exists t, d. split; [auto|]. split; [tauto|]. reflexivity.
  - destruct (contains [colon] point) eqn:Hc;
      [apply contains_char in Hc; tauto|].
    exists (step_title idx), point. split; [tauto|]. split; [auto|]. reflexivity.
Qed.

Lemma legacy_numbered_items_ok (generated_content : pystr) (slide : Slide)
      (max_items : Z) :
  exists items,
    legacy_numbered_items generated_content slide max_items = Ok items
    /\ (0 <= max_items -> len items <= max_items)
    /\ Forall item_within_caps items.
Proof.
  unfold legacy_numbered_items.
  set (lines := map strip _).
  destruct (collect_numbered_ok (slice_to lines max_items) 0 (len lines))
    as (items & -> & Hlen & Hall).
  { pose proof (len_slice_to_le lines max_items). lia. }
  cbn [bind]. destruct (len items <? 2).
  - destruct (key_point_items_ok (slice_to (key_points slide) max_items) 0)
      as (items' & -> & Hlen' & Hall').
    eexists. split; [reflexivity|]. split; [|assumption].
    intros Hi. rewrite Hlen'. now apply len_slice_to_cap.
  - eexists. split; [reflexivity|]. split; [|assumption].
    intros Hi. rewrite Hlen. now apply len_slice_to_cap.
Qed.

End LegacyNumberedFacts.

Section LegacyMapperFacts.

Lemma set_truncated_if_field_other (key key' text : pystr) (fields : ContentSchema)
      (result out : gmap pystr pyval) :
  key <> key' ->
  set_truncated_if_field key text fields result = Ok out ->
  out !! key' = result !! key'.
Proof.
  intros Hne. unfold set_truncated_if_field. destruct (dict_has key fields).
  - destruct (field_attr fields key (str "max_chars")); cbn [bind];
      [|discriminate].
    intros [= <-]. now rewrite lookup_insert_ne.
  - now intros [= <-].
Qed.

Lemma map_bullet_list_legacy (slide : Slide) (fields : ContentSchema)
      (presentation : PresentationStrawman) (es : option EnrichedSlide)
      (generated_content : pystr) (max_items max_chars : Z)
      (out : gmap pystr pyval) :
  usable_content es = Some (Legacy generated_content) ->
  field_attr fields (str "bullets") (str "max_items") = Ok max_items ->
  field_attr fields (str "bullets") (str "max_chars_per_item") = Ok max_chars ->
  _map_bullet_list slide fields presentation es = Ok out ->
  out !! str "bullets"
  = Some (str_list (legacy_bullets generated_content slide max_items max_chars)).
Proof.
  intros Hu Hi Hc. unfold _map_bullet_list. rewrite Hi, Hc. cbn [bind].
  rewrite Hu. unfold bullet_list_result.
  destruct (field_attr fields (str "slide_title") (str "max_chars"));
    cbn [bind]; [|discriminate]. intros Hout.
  assert (Hne : str "subtitle" <> str "bullets") by key_neq.
  rewrite (set_truncated_if_field_other _ _ _ _ _ _ Hne Hout).
  now dict_lookup.
Qed.

Lemma map_chart_insights_legacy (slide : Slide) (fields : ContentSchema)
      (presentation : PresentationStrawman) (es : option EnrichedSlide)
      (generated_content : pystr) (max_items max_chars : Z)
      (out : gmap pystr pyval) :
  usable_content es = Some (Legacy generated_content) ->
  field_attr fields (str "key_insights") (str "max_items") = Ok max_items ->
  field_attr fields (str "key_insights") (str "max_chars_per_item") = Ok max_chars ->
  _map_chart_insights slide fields presentation es = Ok out ->
  out !! str "key_insights"
  = Some (str_list (legacy_bullets generated_content slide max_items max_chars)).
Proof.
  intros Hu Hi Hc. unfold _map_chart_insights. rewrite Hi, Hc. cbn [bind].
  rewrite Hu. unfold chart_insights_result.
  destruct (field_attr fields (str "slide_title") (str "max_chars"));
    cbn [bind]; [|discriminate].
  destruct (set_truncated_if_field (str "subtitle") _ _ _) as [mid|] eqn:Hmid;
    cbn [bind]; [|discriminate].
  intros Hout.
  assert (Hne : str "summary" <> str "key_insights") by key_neq.
  assert (Hne' : str "subtitle" <> str "key_insights") by key_neq.
  rewrite (set_truncated_if_field_other _ _ _ _ _ _ Hne Hout).
  rewrite (set_truncated_if_field_other _ _ _ _ _ _ Hne' Hmid).
  now dict_lookup.
Qed.

Lemma map_numbered_list_legacy (slide : Slide) (fields : ContentSchema)
      (presentation : PresentationStrawman) (es : option EnrichedSlide)
      (generated_content : pystr) (max_items : Z) (out : gmap pystr pyval) :
  usable_content es = Some (Legacy generated_content) ->
  field_attr fields (str "numbered_items") (str "max_items") = Ok max_items ->
  _map_numbered_list slide fields presentation es = Ok out ->
  exists items,
    legacy_numbered_items generated_content slide max_items = Ok items
    /\ out !! str "numbered_items" = Some (PList items).
Proof.
  intros Hu Hi. unfold _map_numbered_list. rewrite Hi. cbn [bind]. rewrite Hu.
  destruct (legacy_numbered_items generated_content slide max_items)
    as [items|]; cbn [bind]; [|discriminate].
  unfold numbered_list_result.
  destruct (field_attr fields (str "slide_title") (str "max_chars"));
    cbn [bind]; [|discriminate]. intros Hout. exists items. split; [reflexivity|].
  assert (Hne : str "subtitle" <> str "numbered_items") by key_neq.
  rewrite (set_truncated_if_field_other _ _ _ _ _ _ Hne Hout).
  now dict_lookup.
Qed.

End LegacyMapperFacts.

(** C7 (as amended).  Legacy (plain string) content is parsed as follows.

    Bullets and key insights: the string is split on newlines; each line is
    stripped of surrounding whitespace and of one leading bullet marker; only
    lines of more than 10 characters are kept; the first [max_items] of them
    (for [max_items >= 1]) are taken, each truncated to the per-item cap; when
    fewer than 2 items result, the first [max_items] key points, truncated
    alike, are used instead.  For non-negative caps the field has at most
    [max_items] entries of at most [max_chars_per_item] characters.

    Numbered items: blank lines are dropped and the others stripped; the
    first [max_items] of them are parsed, one item per line, and when fewer
    than 2 items result the items are built from the first [max_items] key
    points instead, each split at its first [:] or titled ["Step N"].  The
    parse never raises; it yields at most [max_items] items, with titles of at
    most 40 and descriptions of at most 150 characters (fixed caps).  A line
    with a [:] is split at its first [:]
    into title and description; otherwise a line with a [.] loses everything
    up to its first [.], and the rest, stripped, is split at its first [-]
    into title and description when it has one and is the description under
    the title ["Step N"] when it has none; a line with neither is the
    description under the title ["Step N"].

    These parses fill the [bullets], [key_insights] and [numbered_items]
    fields of the bullet-list, chart and numbered-list layouts. *)
Theorem legacy_list_parsing (generated_content : pystr) (slide : Slide)
        (max_items max_chars : Z) :
  (1 <= max_items ->
   legacy_bullets generated_content slide max_items max_chars
   = if len (parsed_bullets generated_content max_items max_chars) <? 2
     then key_point_bullets slide max_items max_chars
     else parsed_bullets generated_content max_items max_chars)
  /\ (0 <= max_items -> 0 <= max_chars ->
      len (legacy_bullets generated_content slide max_items max_chars) <= max_items
      /\ Forall (fun item => len item <= max_chars)
                (legacy_bullets generated_content slide max_items max_chars))
  /\ (exists items,
         legacy_numbered_items generated_content slide max_items = Ok items
         /\ (0 <= max_items -> len items <= max_items)
         /\ Forall item_within_caps items)
  /\ legacy_numbered_items generated_content slide max_items
     = (let* parsed :=
          collect_numbered 0 (slice_to (nonblank_lines generated_content) max_items)
                           (len (nonblank_lines generated_content)) in
        if len parsed <? 2
        then key_point_items 0 (slice_to (key_points slide) max_items)
        else Ok parsed)
  /\ (forall idx point rest,
         exists t d,
           (In colon point -> point = t ++ colon :: d /\ ~ In colon t)
           /\ (~ In colon point -> t = step_title idx /\ d = point)
           /\ key_point_items idx (point :: rest)
              = (let* items := key_point_items (idx + 1) rest in
                 Ok (numbered_item t d :: items)))
  /\ (forall idx line rest n_lines,
         collect_numbered idx (line :: rest) n_lines
         = (let* td := split_numbered_line idx line n_lines in
            let* items := collect_numbered (idx + 1) rest n_lines in
            Ok (numbered_item (strip (fst td)) (strip (snd td)) :: items)))
  /\ (forall idx line n_lines,
         idx < n_lines ->
         (In colon line ->
          exists t d, line = t ++ colon :: d /\ ~ In colon t
                      /\ split_numbered_line idx line n_lines = Ok (t, d))
         /\ (~ In colon line -> In period line ->
             exists a b,
               line = a ++ period :: b /\ ~ In period a
               /\ (In dash (strip b) ->
                   exists t d, strip b = t ++ dash :: d /\ ~ In dash t
                               /\ split_numbered_line idx line n_lines = Ok (t, d))
               /\ (~ In dash (strip b) ->
                   split_numbered_line idx line n_lines
                   = Ok (step_title idx, strip b)))
         /\ (~ In colon line -> ~ In period line ->
             split_numbered_line idx line n_lines = Ok (step_title idx, line)))
  /\ (forall fields presentation es out,
         usable_content es = Some (Legacy generated_content) ->
         (field_attr fields (str "bullets") (str "max_items") = Ok max_items ->
          field_attr fields (str "bullets") (str "max_chars_per_item") = Ok max_chars ->
          _map_bullet_list slide fields presentation es = Ok out ->
          out !! str "bullets"
          = Some (str_list (legacy_bullets generated_content slide
                                           max_items max_chars)))
         /\ (field_attr fields (str "key_insights") (str "max_items") = Ok max_items ->
             field_attr fields (str "key_insights") (str "max_chars_per_item")
             = Ok max_chars ->
             _map_chart_insights slide fields presentation es = Ok out ->
             out !! str "key_insights"
             = Some (str_list (legacy_bullets generated_content slide
                                              max_items max_chars)))
         /\ (field_attr fields (str "numbered_items") (str "max_items")
             = Ok max_items ->
             _map_numbered_list slide fields presentation es = Ok out ->
             exists items,
               legacy_numbered_items generated_content slide max_items = Ok items
               /\ out !! str "numbered_items" = Some (PList items))).
Proof.
  split; [apply legacy_bullets_pipeline|].
  split; [apply legacy_bullets_bounds|].
  split; [apply legacy_numbered_items_ok|].
  split; [reflexivity|].
  split; [apply key_point_items_step|].
  split; [reflexivity|].
  split; [intros idx line n_lines; apply split_numbered_line_cases|].
  intros fields presentation es out Hu. split; [|split].
  - intros Hi Hc. now apply map_bullet_list_legacy.
  - intros Hi Hc. now apply map_chart_insights_legacy.
  - intros Hi. now apply map_numbered_list_legacy.
Qed.

Lemma legacy_list_parsing_witness :
  1 <= 5
  /\ legacy_bullets Sample.legacy_lines Sample.slide 5 100
     = [str "Raise quality of service"; str "Expand to new markets"].
Proof.
  split; [lia|].
  destruct (legacy_list_parsing Sample.legacy_lines Sample.slide 5 100) as [H _].
  rewrite H by lia. reflexivity.
Defined.

(** C7, counterexamples.  (1) A line of exactly 10 characters is not shorter
    than 10 characters, yet the bullet parse drops it.  (2) In the numbered
    parse a line with the delimiter [. ] still gets the title ["Step N"].
    (3) The numbered parse keeps short lines: two lines of 2 and 4 characters
    give two items, and the key points are not used. *)
Lemma legacy_list_parsing_counterexample :
  (len (str "Cut costs.") = 10
   /\ legacy_bullets Sample.legacy_lines Sample.slide 5 100
      = [str "Raise quality of service"; str "Expand to new markets"]
   /\ spec_list_items Sample.legacy_lines 5 100
      = [str "Cut costs."; str "Raise quality of service";
         str "Expand to new markets"])
  /\ (split_numbered_line 0 (str "1. Plan the work") 1
      = Ok (str "Step 1", str "Plan the work")
      /\ spec_numbered_line 0 (str "1. Plan the work")
         = (str "1", str "Plan the work"))
  /\ legacy_numbered_items Sample.short_lines Sample.slide 5
     = Ok [numbered_item (str "Step 1") (str "Go");
           numbered_item (str "Step 2") (str "Stop")].
Proof.
  split; [repeat split|]. split; [split; reflexivity|].
  vm_compute. reflexivity.
Qed.

(** ** The director: running programs *)

Section RunFacts.

Variable world : Type.
Variable handle : forall X, call X -> world -> result X * world.
Variable clock : world -> Z * world.

Abbreviation run := (DirectorAgent.run world handle clock).

Lemma run_pbind {A B} (p : prog A) (k : A -> prog B) (w : world) :
  run (pbind p k) w
  = match run p w with
    | (Ok a, w', trace) =>
        let '(out, w'', trace') := run (k a) w' in (out, w'', trace ++ trace')
    | (Raise e, w', trace) => (Raise e, w', trace)
    end.
Proof.
  revert w. induction p as [a | e | X c k' IH | k' IH]; intros w; cbn [pbind].
  - cbn [DirectorAgent.run]. now destruct (run (k a) w) as [[out w''] trace'].
  - reflexivity.
  - cbn [DirectorAgent.run]. destruct (handle X c w) as [r w'].
    rewrite IH. destruct (run (k' r) w') as [[[a | e] w''] trace]; [|reflexivity].
    now destruct (run (k a) w'') as [[out w3] trace'].
  - cbn [DirectorAgent.run]. destruct (clock w) as [t w']. apply IH.
Qed.

Lemma run_try_except {A} (p : prog A) (handler : exn -> prog A) (w : world) :
  run (try_except p handler) w
  = match run p w with
    | (Ok a, w', trace) => (Ok a, w', trace)
    | (Raise e, w', trace) =>
        let '(out, w'', trace') := run (handler e) w' in
        (out, w'', trace ++ trace')
    end.
Proof.
  revert w. induction p as [a | e | X c k' IH | k' IH]; intros w;
    cbn [try_except].
  - reflexivity.
  - cbn [DirectorAgent.run]. now destruct (run (handler e) w) as [[out w''] trace'].
  - cbn [DirectorAgent.run]. destruct (handle X c w) as [r w'].
    rewrite IH. destruct (run (k' r) w') as [[[a | e] w''] trace]; [reflexivity|].
    now destruct (run (handler e) w'') as [[out w3] trace'].
  - cbn [DirectorAgent.run]. destruct (clock w) as [t w']. apply IH.
Qed.

Lemma run_await {X} (c : call X) (w : world) :
  run (await c) w = (fst (handle X c w), snd (handle X c w),
                     [Event c (fst (handle X c w))]).
Proof.
  unfold await. cbn [DirectorAgent.run].
  now destruct (handle X c w) as [[x | e] w'].
Qed.

Lemma run_lift {A} (r : result A) (w : world) : run (lift r) w = (r, w, []).
Proof. now destruct r. Qed.

Lemma text_calls_app (t1 t2 : list event) :
  text_calls (t1 ++ t2) = text_calls t1 ++ text_calls t2.
Proof.
  induction t1 as [|[X c r] t1 IH]; [reflexivity|]. cbn [app text_calls].
  destruct c; rewrite IH; reflexivity.
Qed.

End RunFacts.

(** C4.  At position [first] the selection is the title layout [L01] with
    confidence 1.0, and the program is a plain return: under any
    collaborators it makes no call, in particular none to the model; at
    position [last] it is the closing layout [L03] with confidence 1.0; and
    at any other position a slide of type [section_divider] gets the divider
    layout [L02] with confidence 1.0. *)
Theorem fixed_positions_get_fixed_layouts
        (layout_schema_manager : option (list pystr -> result pystr))
        (repr : pystr -> pystr)
        (slide : Slide) (total_slides : Z) :
  (exists reasoning,
      _select_layout_by_use_case layout_schema_manager repr slide
                                 (str "first") total_slides
      = Return (mkSelection (str "L01") reasoning f1_0)
      /\ forall world handle clock (w : world),
          model_calls
            (snd (run world handle clock
                      (_select_layout_by_use_case layout_schema_manager repr
                                                  slide (str "first") total_slides)
                      w))
          = [])
  /\ (exists reasoning,
         _select_layout_by_use_case layout_schema_manager repr slide
                                    (str "last") total_slides
         = Return (mkSelection (str "L03") reasoning f1_0))
  /\ (forall position,
         position <> str "first" -> position <> str "last" ->
         slide_type slide = str "section_divider" ->
         exists reasoning,
           _select_layout_by_use_case layout_schema_manager repr slide
                                      position total_slides
           = Return (mkSelection (str "L02") reasoning f1_0)).
Proof.
  split; [|split].
  - eexists. split; [reflexivity|]. reflexivity.
  - eexists. reflexivity.
  - intros position Hf Hl Hdiv. unfold _select_layout_by_use_case.
    rewrite (bool_decide_eq_false_2 _ Hf), (bool_decide_eq_false_2 _ Hl).
    rewrite (bool_decide_eq_true_2 _ Hdiv). eexists. reflexivity.
Qed.

Lemma fixed_positions_get_fixed_layouts_witness :
  exists reasoning,
    _select_layout_by_use_case
      None (fun key => key)
      {| slide_number := 3; slide_id := str "slide_003";
         title := str "Part Two"; slide_type := str "section_divider";
         layout_id := None; layout_selection_reasoning := None;
         narrative := str "Transition to the second part"; key_points := [];
         analytics_needed := None; visuals_needed := None;
         diagrams_needed := None; tables_needed := None;
         structure_preference := None; speaker_notes := None |}
      (str "middle") 5
    = Return (mkSelection (str "L02") reasoning f1_0).
Proof.
  destruct (fixed_positions_get_fixed_layouts
              None (fun key => key)
              {| slide_number := 3; slide_id := str "slide_003";
                 title := str "Part Two"; slide_type := str "section_divider";
                 layout_id := None; layout_selection_reasoning := None;
                 narrative := str "Transition to the second part"; key_points := [];
                 analytics_needed := None; visuals_needed := None;
                 diagrams_needed := None; tables_needed := None;
                 structure_preference := None; speaker_notes := None |}
              5) as (_ & _ & Hmid).
  apply Hmid; [key_neq | key_neq | reflexivity].
Defined.

(** ** The content-generation loop *)

Section ContentGenerationFacts.

Variable world : Type.
Variable handle : forall X, call X -> world -> result X * world.
Variable clock : world -> Z * world.

Abbreviation exec := (DirectorAgent.run world handle clock).

(** One iteration makes exactly one text-generation call and appends exactly
    one entry, whatever the outcome of the call. *)
Lemma enrich_slide_run (idx : Z) (slide : Slide) (strawman : PresentationStrawman)
      (session_id : pystr) (es : list EnrichedSlide) (s f : Z) (w : world) :
  exists (entry : EnrichedSlide) (failed : bool) (w' : world),
    exec (enrich_slide idx slide strawman session_id (es, s, f)) w
    = (Ok (es ++ [entry],
           (if failed then s else s + 1),
           (if failed then f + 1 else f)),
       w',
       [Event (GenerateSlideText slide strawman session_id (idx + 1))
              (fst (handle _ (GenerateSlideText slide strawman session_id (idx + 1)) w))])
    /\ original_slide entry = slide
    /\ has_text_failure entry = failed
    /\ (failed = true <-> generated_text entry = None)
    /\ failed = match fst (handle _ (GenerateSlideText slide strawman session_id
                                                       (idx + 1)) w) with
                | Ok _ => false
                | Raise _ => true
                end.
Proof.
  unfold enrich_slide. rewrite run_try_except, run_pbind, run_await.
  destruct (handle _ (GenerateSlideText slide strawman session_id (idx + 1)) w)
    as [[g | e] w'] eqn:Hh; cbn [fst snd DirectorAgent.run app].
  - exists (mkEnrichedSlide slide (slide_id slide) (Some g) false), false, w'.
    repeat split; try reflexivity; try discriminate.
  - exists (mkEnrichedSlide slide (slide_id slide) None true), true, w'.
    repeat split; reflexivity.
Qed.

Lemma enrich_slides_run (todo : list Slide) (idx : Z)
      (strawman : PresentationStrawman) (session_id : pystr)
      (es : list EnrichedSlide) (s f : Z) (w : world) :
  exists new w' trace,
    exec (enrich_slides idx todo strawman session_id (es, s, f)) w
    = (Ok (es ++ new,
           s + (len todo - failed_calls (text_calls trace)),
           f + failed_calls (text_calls trace)),
       w', trace)
    /\ map original_slide new = todo
    /\ map (fun c => fst (fst c)) (text_calls trace) = todo
    /\ map (fun c => snd (fst c)) (text_calls trace)
       = slide_numbers (idx + 1) (length todo)
    /\ map has_text_failure new = map snd (text_calls trace)
    /\ Forall (fun e => has_text_failure e = true <-> generated_text e = None) new.
Proof.
  revert idx es s f w. induction todo as [|slide todo IH]; intros idx es s f w.
  - exists [], w, [].
    cbn [enrich_slides DirectorAgent.run text_calls map length slide_numbers].
    change (failed_calls []) with 0. change (len (@nil Slide)) with 0.
    rewrite app_nil_r. replace (s + (0 - 0)) with s by lia.
    replace (f + 0) with f by lia. repeat split. constructor.
  - cbn [enrich_slides]. rewrite run_pbind.
    destruct (enrich_slide_run idx slide strawman session_id es s f w)
      as (entry & failed & w1 & -> & Horig & Hflag & Hnone & Hfailed).
    destruct (IH (idx + 1) (es ++ [entry]) (if failed then s else s + 1)
                 (if failed then f + 1 else f) w1)
      as (new & w2 & trace & -> & Hmap & Hcalls & Hnums & Hflags & Hall).
    exists (entry :: new), w2,
      (Event (GenerateSlideText slide strawman session_id (idx + 1))
             (fst (handle _ (GenerateSlideText slide strawman session_id
                                                (idx + 1)) w)) :: trace).
    cbn [text_calls]. rewrite <- Hfailed.
    assert (Hk : failed_calls ((slide, idx + 1, failed) :: text_calls trace)
                 = (if failed then 1 else 0) + failed_calls (text_calls trace)).
    { unfold failed_calls. cbn [List.filter snd]. destruct failed; [|reflexivity].
      unfold len. simpl length. lia. }
    assert (Hlen : len (slide :: todo) = len todo + 1)
      by (unfold len; simpl length; lia).
    rewrite Hk, Hlen. split.
    + rewrite <- app_assoc. cbn [app].
      set (k := failed_calls (text_calls trace)).
      replace ((if failed then s else s + 1) + (len todo - k))
        with (s + (len todo + 1 - ((if failed then 1 else 0) + k)))
        by (destruct failed; lia).
      replace ((if failed then f + 1 else f) + k)
        with (f + ((if failed then 1 else 0) + k))
        by (destruct failed; lia).
      reflexivity.
    + cbn [map fst snd length slide_numbers].
      rewrite Hmap, Hcalls, Hnums, Hflags, Horig, Hflag.
      repeat split. constructor; [rewrite Hflag; exact Hnone | exact Hall].
Qed.

End ContentGenerationFacts.

Section StageFacts.

Variable world : Type.
Variable handle : forall X, call X -> world -> result X * world.
Variable clock : world -> Z * world.

Abbreviation exec := (DirectorAgent.run world handle clock).

Lemma run_utcnow_bind {A} (k : Z -> prog A) (w : world) :
  exec (pbind utcnow k) w = exec (k (fst (clock w))) (snd (clock w)).
Proof.
  unfold utcnow. cbn [pbind DirectorAgent.run]. now destruct (clock w).
Qed.

End StageFacts.

(** C3.  Against any collaborators, the content-generation loop over a
    strawman of N slides makes one text-generation call per slide, in slide
    order, whatever the earlier calls answered; with K of these calls
    failing, the [EnrichedPresentationStrawman] has exactly N entries, for the
    original slides in their order, each flagged [has_text_failure] exactly
    when its call failed (and then without generated text), and its metadata
    record [total_slides = N], [successful_slides = N - K] and
    [failed_slides = K].  With the deck builder disabled this object is the
    response of the stage. *)
Theorem content_generation_counts
        (world : Type)
        (handle : forall X, call X -> world -> result X * world)
        (clock : world -> Z * world)
        (total_seconds_between : Z -> Z -> pyval) (isoformat : Z -> pystr)
        (strawman : PresentationStrawman) (session_id : pystr) (w : world) :
  exists (e : EnrichedPresentationStrawman) (s f : Z) (w' : world)
         (trace : list event),
    run world handle clock
        (build_enriched_presentation total_seconds_between isoformat
                                     strawman session_id) w
    = (Ok (e, s, f), w', trace)
    /\ map (fun c => fst (fst c)) (text_calls trace) = slides strawman
    /\ map (fun c => snd (fst c)) (text_calls trace)
       = slide_numbers 1 (length (slides strawman))
    /\ original_strawman e = strawman
    /\ len (enriched_slides e) = len (slides strawman)
    /\ map original_slide (enriched_slides e) = slides strawman
    /\ map has_text_failure (enriched_slides e) = map snd (text_calls trace)
    /\ Forall (fun es => has_text_failure es = true <-> generated_text es = None)
              (enriched_slides e)
    /\ generation_metadata e !! str "total_slides"
       = Some (PInt (len (slides strawman)))
    /\ generation_metadata e !! str "successful_slides"
       = Some (PInt (len (slides strawman) - failed_calls (text_calls trace)))
    /\ generation_metadata e !! str "failed_slides"
       = Some (PInt (failed_calls (text_calls trace)))
    /\ s = len (slides strawman) - failed_calls (text_calls trace)
    /\ f = failed_calls (text_calls trace)
    /\ forall content_schema_of today get_full_url,
        run world handle clock
            (process_content_generation content_schema_of today get_full_url
                                        total_seconds_between isoformat false
                                        (Some strawman) session_id) w
        = (Ok (RespEnriched e), w', trace).
Proof.
  set (w1 := snd (clock w)).
  destruct (enrich_slides_run world handle clock (slides strawman) 0 strawman
              session_id [] 0 0 w1)
    as (new & w2 & trace & Hrun & Hmap & Hcalls & Hnums & Hflags & Hall).
  cbn [app] in Hrun.
  assert (Hbuild :
    run world handle clock
        (build_enriched_presentation total_seconds_between isoformat
                                     strawman session_id) w
    = (Ok (mkEnriched strawman new
             (dict_of
                [(str "total_slides", PInt (len (slides strawman)));
                 (str "successful_slides",
                   PInt (0 + (len (slides strawman)
                              - failed_calls (text_calls trace))));
                 (str "failed_slides",
                   PInt (0 + failed_calls (text_calls trace)));
                 (str "generation_time_seconds",
                   total_seconds_between (fst (clock w)) (fst (clock w2)));
                 (str "timestamp",
                   PStr (isoformat (fst (clock (snd (clock w2))))));
                 (str "service_used", PStr (str "text_service_v1.0"))]),
           0 + (len (slides strawman) - failed_calls (text_calls trace)),
           0 + failed_calls (text_calls trace)),
       snd (clock (snd (clock w2))), trace)).
  { unfold build_enriched_presentation.
    rewrite run_utcnow_bind, run_pbind. fold w1. rewrite Hrun.
    rewrite !run_utcnow_bind. cbn [DirectorAgent.run]. now rewrite app_nil_r. }
  eexists _, _, _, _, trace. split; [exact Hbuild|].
  cbn [original_strawman enriched_slides generation_metadata].
  split; [exact Hcalls|]. split; [exact Hnums|]. split; [reflexivity|].
  split.
  { unfold len. f_equal. rewrite <- Hmap. now rewrite length_map. }
  split; [exact Hmap|]. split; [exact Hflags|]. split; [exact Hall|].
  split; [now dict_lookup|]. split; [now dict_lookup|]. split; [now dict_lookup|].
  split; [reflexivity|]. split; [reflexivity|].
  intros content_schema_of today get_full_url.
  unfold process_content_generation. rewrite run_pbind, Hbuild.
  cbn [send_to_layout_architect DirectorAgent.run]. now rewrite app_nil_r.
Qed.

(** ** Rendering failures at the end of the stage *)

Section RenderingFacts.

Variable world : Type.
Variable handle : forall X, call X -> world -> result X * world.
Variable clock : world -> Z * world.
Variable content_schema_of : pystr -> result ContentSchema.
Variable today : pystr.
Variable get_full_url : pystr -> pystr.

Abbreviation exec := (DirectorAgent.run world handle clock).

(** When sending the enriched presentation fails, the stage continues with
    the fallback, from the world the failed attempt left behind. *)
Lemma enriched_rendering_failure_falls_back
      (strawman : PresentationStrawman) (e : EnrichedPresentationStrawman)
      (s f : Z) (w w1 : world) (x : exn) (t1 : list event) :
  exec (_send_enriched_to_layout_architect content_schema_of today get_full_url e) w
  = (Raise x, w1, t1) ->
  exec (send_to_layout_architect content_schema_of today get_full_url true
                                 strawman e s f) w
  = let '(out, w2, t2) :=
      exec (send_placeholders content_schema_of today get_full_url strawman) w1 in
    (out, w2, t1 ++ t2).
Proof.
  intros Hfail. unfold send_to_layout_architect.
  now rewrite run_try_except, run_pbind, Hfail.
Qed.

(** The fallback succeeds exactly when the placeholder payload can be built
    and the second request to the deck builder is answered with a [url]; any
    failure of the fallback leaves the stage as an exception. *)
Lemma send_placeholders_run (strawman : PresentationStrawman) (w : world) :
  exec (send_placeholders content_schema_of today get_full_url strawman) w
  = match transform_presentation content_schema_of today strawman None with
    | Raise x => (Raise x, w, [])
    | Ok api_payload =>
        let '(r, w') := handle _ (CreatePresentation api_payload) w in
        match r with
        | Raise x => (Raise x, w', [Event (CreatePresentation api_payload) r])
        | Ok api_response =>
            match api_response !! str "url" with
            | None =>
                (Raise (KeyError (str "url")), w',
                 [Event (CreatePresentation api_payload) r])
            | Some url =>
                (Ok (RespDict
                       (dict_of
                          [(str "type", PStr (str "presentation_url"));
                           (str "url", PStr (get_full_url url));
                           (str "slide_count", PInt (len (slides strawman)));
                           (str "content_generated", PBool false);
                           (str "message",
                             PStr (str "Presentation created (fallback mode): "
                                     ++ get_full_url url))])),
                 w', [Event (CreatePresentation api_payload) r])
            end
        end
    end.
Proof.
  unfold send_placeholders. rewrite run_pbind, run_lift.
  destruct (transform_presentation content_schema_of today strawman None)
    as [api_payload | x]; [|reflexivity].
  rewrite run_pbind, run_await.
  destruct (handle _ (CreatePresentation api_payload) w) as [[api_response | x] w'];
    cbn [fst snd]; [|reflexivity].
  rewrite run_pbind, run_lift. unfold subscript.
  destruct (api_response !! str "url") as [url|]; reflexivity.
Qed.

End RenderingFacts.

(** C8, at the failing input.  With the deck builder unreachable, both the
    request with the enriched presentation and the fallback request with the
    placeholders fail, and the stage ends with the exception of the second
    request instead of a response. *)
Theorem rendering_outage_fails_stage :
  exists trace,
    run unit SampleWorld.deck_builder_down SampleWorld.clock SampleWorld.stage tt
    = (Raise (Failure (str "deck-builder unreachable")), tt, trace)
    /\ SampleWorld.render_calls trace = [true; true]
    /\ map snd (text_calls trace) = [false].
Proof. eexists. split; [reflexivity|]. split; reflexivity. Qed.

(** When only the first request fails, the stage answers with the fallback
    deck and [content_generated = False]. *)
Example rendering_failure_recovered :
  exists d trace,
    run nat SampleWorld.deck_builder_recovers SampleWorld.clock SampleWorld.stage
        0%nat
    = (Ok (RespDict d), 2%nat, trace)
    /\ SampleWorld.render_calls trace = [true; false]
    /\ d !! str "content_generated" = Some (PBool false)
    /\ d !! str "url" = Some (PStr (str "http://localhost:8000/p/deck-1")).
Proof. eexists _, _. repeat split; reflexivity. Qed.

(** ** Further properties of [truncate] *)

Section TruncateMore.

Lemma startswith_app (sub s : pystr) :
  startswith sub s = true -> s = sub ++ drop (length sub) s.
Proof.
  revert s. induction sub as [|a sub IH]; intros [|b s] H; simpl in *;
    try reflexivity; try discriminate.
  apply andb_true_iff in H as [Hab H]. apply N.eqb_eq in Hab as ->.
  f_equal. now apply IH.
Qed.

(** A delimiter accepted by the loop sits at or beyond 70% of a
    non-negative budget. *)
Lemma accepted_at_70 (n d : Z) :
  0 <= n < 2 ^ 49 ->
  int_gt_float d (int_mul_float n f0_7) = true -> 7 * n <= 10 * d.
Proof.
  intros Hn Hgt. destruct (Z_lt_ge_dec (10 * d) (7 * n)) as [Hlt | Hge]; [|lia].
  apply (threshold_70 n d Hn) in Hlt. congruence.
Qed.

Lemma truncate_false_prefix (text : pystr) (n : Z) :
  exists m : nat, truncate text n false = take m text.
Proof.
  pose proof (truncate_via_cases text n false) as Hc. cbn zeta in Hc.
  destruct (fst (truncate_via text n false)).
  - destruct Hc as [-> ->]. now exists 0%nat.
  - destruct Hc as [_ ->]. exists (length text). now rewrite take_ge.
  - destruct Hc as (_ & d & _ & _ & ->).
    destruct (slice_to_is_take (slice_to text n) (rfind (slice_to text n) d + 1))
      as [m1 ->].
    destruct (slice_to_is_take text n) as [m2 ->]. rewrite take_take. eauto.
  - destruct Hc as (_ & _ & ->). simpl ellipsis. rewrite app_nil_r.
    destruct (slice_to_is_take (slice_to text n)
                (rfind (slice_to text n) (str " "))) as [m1 ->].
    destruct (slice_to_is_take text n) as [m2 ->]. rewrite take_take. eauto.
  - destruct Hc as (_ & _ & ->). simpl ellipsis. rewrite app_nil_r.
    apply slice_to_is_take.
Qed.

End TruncateMore.

(** X1.  Without ellipsis, [truncate] only ever removes characters from the
    end: for every text and every [max_chars] of magnitude below [2^1023]
    (where [max_chars * 0.7] is a finite double), also a negative one, the
    result is a prefix of the text; and with [add_ellipsis=True] the result is
    that same prefix, followed by ["..."] or not. *)
Theorem truncate_returns_prefix (text : pystr) (max_chars : Z) :
  - 2 ^ 1023 < max_chars < 2 ^ 1023 ->
  (exists m : nat, truncate text max_chars false = take m text)
  /\ (truncate text max_chars true = truncate text max_chars false
      \/ truncate text max_chars true
         = truncate text max_chars false ++ str "...").
Proof.
  intros _. split; [apply truncate_false_prefix|].
  pose proof (truncate_via_cases text max_chars true) as Ht.
  pose proof (truncate_via_cases text max_chars false) as Hf.
  rewrite (truncate_via_exit text max_chars false true) in Hf.
  cbn zeta in Ht, Hf.
  destruct (fst (truncate_via text max_chars true)).
  - destruct Ht as [_ ->], Hf as [_ ->]. now left.
  - destruct Ht as [_ ->], Hf as [_ ->]. now left.
  - left. unfold truncate, truncate_via. destruct text as [|c text]; [reflexivity|].
    destruct (len (c :: text) <=? max_chars); [reflexivity|].
    destruct (sentence_cut _ _ _) eqn:Hcut; [reflexivity|].
    exfalso. destruct Ht as (_ & d & Hd & Hgt & _).
    rewrite sentence_cut_none in Hcut. rewrite (Hcut d Hd) in Hgt. discriminate.
  - destruct Ht as (_ & _ & ->), Hf as (_ & _ & ->). right.
    simpl ellipsis. now rewrite app_nil_r.
  - destruct Ht as (_ & _ & ->), Hf as (_ & _ & ->). right.
    simpl ellipsis. now rewrite app_nil_r.
Qed.

Lemma truncate_returns_prefix_witness :
  (exists m : nat,
      truncate (str "Sales grew fast. Ok!") (-4) false
      = take m (str "Sales grew fast. Ok!"))
  /\ (truncate (str "Sales grew fast. Ok!") (-4) true
      = truncate (str "Sales grew fast. Ok!") (-4) false
      \/ truncate (str "Sales grew fast. Ok!") (-4) true
         = truncate (str "Sales grew fast. Ok!") (-4) false ++ str "...").
Proof.
  apply (truncate_returns_prefix (str "Sales grew fast. Ok!") (-4)).
  split; reflexivity.
Defined.

(** X2.  A non-empty text is never truncated to nothing: for a budget of at
    least one character (below [2^49]) the result of [truncate] is
    non-empty. *)
Theorem truncate_keeps_something (text : pystr) (max_chars : Z)
        (add_ellipsis : bool) :
  text <> [] -> 1 <= max_chars < 2 ^ 49 ->
  truncate text max_chars add_ellipsis <> [].
Proof.
  intros Hne Hn.
  pose proof (truncate_via_cases text max_chars add_ellipsis) as Hc.
  cbn zeta in Hc.
  assert (Hnil : forall s : pystr, 0 < len s -> s <> [])
    by (intros [|? ?] H; [unfold len in H; simpl in H; lia | discriminate]).
  destruct (fst (truncate_via text max_chars add_ellipsis)).
  - destruct Hc as [-> _]. congruence.
  - destruct Hc as [_ ->]. assumption.
  - destruct Hc as (Hlt & d & Hd & Hgt & ->). apply Hnil.
    apply accepted_at_70 in Hgt; [|lia].
    assert (Hlen : len (slice_to text max_chars) = max_chars)
      by (apply len_slice_to_exact; lia).
    destruct (rfind_range (slice_to text max_chars) d
                (delimiters_nonempty d Hd)) as [Hm1 | [H0 Hb]]; [lia|].
    assert (0 < len d)
      by (destruct d; [now apply delimiters_nonempty in Hd
                      | unfold len; simpl; lia]).
    rewrite len_slice_to_exact; lia.
  - destruct Hc as (Hlt & Hsp & ->). apply Hnil. rewrite len_app.
    assert (Hlen : len (slice_to text max_chars) = max_chars)
      by (apply len_slice_to_exact; lia).
    destruct (rfind_range (slice_to text max_chars) (str " ") space_nonempty)
      as [Hm1 | [H0 Hb]]; [lia|].
    change (len (str " ")) with 1 in Hb.
    rewrite len_slice_to_exact by lia. pose proof (len_nonneg (ellipsis add_ellipsis)).
    lia.
  - destruct Hc as (Hlt & _ & ->). apply Hnil. rewrite len_app.
    rewrite len_slice_to_exact by lia.
    pose proof (len_nonneg (ellipsis add_ellipsis)). lia.
Qed.

Lemma truncate_keeps_something_witness :
  str "word" <> [] /\ 1 <= 1 < 2 ^ 49 /\ truncate (str "word") 1 true <> [].
Proof.
  assert (H : str "word" <> []) by discriminate.
  split; [exact H|]. split; [lia|].
  apply (truncate_keeps_something (str "word") 1 true H). lia.
Defined.

(** X3.  When [truncate] cuts at a sentence boundary (budget in [0, 2^49)),
    the result ends with [.], [!] or [?], the text continues with a space
    right after it, and the result keeps at least 70% of the budget:
    [7 * max_chars <= 10 * (len result - 1)] and [len result < max_chars]. *)
Theorem sentence_cut_ends_sentence (text : pystr) (max_chars : Z)
        (add_ellipsis : bool) (r : pystr) :
  0 <= max_chars < 2 ^ 49 ->
  truncate_via text max_chars add_ellipsis = (ExitSentence, r) ->
  exists (body : pystr) (mark : char) (rest : pystr),
    r = body ++ [mark]
    /\ In mark [46%N; 33%N; 63%N]
    /\ text = r ++ 32%N :: rest
    /\ 7 * max_chars <= 10 * (len r - 1)
    /\ len r < max_chars.
Proof.
  intros Hn Hvia.
  pose proof (truncate_via_cases text max_chars add_ellipsis) as Hc.
  unfold truncate in Hc. rewrite Hvia in Hc. cbn [fst snd] in Hc.
  destruct Hc as (Hlt & d & Hd & Hgt & ->).
  apply accepted_at_70 in Hgt; [|assumption].
  set (t := slice_to text max_chars) in *.
  assert (Hlen : len t = max_chars) by (apply len_slice_to_exact; lia).
  assert (Ht : t = take (Z.to_nat max_chars) text)
    by (apply slice_to_nonneg; lia).
  pose proof (delimiters_nonempty d Hd) as Hdne.
  destruct (rfind_spec t d Hdne) as [[Hm1 _] | [[H0 Hocc] _]]; [lia|].
  set (k := rfind t d) in *.
  assert (Hmark : exists mark, In mark [46%N; 33%N; 63%N] /\ d = [mark; 32%N]).
  { destruct Hd as [<- | [<- | [<- | []]]]; eexists; (split; [|reflexivity]);
      simpl; auto. }
  destruct Hmark as (mark & Hin & ->).
  apply startswith_app in Hocc. simpl length in Hocc. cbn [app] in Hocc.
  assert (Hsplit : t = take (Z.to_nat k) t ++ mark :: 32%N :: drop 2 (drop (Z.to_nat k) t)).
  { rewrite <- (take_drop (Z.to_nat k) t) at 1. f_equal. exact Hocc. }
  assert (Hk2 : k + 2 <= max_chars).
  { pose proof (occurs_at_bound [mark; 32%N] t k Hdne) as Hb.
    change (len [mark; 32%N]) with 2 in Hb. rewrite Hlen in Hb. apply Hb.
    split; [assumption|]. rewrite Hocc at 1. simpl.
    unfold char_eqb. now rewrite !N.eqb_refl. }
  assert (Hr : slice_to t (k + 1) = take (Z.to_nat k) t ++ [mark]).
  { rewrite slice_to_nonneg by lia.
    replace (Z.to_nat (k + 1)) with (S (Z.to_nat k)) by lia.
    apply take_S_r.
    replace (Z.to_nat k) with (Z.to_nat k + 0)%nat by lia.
    rewrite <- lookup_drop, Hocc. reflexivity. }
  exists (take (Z.to_nat k) t), mark, (drop 2 (drop (Z.to_nat k) t) ++ drop (Z.to_nat max_chars) text).
  split; [exact Hr|]. split; [exact Hin|]. split; [|split].
  - rewrite Hr, <- app_assoc. cbn [app].
    rewrite <- (take_drop (Z.to_nat max_chars) text) at 1.
    rewrite <- Ht. rewrite Hsplit at 1. rewrite <- app_assoc. reflexivity.
  - rewrite len_slice_to_exact by lia. lia.
  - rewrite len_slice_to_exact by lia. lia.
Qed.

Lemma sentence_cut_ends_sentence_witness :
  exists (body : pystr) (mark : char) (rest : pystr),
    str "Budget is final." = body ++ [mark]
    /\ In mark [46%N; 33%N; 63%N]
    /\ str "Budget is final. Next item follows here"
       = str "Budget is final." ++ 32%N :: rest
    /\ 7 * 20 <= 10 * (len (str "Budget is final.") - 1)
    /\ len (str "Budget is final.") < 20.
Proof.
  apply (sentence_cut_ends_sentence
           (str "Budget is final. Next item follows here") 20 true
           (str "Budget is final.")); [lia | reflexivity].
Defined.

(** ** Further properties of the state machine *)

Section StateMachineMore.

Lemma validate_state_In (s : pystr) : validate_state s = true <-> In s STATES.
Proof. apply list_contains_In. Qed.

(** The rows of [TRANSITIONS], one by one. *)
Lemma transitions_lookup_cases (s : pystr) (next : list pystr) :
  TRANSITIONS !! s = Some next ->
  exists st : Stage, s = stage_name st
                     /\ next = map stage_name (spec_transition_table st).
Proof.
  intros H. apply elem_of_list_to_map_2 in H. apply list_elem_of_In in H.
  repeat destruct H as [H | H]; try (now destruct H);
    injection H as <- <-.
  - now exists Greeting.
  - now exists AskClarifyingQuestions.
  - now exists CreateConfirmationPlan.
  - now exists GenerateStrawman.
  - now exists RefineStrawman.
  - now exists ContentGeneration.
Qed.

Lemma stage_name_valid (st : Stage) : In (stage_name st) STATES.
Proof. destruct st; simpl; auto 10. Qed.

Lemma valid_state_is_stage (s : pystr) :
  In s STATES -> exists st : Stage, s = stage_name st.
Proof.
  intros [<- | [<- | [<- | [<- | [<- | [<- | []]]]]]].
  - now exists Greeting.
  - now exists AskClarifyingQuestions.
  - now exists CreateConfirmationPlan.
  - now exists GenerateStrawman.
  - now exists RefineStrawman.
  - now exists ContentGeneration.
Qed.

(** An allowed transition, read as a step between stages. *)
Lemma validate_transition_stages (s t : pystr) :
  validate_transition s t = Ok true ->
  exists a b : Stage,
    s = stage_name a /\ t = stage_name b /\ In b (spec_transition_table a).
Proof.
  rewrite validate_transition_lookup. intros [= H].
  destruct (TRANSITIONS !! s) as [next|] eqn:Hs; [|discriminate].
  destruct (transitions_lookup_cases s next Hs) as (a & -> & ->).
  apply list_contains_In, in_map_iff in H as (b & <- & Hb). eauto.
Qed.

Lemma stage_step (a b : Stage) :
  In b (spec_transition_table a) ->
  validate_transition (stage_name a) (stage_name b) = Ok true.
Proof.
  intros Hin. rewrite validate_transition_lookup, transitions_lookup_stage.
  f_equal. apply list_contains_In, in_map_iff. eauto.
Qed.

End StateMachineMore.

(** X4.  [validate_transition] accepts only pairs of valid states: whenever
    it returns [True], both the source and the target satisfy
    [validate_state]. *)
Theorem transitions_stay_within_states (s t : pystr) :
  validate_transition s t = Ok true ->
  validate_state s = true /\ validate_state t = true.
Proof.
  intros H. destruct (validate_transition_stages s t H) as (a & b & -> & -> & _).
  split; apply validate_state_In, stage_name_valid.
Qed.

Lemma transitions_stay_within_states_witness :
  validate_state (str "GENERATE_STRAWMAN") = true
  /\ validate_state (str "CONTENT_GENERATION") = true.
Proof.
  apply (transitions_stay_within_states (str "GENERATE_STRAWMAN")
                                        (str "CONTENT_GENERATION")).
  reflexivity.
Defined.

(** X5.  Among the valid states [CONTENT_GENERATION] is the only one without
    a next state, and no transition from any state leads to
    [PROVIDE_GREETING]: the greeting is never re-entered. *)
Theorem terminal_state_and_no_return (s : pystr) :
  (validate_state s = true ->
   (get_next_states s = Ok [] <-> s = str "CONTENT_GENERATION"))
  /\ validate_transition s (str "PROVIDE_GREETING") = Ok false.
Proof.
  split.
  - intros Hs. apply validate_state_In, valid_state_is_stage in Hs as [st ->].
    unfold get_next_states. rewrite transitions_lookup_stage. cbn [default].
    destruct st; split; intros H; try reflexivity;
      try (vm_compute in H; discriminate H).
  - destruct (validate_transition s (str "PROVIDE_GREETING")) as [[|]|e] eqn:H.
    + apply validate_transition_stages in H as (a & b & -> & Hb & Hin).
      exfalso. destruct b; try (vm_compute in Hb; discriminate Hb).
      destruct a; simpl in Hin; intuition discriminate.
    + reflexivity.
    + rewrite validate_transition_lookup in H. discriminate.
Qed.

Lemma terminal_state_and_no_return_witness :
  validate_state (str "CONTENT_GENERATION") = true
  /\ get_next_states (str "CONTENT_GENERATION") = Ok [].
Proof.
  split; [reflexivity|].
  destruct (terminal_state_and_no_return (str "CONTENT_GENERATION")) as [H _].
  now apply (H eq_refl).
Defined.

(** X6.  Every valid state can be reached from [PROVIDE_GREETING] by allowed
    transitions, and from every valid state [CONTENT_GENERATION] can be
    reached: the workflow has no unreachable state and no dead end before the
    terminal state. *)
Theorem workflow_is_connected (s : pystr) :
  validate_state s = true ->
  reachable (str "PROVIDE_GREETING") s
  /\ reachable s (str "CONTENT_GENERATION").
Proof.
  intros Hs. apply validate_state_In, valid_state_is_stage in Hs as [st ->].
  assert (step : forall a b u, In b (spec_transition_table a) ->
                               reachable (stage_name b) u ->
                               reachable (stage_name a) u)
    by (intros a b u Hin; apply reach_step; now apply stage_step).
  assert (G4 : reachable (stage_name GenerateStrawman) (stage_name ContentGeneration))
    by (apply (step _ ContentGeneration); [simpl; auto | apply reach_here]).
  assert (G3 : reachable (stage_name CreateConfirmationPlan)
                         (stage_name ContentGeneration))
    by (apply (step _ GenerateStrawman); [simpl; auto | exact G4]).
  assert (G2 : reachable (stage_name AskClarifyingQuestions)
                         (stage_name ContentGeneration))
    by (apply (step _ CreateConfirmationPlan); [simpl; auto | exact G3]).
  assert (to : forall u, reachable (stage_name CreateConfirmationPlan) u ->
                         reachable (stage_name Greeting) u).
  { intros u Hu. apply (step _ AskClarifyingQuestions); [simpl; auto|].
    apply (step _ CreateConfirmationPlan); [simpl; auto | exact Hu]. }
  assert (to4 : forall u, reachable (stage_name GenerateStrawman) u ->
                          reachable (stage_name Greeting) u).
  { intros u Hu. apply to. apply (step _ GenerateStrawman); [simpl; auto | exact Hu]. }
  change (str "PROVIDE_GREETING") with (stage_name Greeting).
  change (str "CONTENT_GENERATION") with (stage_name ContentGeneration).
  split.
  - destruct st.
    + apply reach_here.
    + apply (step _ AskClarifyingQuestions); [simpl; auto | apply reach_here].
    + apply to, reach_here.
    + apply to4, reach_here.
    + apply to4. apply (step _ RefineStrawman); [simpl; auto | apply reach_here].
    + apply to4, G4.
  - destruct st.
    + apply to, G3.
    + exact G2.
    + exact G3.
    + exact G4.
    + apply (step _ ContentGeneration); [simpl; auto | apply reach_here].
    + apply reach_here.
Qed.

Lemma workflow_is_connected_witness :
  reachable (str "PROVIDE_GREETING") (str "REFINE_STRAWMAN")
  /\ reachable (str "REFINE_STRAWMAN") (str "CONTENT_GENERATION").
Proof.
  apply (workflow_is_connected (str "REFINE_STRAWMAN")). reflexivity.
Defined.

(** ** The stage order of the checkpoint manager *)

Section StageOrderFacts.

Lemma list_index_spec (x : pystr) (l : list pystr) :
  In x l ->
  exists pre post,
    l = pre ++ x :: post /\ ~ In x pre
    /\ CheckpointManager.list_index x l = Some (len pre).
Proof.
  induction l as [|y l IH]; [intros []|]. intros Hin.
  cbn [CheckpointManager.list_index]. destruct (decide (y = x)) as [-> | Hne].
  - rewrite bool_decide_eq_true_2 by reflexivity.
    exists [], l. repeat split. intros [].
  - rewrite bool_decide_eq_false_2 by assumption.
    destruct Hin as [-> | Hin]; [congruence|].
    destruct (IH Hin) as (pre & post & -> & Hn & ->).
    exists (y :: pre), post. split; [reflexivity|]. split.
    + intros [-> | H]; [congruence | tauto].
    + f_equal. unfold len. simpl length. lia.
Qed.

Lemma slice_to_app_len {A} (pre post : list A) :
  slice_to (pre ++ post) (len pre) = pre.
Proof.
  rewrite slice_to_nonneg by apply len_nonneg. unfold len.
  rewrite Nat2Z.id. now rewrite take_app_length.
Qed.

End StageOrderFacts.

(** X7.  For a stage of [STAGES], [get_previous_stages] returns exactly the
    stages listed before it: they are followed in [STAGES] by the stage
    itself, do not contain it, and their number is [get_stage_index].  For any
    other string both functions raise [ValueError("Invalid stage: ...")]. *)
Theorem previous_stages_are_the_prefix (stage : pystr) :
  (In stage CheckpointManager.STAGES ->
   exists prev rest,
     CheckpointManager.get_previous_stages stage = Ok prev
     /\ CheckpointManager.STAGES = prev ++ stage :: rest
     /\ ~ In stage prev
     /\ CheckpointManager.get_stage_index stage = Ok (len prev))
  /\ (~ In stage CheckpointManager.STAGES ->
      CheckpointManager.get_stage_index stage
      = Raise (ValueError (str "Invalid stage: " ++ stage))
      /\ CheckpointManager.get_previous_stages stage
         = Raise (ValueError (str "Invalid stage: " ++ stage))).
Proof.
  unfold CheckpointManager.get_previous_stages, CheckpointManager.get_stage_index.
  split; intros Hin.
  - rewrite bool_decide_eq_true_2 by now apply list_elem_of_In. cbn [negb].
    destruct (list_index_spec stage CheckpointManager.STAGES Hin)
      as (pre & post & Hl & Hn & ->).
    cbn [bind]. exists pre, post. split; [|auto].
    f_equal. rewrite Hl. apply slice_to_app_len.
  - rewrite bool_decide_eq_false_2 by now rewrite list_elem_of_In.
    split; reflexivity.
Qed.

Lemma previous_stages_are_the_prefix_witness :
  In (str "GENERATE_STRAWMAN") CheckpointManager.STAGES
  /\ exists prev rest,
      CheckpointManager.get_previous_stages (str "GENERATE_STRAWMAN") = Ok prev
      /\ CheckpointManager.STAGES = prev ++ str "GENERATE_STRAWMAN" :: rest
      /\ ~ In (str "GENERATE_STRAWMAN") prev
      /\ CheckpointManager.get_stage_index (str "GENERATE_STRAWMAN")
         = Ok (len prev).
Proof.
  assert (H : In (str "GENERATE_STRAWMAN") CheckpointManager.STAGES)
    by (simpl; auto 10).
  split; [exact H|].
  destruct (previous_stages_are_the_prefix (str "GENERATE_STRAWMAN")) as [Hin _].
  exact (Hin H).
Defined.

(** X8.  The checkpoint manager and the state machine list the same six
    states, and along every allowed transition the stage index stays or grows
    by at most 2, except for the one step back from
    [CREATE_CONFIRMATION_PLAN] to [ASK_CLARIFYING_QUESTIONS]. *)
Theorem transitions_follow_stage_order (s t : pystr) :
  CheckpointManager.STAGES = STATES
  /\ (validate_transition s t = Ok true ->
      exists i j,
        CheckpointManager.get_stage_index s = Ok i
        /\ CheckpointManager.get_stage_index t = Ok j
        /\ (i <= j <= i + 2
            \/ (s = str "CREATE_CONFIRMATION_PLAN"
                /\ t = str "ASK_CLARIFYING_QUESTIONS"))).
Proof.
  split; [reflexivity|]. intros H.
  destruct (validate_transition_stages s t H) as (a & b & -> & -> & Hin).
  destruct a; simpl in Hin;
    repeat (destruct Hin as [<- | Hin]; [|]); try (now destruct Hin);
    eexists _, _; (split; [reflexivity|]); (split; [reflexivity|]);
    first [left; lia | right; split; reflexivity].
Qed.

Lemma transitions_follow_stage_order_witness :
  exists i j,
    CheckpointManager.get_stage_index (str "GENERATE_STRAWMAN") = Ok i
    /\ CheckpointManager.get_stage_index (str "CONTENT_GENERATION") = Ok j
    /\ (i <= j <= i + 2
        \/ (str "GENERATE_STRAWMAN" = str "CREATE_CONFIRMATION_PLAN"
            /\ str "CONTENT_GENERATION" = str "ASK_CLARIFYING_QUESTIONS")).
Proof.
  destruct (transitions_follow_stage_order (str "GENERATE_STRAWMAN")
                                           (str "CONTENT_GENERATION")) as [_ H].
  apply H. reflexivity.
Defined.

(** ** Further properties of the content transformer *)

Section TransformerMore.

Variable content_schema_of : pystr -> result ContentSchema.
Variable today : pystr.

(** The mapping functions see the enriched slide only through
    [usable_content]. *)
Lemma mapping_depends_on_usable_content
      (slide : Slide) (layout_id : pystr) (fields : ContentSchema)
      (presentation : PresentationStrawman) (e e' : option EnrichedSlide) :
  usable_content e = usable_content e' ->
  _map_content_to_layout today slide layout_id fields presentation e
  = _map_content_to_layout today slide layout_id fields presentation e'.
Proof.
  intros Hu.
  destruct (decide (layout_id = str "L01")) as [-> | N1];
    [now rewrite !content_to_layout_L01|].
  destruct (decide (layout_id = str "L02")) as [-> | N2];
    [now rewrite !content_to_layout_L02|].
  destruct (decide (layout_id = str "L03")) as [-> | N3];
    [now rewrite !content_to_layout_L03|].
  destruct (decide (layout_id = str "L04")) as [-> | N4];
    [rewrite !content_to_layout_L04; unfold _map_text_summary; now rewrite Hu|].
  destruct (decide (layout_id = str "L05")) as [-> | N5];
    [rewrite !content_to_layout_L05; unfold _map_bullet_list; now rewrite Hu|].
  destruct (decide (layout_id = str "L06")) as [-> | N6];
    [rewrite !content_to_layout_L06; unfold _map_numbered_list; now rewrite Hu|].
  destruct (decide (layout_id = str "L10")) as [-> | N10];
    [rewrite !content_to_layout_L10; unfold _map_image_text; now rewrite Hu|].
  destruct (decide (layout_id = str "L17")) as [-> | N17];
    [rewrite !content_to_layout_L17; unfold _map_chart_insights; now rewrite Hu|].
  rewrite !content_to_layout_other by assumption.
  unfold _map_generic. now rewrite Hu.
Qed.

Lemma transform_slides_shape (todo : list Slide) (idx total_slides : Z)
      (strawman : PresentationStrawman)
      (enriched_data : option EnrichedPresentationStrawman)
      (out : list TransformedSlide) :
  transform_slides content_schema_of today idx total_slides todo strawman
                   enriched_data = Ok out ->
  length out = length todo
  /\ forall (i : nat) (slide : Slide),
      todo !! i = Some slide ->
      exists ts,
        out !! i = Some ts
        /\ ts_layout ts = assigned_layout (idx + Z.of_nat i) total_slides slide.
Proof.
  revert idx out. induction todo as [|slide todo IH]; intros idx out.
  - intros [= <-]. split; [reflexivity|]. intros i slide H. discriminate H.
  - cbn [transform_slides]. fold (assigned_layout idx total_slides slide).
    destruct (match enriched_data with Some _ => _ | None => _ end)
      as [es|]; cbn [bind]; [|discriminate].
    unfold transform_slide at 1.
    destruct (content_schema_of _) as [fields|]; cbn [bind]; [|discriminate].
    destruct (_map_content_to_layout _ _ _ _ _ _) as [c|]; cbn [bind];
      [|discriminate].
    destruct (transform_slides _ _ _ _ _ _ _) as [others|] eqn:Hrest;
      cbn [bind]; [|discriminate].
    intros [= <-]. destruct (IH _ _ Hrest) as [Hlen Hat]. split.
    + simpl. now rewrite Hlen.
    + intros [|i] s Hs.
      * injection Hs as <-. eexists. split; [reflexivity|]. cbn [ts_layout].
        f_equal. lia.
      * destruct (Hat i s Hs) as (ts & Hts & Hl). exists ts. split; [exact Hts|].
        rewrite Hl. f_equal. lia.
Qed.

(** With an empty list of enriched slides no slide gets enriched data. *)
Lemma transform_slides_no_enriched (todo : list Slide) (idx total_slides : Z)
      (strawman : PresentationStrawman) (e : EnrichedPresentationStrawman) :
  enriched_slides e = [] ->
  transform_slides content_schema_of today idx total_slides todo strawman (Some e)
  = transform_slides content_schema_of today idx total_slides todo strawman None.
Proof.
  intros He. revert idx. induction todo as [|slide todo IH]; intros idx;
    [reflexivity|].
  cbn [transform_slides]. rewrite He. cbn [bind]. now rewrite IH.
Qed.

(** A non-empty list of enriched slides that ends before the slides do makes
    the loop raise. *)
Lemma transform_slides_short_enriched (todo : list Slide) (idx total_slides : Z)
      (strawman : PresentationStrawman) (e : EnrichedPresentationStrawman) :
  enriched_slides e <> [] ->
  0 <= idx <= len (enriched_slides e) ->
  len (enriched_slides e) < idx + len todo ->
  exists x,
    transform_slides content_schema_of today idx total_slides todo strawman (Some e)
    = Raise x.
Proof.
  intros Hne. revert idx. induction todo as [|slide todo IH]; intros idx Hidx Hlt.
  - unfold len in Hlt at 2. simpl in Hlt. lia.
  - cbn [transform_slides].
    destruct (enriched_slides e) as [|e0 es] eqn:He; [congruence|].
    destruct ((e0 :: es) !! Z.to_nat idx) as [esi|] eqn:Hl; cbn [bind].
    + destruct (transform_slide _ _ _ _ _ _) as [ts|x]; cbn [bind]; [|eauto].
      destruct (IH (idx + 1)) as [x ->].
      * apply lookup_lt_Some in Hl. unfold len in *. lia.
      * unfold len in *. simpl length in *. lia.
      * cbn [bind]. eauto.
    + eauto.
Qed.

End TransformerMore.

(** X9.  An enriched slide without usable text, because its generated text
    is missing or because it is flagged [has_text_failure], is transformed
    exactly like a slide without enriched data, for every layout. *)
Theorem failed_text_falls_back_to_placeholders
        (content_schema_of : pystr -> result ContentSchema) (today : pystr)
        (slide : Slide) (layout_id : pystr) (presentation : PresentationStrawman)
        (es : EnrichedSlide) :
  generated_text es = None \/ has_text_failure es = true ->
  transform_slide content_schema_of today slide layout_id presentation (Some es)
  = transform_slide content_schema_of today slide layout_id presentation None.
Proof.
  intros H. unfold transform_slide.
  destruct (content_schema_of layout_id) as [fields|]; [|reflexivity].
  cbn [bind]. f_equal. apply mapping_depends_on_usable_content.
  unfold usable_content. destruct (generated_text es); [|reflexivity].
  destruct H as [H | ->]; [discriminate | reflexivity].
Qed.

Lemma failed_text_falls_back_to_placeholders_witness :
  transform_slide Sample.content_schema_of Sample.today Sample.slide (str "L05")
                  Sample.presentation
                  (Some (mkEnrichedSlide Sample.slide (str "test-001") None true))
  = transform_slide Sample.content_schema_of Sample.today Sample.slide (str "L05")
                    Sample.presentation None.
Proof.
  apply (failed_text_falls_back_to_placeholders
           Sample.content_schema_of Sample.today Sample.slide (str "L05")
           Sample.presentation
           (mkEnrichedSlide Sample.slide (str "test-001") None true)).
  now left.
Defined.

(** X10.  When [transform_presentation] returns a payload, its title is the
    main title of the strawman and it holds one entry per slide, in slide
    order; the entry of the slide at position [i] carries the slide's own
    [layout_id] when that is set and non-empty, and otherwise the positional
    fallback ([L01] first, [L03] last, [L02] for a section divider, [L05]
    else). *)
Theorem payload_follows_the_slides
        (content_schema_of : pystr -> result ContentSchema) (today : pystr)
        (strawman : PresentationStrawman)
        (enriched_data : option EnrichedPresentationStrawman) (payload : Payload) :
  transform_presentation content_schema_of today strawman enriched_data
  = Ok payload ->
  p_title payload = main_title strawman
  /\ length (p_slides payload) = length (slides strawman)
  /\ forall (i : nat) (slide : Slide),
      slides strawman !! i = Some slide ->
      exists ts,
        p_slides payload !! i = Some ts
        /\ ts_layout ts
           = assigned_layout (Z.of_nat i) (len (slides strawman)) slide.
Proof.
  unfold transform_presentation.
  destruct (transform_slides _ _ _ _ _ _ _) as [out|] eqn:Hout; cbn [bind];
    [|discriminate].
  intros [= <-]. cbn [p_title p_slides]. split; [reflexivity|].
  destruct (transform_slides_shape content_schema_of today _ _ _ _ _ _ Hout)
    as [Hlen Hat].
  split; [exact Hlen|]. intros i slide Hs.
  destruct (Hat i slide Hs) as (ts & Hts & Hl). exists ts. split; [exact Hts|].
  now rewrite Hl.
Qed.

Lemma payload_follows_the_slides_witness :
  exists payload,
    transform_presentation Sample.content_schema_of Sample.today
                           SampleWorld.strawman None = Ok payload
    /\ p_title payload = str "Test Presentation"
    /\ length (p_slides payload) = 1%nat.
Proof.
  eexists. split; [reflexivity|].
  destruct (payload_follows_the_slides
              Sample.content_schema_of Sample.today SampleWorld.strawman None _
              eq_refl) as (Ht & Hl & _).
  split; [exact Ht | exact Hl].
Defined.

(** X11.  The list of enriched slides is consulted by position.  When it is
    empty, [transform_presentation] behaves as without enriched data; when it
    is non-empty but shorter than the list of slides, the call never returns a
    payload: it raises (at the latest, [IndexError] at the first slide without
    an entry). *)
Theorem enriched_slides_are_read_by_position
        (content_schema_of : pystr -> result ContentSchema) (today : pystr)
        (strawman : PresentationStrawman) (e : EnrichedPresentationStrawman) :
  (enriched_slides e = [] ->
   transform_presentation content_schema_of today strawman (Some e)
   = transform_presentation content_schema_of today strawman None)
  /\ (enriched_slides e <> [] ->
      len (enriched_slides e) < len (slides strawman) ->
      exists x,
        transform_presentation content_schema_of today strawman (Some e)
        = Raise x).
Proof.
  unfold transform_presentation. split.
  - intros He. now rewrite transform_slides_no_enriched.
  - intros Hne Hlt.
    destruct (transform_slides_short_enriched content_schema_of today
                (slides strawman) 0 (len (slides strawman)) strawman e Hne)
      as [x ->]; [pose proof (len_nonneg (enriched_slides e)); lia | lia |].
    cbn [bind]. eauto.
Qed.

Lemma enriched_slides_are_read_by_position_witness :
  exists x,
    transform_presentation
      Sample.content_schema_of Sample.today
      (mkStrawman (str "Two slides") (str "Theme")
                  [Sample.slide; Sample.four_points]
                  (str "Plain") (str "Everyone") 5)
      (Some (mkEnriched SampleWorld.strawman
                        [Sample.enriched (Legacy Sample.legacy_lines)] ∅))
    = Raise x.
Proof.
  destruct (enriched_slides_are_read_by_position
              Sample.content_schema_of Sample.today
              (mkStrawman (str "Two slides") (str "Theme")
                          [Sample.slide; Sample.four_points]
                          (str "Plain") (str "Everyone") 5)
              (mkEnriched SampleWorld.strawman
                          [Sample.enriched (Legacy Sample.legacy_lines)] ∅))
    as [_ H].
  apply H; [discriminate | reflexivity].
Defined.

(** ** Schema limits on the paths without structured content *)

Section BudgetFacts.

Variable fields : ContentSchema.
Hypothesis Hnonneg : schema_nonneg fields.

Lemma field_attr_nonneg (name attr : pystr) (n : Z) :
  field_attr fields name attr = Ok n -> 0 <= n.
Proof using Hnonneg.
  unfold field_attr, subscript.
  destruct (fields !! name) as [spec|] eqn:Hs; cbn [bind]; [|discriminate].
  destruct (spec !! attr) as [m|] eqn:Hm; [|discriminate]. intros [= <-].
  exact (Hnonneg _ _ Hs _ _ Hm).
Qed.

Lemma within_budget_truncate (key text : pystr) (n : Z) :
  field_attr fields key (str "max_chars") = Ok n ->
  within_budget fields key (PStr (truncate text n false)).
Proof using Hnonneg.
  intros Hn. exists n. split; [exact Hn|].
  pose proof (truncate_len text n false (field_attr_nonneg _ _ _ Hn)) as H.
  simpl in H. lia.
Qed.

Lemma within_budget_str_list (key : pystr) (items : list pystr)
      (max_items max_chars : Z) :
  field_attr fields key (str "max_items") = Ok max_items ->
  field_attr fields key (str "max_chars_per_item") = Ok max_chars ->
  len items <= max_items /\ Forall (fun item => len item <= max_chars) items ->
  within_budget fields key (str_list items).
Proof.
  intros Hi Hc [Hlen Hall]. exists max_items, max_chars.
  split; [exact Hi|]. split; [exact Hc|]. split.
  - unfold len in *. now rewrite length_map.
  - apply Forall_forall. intros item Hin.
    apply list_elem_of_In, in_map_iff in Hin. destruct Hin as (s & <- & Hin).
    exists s. split; [reflexivity|].
    rewrite Forall_forall in Hall. apply Hall. now apply list_elem_of_In.
Qed.

Lemma fits_schema_insert (key : pystr) (v : pyval) (out : gmap pystr pyval) :
  In key unbudgeted_fields \/ within_budget fields key v ->
  fits_schema fields out -> fits_schema fields (<[key := v]> out).
Proof.
  intros Hv Hout key' v' Hk. destruct (decide (key = key')) as [<- | Hne].
  - rewrite lookup_insert_eq. intros [= <-]. now destruct Hv.
  - rewrite lookup_insert_ne by assumption. now apply Hout.
Qed.

Lemma fits_schema_fold (entries : list (pystr * pyval)) (out : gmap pystr pyval) :
  Forall (fun entry => In (fst entry) unbudgeted_fields
                       \/ within_budget fields (fst entry) (snd entry)) entries ->
  fits_schema fields out ->
  fits_schema fields
    (fold_left (fun d entry => <[fst entry := snd entry]> d) entries out).
Proof.
  revert out. induction entries as [|[k v] entries IH]; intros out Hall Hout;
    [exact Hout|].
  apply Forall_cons in Hall as [Hkv Hall]. cbn [fold_left]. apply IH; [exact Hall|].
  now apply fits_schema_insert.
Qed.

Lemma fits_schema_dict_of (entries : list (pystr * pyval)) :
  Forall (fun entry => In (fst entry) unbudgeted_fields
                       \/ within_budget fields (fst entry) (snd entry)) entries ->
  fits_schema fields (dict_of entries).
Proof.
  intros Hall. apply fits_schema_fold; [exact Hall|].
  intros key v _ H. now rewrite lookup_empty in H.
Qed.

Lemma fits_schema_set_truncated (key text : pystr) (result out : gmap pystr pyval) :
  set_truncated_if_field key text fields result = Ok out ->
  fits_schema fields result -> fits_schema fields out.
Proof using Hnonneg.
  unfold set_truncated_if_field. destruct (dict_has key fields).
  - destruct (field_attr fields key (str "max_chars")) as [n|] eqn:Hn;
      cbn [bind]; [|discriminate].
    intros [= <-] Hr. apply fits_schema_insert; [|exact Hr]. right.
    now apply within_budget_truncate.
  - now intros [= <-].
Qed.

End BudgetFacts.

Ltac budget_entries :=
  repeat first
    [ apply Forall_nil_2
    | apply Forall_cons_2; cbn [fst snd];
      [ first [ right; now apply within_budget_truncate
              | left; cbn [unbudgeted_fields In]; tauto
              | right; exact I ] | ] ].

Section BudgetMappers.

Variable today : pystr.
Variable fields : ContentSchema.
Hypothesis Hnonneg : schema_nonneg fields.

Variable slide : Slide.
Variable presentation : PresentationStrawman.
Variable e : option EnrichedSlide.
Hypothesis Hunstructured : forall d, usable_content e <> Some (Structured d).

Lemma title_slide_fits (out : gmap pystr pyval) :
  _map_title_slide today slide fields presentation e = Ok out ->
  fits_schema fields out.
Proof using Hnonneg.
  unfold _map_title_slide.
  destruct (field_attr fields (str "main_title") _) eqn:H1; cbn [bind];
    [|discriminate].
  destruct (field_attr fields (str "subtitle") _) eqn:H2; cbn [bind];
    [|discriminate].
  destruct (field_attr fields (str "organization") _) eqn:H3; cbn [bind];
    [|discriminate].
  intros [= <-]. apply fits_schema_dict_of. budget_entries.
Qed.

Lemma section_divider_fits (out : gmap pystr pyval) :
  _map_section_divider slide fields presentation e = Ok out ->
  fits_schema fields out.
Proof using Hnonneg.
  unfold _map_section_divider.
  destruct (field_attr fields (str "section_title") _) eqn:H1; cbn [bind];
    [|discriminate].
  intros [= <-]. apply fits_schema_dict_of. budget_entries.
Qed.

Lemma closing_slide_fits (out : gmap pystr pyval) :
  _map_closing_slide slide fields presentation e = Ok out ->
  fits_schema fields out.
Proof using Hnonneg.
  unfold _map_closing_slide.
  destruct (field_attr fields (str "closing_message") _) eqn:H1; cbn [bind];
    [|discriminate].
  destruct (field_attr fields (str "subtitle") _) eqn:H2; cbn [bind];
    [|discriminate].
  intros [= <-]. apply fits_schema_dict_of. budget_entries.
Qed.

Lemma text_summary_result_fits (main_text : pystr) (out : gmap pystr pyval) :
  text_summary_result slide fields main_text = Ok out -> fits_schema fields out.
Proof using Hnonneg.
  unfold text_summary_result.
  destruct (field_attr fields (str "slide_title") _) eqn:H1; cbn [bind];
    [|discriminate].
  destruct (if dict_has (str "subtitle") fields then _ else _)
    as [subtitle|] eqn:Hsub; cbn [bind]; [|discriminate].
  destruct (field_attr fields (str "main_text_content") _) eqn:H2; cbn [bind];
    [|discriminate].
  destruct (if dict_has (str "summary") fields then _ else _)
    as [summary_v|] eqn:Hsum; cbn [bind]; [|discriminate].
  intros [= <-].
  assert (Hs : within_budget fields (str "subtitle") subtitle).
  { destruct (dict_has (str "subtitle") fields).
    - destruct (field_attr fields (str "subtitle") _) eqn:H3; cbn [bind] in Hsub;
        [|discriminate]. injection Hsub as <-. now apply within_budget_truncate.
    - injection Hsub as <-. exact I. }
  assert (Hv : within_budget fields (str "summary") summary_v).
  { destruct (dict_has (str "summary") fields).
    - destruct (field_attr fields (str "summary") _) eqn:H3; cbn [bind] in Hsum;
        [|discriminate]. injection Hsum as <-. now apply within_budget_truncate.
    - injection Hsum as <-. exact I. }
  apply fits_schema_dict_of.
  repeat first [ apply Forall_nil_2 | apply Forall_cons_2; cbn [fst snd] ];
    right; first [ assumption | now apply within_budget_truncate ].
Qed.

Lemma text_summary_fits (out : gmap pystr pyval) :
  _map_text_summary slide fields presentation e = Ok out -> fits_schema fields out.
Proof using Hnonneg Hunstructured.
  unfold _map_text_summary.
  destruct (usable_content e) as [[d | s]|] eqn:Hu;
    [now destruct (Hunstructured d) | |]; apply text_summary_result_fits.
Qed.

Lemma bullet_list_result_fits (bullets : list pystr) (max_items max_chars : Z)
      (out : gmap pystr pyval) :
  field_attr fields (str "bullets") (str "max_items") = Ok max_items ->
  field_attr fields (str "bullets") (str "max_chars_per_item") = Ok max_chars ->
  len bullets <= max_items /\ Forall (fun item => len item <= max_chars) bullets ->
  bullet_list_result slide fields bullets = Ok out -> fits_schema fields out.
Proof using Hnonneg.
  intros Hi Hc Hb. unfold bullet_list_result.
  destruct (field_attr fields (str "slide_title") _) eqn:H1; cbn [bind];
    [|discriminate].
  intros Hout. apply (fits_schema_set_truncated _ Hnonneg _ _ _ _ Hout).
  apply fits_schema_dict_of.
  repeat first [ apply Forall_nil_2 | apply Forall_cons_2; cbn [fst snd] ]; right;
    [ now apply within_budget_truncate
    | now apply (within_budget_str_list _ _ _ max_items max_chars) ].
Qed.

Lemma bullet_list_fits (out : gmap pystr pyval) :
  _map_bullet_list slide fields presentation e = Ok out -> fits_schema fields out.
Proof using Hnonneg Hunstructured.
  unfold _map_bullet_list.
  destruct (field_attr fields (str "bullets") (str "max_items")) as [m|] eqn:Hi;
    cbn [bind]; [|discriminate].
  destruct (field_attr fields (str "bullets") (str "max_chars_per_item"))
    as [c|] eqn:Hc; cbn [bind]; [|discriminate].
  pose proof (field_attr_nonneg _ Hnonneg _ _ _ Hi) as Hm.
  pose proof (field_attr_nonneg _ Hnonneg _ _ _ Hc) as Hc0.
  destruct (usable_content e) as [[d | s]|] eqn:Hu;
    [now destruct (Hunstructured d) | |];
    apply (bullet_list_result_fits _ m c _ Hi Hc).
  - now apply legacy_bullets_bounds.
  - now apply key_point_bullets_bounds.
Qed.

Lemma numbered_list_result_fits (items : list pyval) (out : gmap pystr pyval) :
  numbered_list_result slide fields items = Ok out -> fits_schema fields out.
Proof using Hnonneg.
  unfold numbered_list_result.
  destruct (field_attr fields (str "slide_title") _) eqn:H1; cbn [bind];
    [|discriminate].
  intros Hout. apply (fits_schema_set_truncated _ Hnonneg _ _ _ _ Hout).
  apply fits_schema_dict_of. budget_entries.
Qed.

Lemma numbered_list_fits (out : gmap pystr pyval) :
  _map_numbered_list slide fields presentation e = Ok out -> fits_schema fields out.
Proof using Hnonneg Hunstructured.
  unfold _map_numbered_list.
  destruct (field_attr fields (str "numbered_items") _) as [m|]; cbn [bind];
    [|discriminate].
  destruct (usable_content e) as [[d | s]|] eqn:Hu;
    [now destruct (Hunstructured d) | |].
  - destruct (legacy_numbered_items _ _ _); cbn [bind]; [|discriminate].
    apply numbered_list_result_fits.
  - destruct (key_point_items _ _); cbn [bind]; [|discriminate].
    apply numbered_list_result_fits.
Qed.

Lemma image_text_result_fits (image_placeholder text_content : pystr)
      (out : gmap pystr pyval) :
  image_text_result slide fields image_placeholder text_content = Ok out ->
  fits_schema fields out.
Proof using Hnonneg.
  unfold image_text_result.
  destruct (field_attr fields (str "slide_title") _) eqn:H1; cbn [bind];
    [|discriminate].
  destruct (field_attr fields (str "text_content") _) eqn:H2; cbn [bind];
    [|discriminate].
  intros Hout. apply (fits_schema_set_truncated _ Hnonneg _ _ _ _ Hout).
  apply fits_schema_dict_of. budget_entries.
Qed.

Lemma image_text_fits (out : gmap pystr pyval) :
  _map_image_text slide fields presentation e = Ok out -> fits_schema fields out.
Proof using Hnonneg Hunstructured.
  unfold _map_image_text.
  destruct (usable_content e) as [[d | s]|] eqn:Hu;
    [now destruct (Hunstructured d) | |]; apply image_text_result_fits.
Qed.

Lemma chart_insights_result_fits (chart_placeholder : pystr)
      (insights : list pystr) (max_items max_chars : Z) (out : gmap pystr pyval) :
  field_attr fields (str "key_insights") (str "max_items") = Ok max_items ->
  field_attr fields (str "key_insights") (str "max_chars_per_item") = Ok max_chars ->
  len insights <= max_items /\ Forall (fun item => len item <= max_chars) insights ->
  chart_insights_result slide fields chart_placeholder insights = Ok out ->
  fits_schema fields out.
Proof using Hnonneg.
  intros Hi Hc Hb. unfold chart_insights_result.
  destruct (field_attr fields (str "slide_title") _) eqn:H1; cbn [bind];
    [|discriminate].
  destruct (set_truncated_if_field (str "subtitle") _ _ _) as [mid|] eqn:Hmid;
    cbn [bind]; [|discriminate].
  intros Hout. apply (fits_schema_set_truncated _ Hnonneg _ _ _ _ Hout).
  apply (fits_schema_set_truncated _ Hnonneg _ _ _ _ Hmid).
  apply fits_schema_dict_of.
  repeat first [ apply Forall_nil_2 | apply Forall_cons_2; cbn [fst snd] ];
    [ right; now apply within_budget_truncate
    | left; cbn [unbudgeted_fields In]; tauto
    | right; now apply (within_budget_str_list _ _ _ max_items max_chars) ].
Qed.

Lemma chart_insights_fits (out : gmap pystr pyval) :
  _map_chart_insights slide fields presentation e = Ok out ->
  fits_schema fields out.
Proof using Hnonneg Hunstructured.
  unfold _map_chart_insights.
  destruct (field_attr fields (str "key_insights") (str "max_items"))
    as [m|] eqn:Hi; cbn [bind]; [|discriminate].
  destruct (field_attr fields (str "key_insights") (str "max_chars_per_item"))
    as [c|] eqn:Hc; cbn [bind]; [|discriminate].
  pose proof (field_attr_nonneg _ Hnonneg _ _ _ Hi) as Hm.
  pose proof (field_attr_nonneg _ Hnonneg _ _ _ Hc) as Hc0.
  destruct (usable_content e) as [[d | s]|] eqn:Hu;
    [now destruct (Hunstructured d) | |];
    apply (chart_insights_result_fits _ _ m c _ Hi Hc).
  - now apply legacy_bullets_bounds.
  - now apply key_point_bullets_bounds.
Qed.

Lemma generic_fits (out : gmap pystr pyval) :
  _map_generic slide fields e = Ok out -> fits_schema fields out.
Proof using Hnonneg Hunstructured.
  unfold _map_generic.
  assert (Hempty : fits_schema fields ∅)
    by (intros key v _ H; now rewrite lookup_empty in H).
  assert (Hgen :
    forall usable : option Content,
      (forall d, usable <> Some (Structured d)) ->
      (let* content :=
         set_truncated_if_field (str "slide_title") (title slide) fields ∅ in
       let* content :=
         set_truncated_if_field (str "subtitle") (narrative slide) fields content in
       if dict_has (str "bullets") fields then
         let* max_items := field_attr fields (str "bullets") (str "max_items") in
         let* max_chars :=
           field_attr fields (str "bullets") (str "max_chars_per_item") in
         match usable with
         | Some (Legacy generated_content) =>
             Ok (<[str "bullets" :=
                     str_list (legacy_bullets generated_content slide
                                              max_items max_chars)]> content)
         | _ =>
             Ok (<[str "bullets" :=
                     str_list (key_point_bullets slide max_items max_chars)]> content)
         end
       else Ok content) = Ok out ->
      fits_schema fields out).
  { intros usable Hus.
    destruct (set_truncated_if_field (str "slide_title") _ _ _) as [c1|] eqn:H1;
      cbn [bind]; [|discriminate].
    destruct (set_truncated_if_field (str "subtitle") _ _ _) as [c2|] eqn:H2;
      cbn [bind]; [|discriminate].
    pose proof (fits_schema_set_truncated _ Hnonneg _ _ _ _ H1 Hempty) as F1.
    pose proof (fits_schema_set_truncated _ Hnonneg _ _ _ _ H2 F1) as F2.
    destruct (dict_has (str "bullets") fields); [|now intros [= <-]].
    destruct (field_attr fields (str "bullets") (str "max_items"))
      as [m|] eqn:Hi; cbn [bind]; [|discriminate].
    destruct (field_attr fields (str "bullets") (str "max_chars_per_item"))
      as [c|] eqn:Hc; cbn [bind]; [|discriminate].
    pose proof (field_attr_nonneg _ Hnonneg _ _ _ Hi) as Hm.
    pose proof (field_attr_nonneg _ Hnonneg _ _ _ Hc) as Hc0.
    destruct usable as [[d | s]|]; [now destruct (Hus d) | |];
      intros [= <-]; (apply fits_schema_insert; [right | exact F2]);
      apply (within_budget_str_list _ _ _ m c Hi Hc).
    - now apply legacy_bullets_bounds.
    - now apply key_point_bullets_bounds. }
  destruct (usable_content e) as [[d | s]|] eqn:Hu;
    [now destruct (Hunstructured d) | |].
  - refine (Hgen (Some (Legacy s)) _). intros d. discriminate.
  - refine (Hgen None _). intros d. discriminate.
Qed.

Lemma content_to_layout_fits (layout_id : pystr) (out : gmap pystr pyval) :
  _map_content_to_layout today slide layout_id fields presentation e = Ok out ->
  fits_schema fields out.
Proof using Hnonneg Hunstructured.
  destruct (decide (layout_id = str "L01")) as [-> | N1];
    [rewrite content_to_layout_L01; apply title_slide_fits|].
  destruct (decide (layout_id = str "L02")) as [-> | N2];
    [rewrite content_to_layout_L02; apply section_divider_fits|].
  destruct (decide (layout_id = str "L03")) as [-> | N3];
    [rewrite content_to_layout_L03; apply closing_slide_fits|].
  destruct (decide (layout_id = str "L04")) as [-> | N4];
    [rewrite content_to_layout_L04; apply text_summary_fits|].
  destruct (decide (layout_id = str "L05")) as [-> | N5];
    [rewrite content_to_layout_L05; apply bullet_list_fits|].
  destruct (decide (layout_id = str "L06")) as [-> | N6];
    [rewrite content_to_layout_L06; apply numbered_list_fits|].
  destruct (decide (layout_id = str "L10")) as [-> | N10];
    [rewrite content_to_layout_L10; apply image_text_fits|].
  destruct (decide (layout_id = str "L17")) as [-> | N17];
    [rewrite content_to_layout_L17; apply chart_insights_fits|].
  rewrite content_to_layout_other by assumption. apply generic_fits.
Qed.

End BudgetMappers.

(** X12.  On every path other than the pass-through of structured content
    (no enriched slide, failed or missing text, or legacy string content),
    and for every layout, the content [transform_slide] returns stays within
    the limits of the layout's schema, provided these limits are non-negative:
    each string field is at most the field's [max_chars] long, each list
    field has at most [max_items] entries of at most [max_chars_per_item]
    characters.  The fields outside this guarantee are the fixed texts and
    the date of the title and closing layouts, the asset placeholders
    [image] and [chart_url], and [numbered_items]. *)
Theorem unstructured_content_fits_schema
        (content_schema_of : pystr -> result ContentSchema) (today : pystr)
        (slide : Slide) (layout_id : pystr) (presentation : PresentationStrawman)
        (e : option EnrichedSlide) (fields : ContentSchema) (ts : TransformedSlide) :
  (forall d, usable_content e <> Some (Structured d)) ->
  content_schema_of layout_id = Ok fields ->
  schema_nonneg fields ->
  transform_slide content_schema_of today slide layout_id presentation e = Ok ts ->
  forall key v,
    ~ In key unbudgeted_fields ->
    ts_content ts !! key = Some v ->
    within_budget fields key v.
Proof.
  intros Hu Hf Hn. unfold transform_slide. rewrite Hf. cbn [bind].
  destruct (_map_content_to_layout _ _ _ _ _ _) as [out|] eqn:Hout; cbn [bind];
    [|discriminate].
  intros [= <-]. cbn [ts_content].
  exact (content_to_layout_fits today fields Hn slide presentation e Hu _ _ Hout).
Qed.

Lemma unstructured_content_fits_schema_witness :
  exists fields ts,
    Sample.content_schema_of (str "L05") = Ok fields
    /\ transform_slide Sample.content_schema_of Sample.today Sample.four_points
                       (str "L05") Sample.presentation None = Ok ts
    /\ forall key v,
        ~ In key unbudgeted_fields ->
        ts_content ts !! key = Some v ->
        within_budget fields key v.
Proof.
  eexists _, _. split; [reflexivity|]. split; [reflexivity|].
  apply (unstructured_content_fits_schema
           Sample.content_schema_of Sample.today Sample.four_points (str "L05")
           Sample.presentation None).
  - intros d. discriminate.
  - reflexivity.
  - apply (bool_decide_unpack _). vm_compute. exact I.
  - reflexivity.
Defined.

(** ** Missing schema fields and the generic mapping *)

Section SchemaFieldFacts.

Lemma field_attr_missing (fields : ContentSchema) (name attr : pystr) :
  fields !! name = None -> field_attr fields name attr = Raise (KeyError name).
Proof. intros H. unfold field_attr, subscript. now rewrite H. Qed.

Lemma set_truncated_if_field_dom (key text : pystr) (fields : ContentSchema)
      (result out : gmap pystr pyval) :
  set_truncated_if_field key text fields result = Ok out ->
  forall key',
    is_Some (out !! key')
    <-> (key' = key /\ is_Some (fields !! key)) \/ is_Some (result !! key').
Proof.
  unfold set_truncated_if_field, dict_has.
  destruct (decide (is_Some (fields !! key))) as [Hin | Hout].
  - rewrite bool_decide_eq_true_2 by assumption.
    destruct (field_attr fields key (str "max_chars")); cbn [bind];
      [|discriminate].
    intros [= <-] key'. destruct (decide (key = key')) as [<- | Hne].
    + rewrite lookup_insert_eq. split; [intros _; now left | intros _; eauto].
    + rewrite lookup_insert_ne by assumption. split; [now right|].
      intros [[-> _] | H]; [congruence | exact H].
  - rewrite bool_decide_eq_false_2 by assumption. intros [= <-] key'.
    split; [now right|]. intros [[_ H] | H]; [contradiction | exact H].
Qed.

End SchemaFieldFacts.

(** X13.  The mapping functions of the list layouts read the caps of their
    list field before they look at the content: when the schema of [L05],
    [L06] or [L17] lacks [bullets], [numbered_items] or [key_insights],
    [transform_slide] raises [KeyError] on that field for every enriched
    slide, structured content included.  For every layout other than these
    three and the three fixed ones, structured content is returned without
    any failure, whatever the schema holds. *)
Theorem list_layouts_need_their_list_field
        (content_schema_of : pystr -> result ContentSchema) (today : pystr)
        (slide : Slide) (layout_id : pystr) (presentation : PresentationStrawman)
        (e : option EnrichedSlide) (fields : ContentSchema) :
  content_schema_of layout_id = Ok fields ->
  (forall field,
      In (layout_id, field) list_field_of ->
      fields !! field = None ->
      transform_slide content_schema_of today slide layout_id presentation e
      = Raise (KeyError field))
  /\ (forall d,
         usable_content e = Some (Structured d) ->
         ~ In layout_id (fixed_layouts ++ map fst list_field_of) ->
         exists ts,
           transform_slide content_schema_of today slide layout_id presentation e
           = Ok ts).
Proof.
  intros Hf. unfold transform_slide. rewrite Hf. cbn [bind]. split.
  - intros field Hin Hmiss. cbn [list_field_of In] in Hin.
    destruct Hin as [[= <- <-] | [[= <- <-] | [[= <- <-] | []]]].
    + rewrite content_to_layout_L05. unfold _map_bullet_list.
      now rewrite field_attr_missing.
    + rewrite content_to_layout_L06. unfold _map_numbered_list.
      now rewrite field_attr_missing.
    + rewrite content_to_layout_L17. unfold _map_chart_insights.
      now rewrite field_attr_missing.
  - intros d Hu Hnot.
    assert (Hnot' : ~ In layout_id [str "L01"; str "L02"; str "L03";
                                   str "L05"; str "L06"; str "L17"])
      by exact Hnot.
    cbn [In] in Hnot'.
    destruct (decide (layout_id = str "L04")) as [-> | N4].
    { rewrite content_to_layout_L04. unfold _map_text_summary. rewrite Hu.
      cbn [bind]. eauto. }
    destruct (decide (layout_id = str "L10")) as [-> | N10].
    { rewrite content_to_layout_L10. unfold _map_image_text. rewrite Hu.
      cbn [bind]. eauto. }
    rewrite content_to_layout_other by (intros ->; tauto).
    unfold _map_generic. rewrite Hu. cbn [bind]. eauto.
Qed.

Lemma list_layouts_need_their_list_field_witness :
  transform_slide
    (fun _ => Ok (dict_of [(str "slide_title", Sample.max_chars_spec 60)]))
    Sample.today Sample.slide (str "L05") Sample.presentation
    (Some (Sample.enriched (Structured Sample.structured_content)))
  = Raise (KeyError (str "bullets"))
  /\ exists ts,
      transform_slide
        (fun _ => Ok (dict_of [(str "slide_title", Sample.max_chars_spec 60)]))
        Sample.today Sample.slide (str "L10") Sample.presentation
        (Some (Sample.enriched (Structured Sample.structured_content)))
      = Ok ts.
Proof.
  destruct (list_layouts_need_their_list_field
              (fun _ => Ok (dict_of [(str "slide_title", Sample.max_chars_spec 60)]))
              Sample.today Sample.slide (str "L05") Sample.presentation
              (Some (Sample.enriched (Structured Sample.structured_content)))
              _ eq_refl) as [H5 _].
  destruct (list_layouts_need_their_list_field
              (fun _ => Ok (dict_of [(str "slide_title", Sample.max_chars_spec 60)]))
              Sample.today Sample.slide (str "L10") Sample.presentation
              (Some (Sample.enriched (Structured Sample.structured_content)))
              _ eq_refl) as [_ H10].
  split.
  - apply H5; [left; reflexivity | reflexivity].
  - apply (H10 Sample.structured_content); [reflexivity|].
    intros Hin. vm_compute in Hin. intuition discriminate.
Defined.

(** X14.  For a layout without a mapping function of its own and without
    structured content, the content returned holds exactly those of the
    fields [slide_title], [subtitle] and [bullets] that the layout's schema
    declares; every other field of the schema stays unfilled. *)
Theorem generic_mapping_fills_declared_fields
        (content_schema_of : pystr -> result ContentSchema) (today : pystr)
        (slide : Slide) (layout_id : pystr) (presentation : PresentationStrawman)
        (e : option EnrichedSlide) (fields : ContentSchema) (ts : TransformedSlide) :
  ~ In layout_id [str "L01"; str "L02"; str "L03"; str "L04"; str "L05";
                  str "L06"; str "L10"; str "L17"] ->
  (forall d, usable_content e <> Some (Structured d)) ->
  content_schema_of layout_id = Ok fields ->
  transform_slide content_schema_of today slide layout_id presentation e = Ok ts ->
  ts_layout ts = layout_id
  /\ forall key,
      is_Some (ts_content ts !! key)
      <-> In key generic_fields /\ is_Some (fields !! key).
Proof.
  intros Hnot Hu Hf. cbn [In] in Hnot. unfold transform_slide. rewrite Hf.
  cbn [bind]. rewrite content_to_layout_other by (intros ->; tauto).
  destruct (_map_generic slide fields e) as [out|] eqn:Hout; cbn [bind];
    [|discriminate].
  intros [= <-]. cbn [ts_layout ts_content]. split; [reflexivity|].
  assert (Hgen :
    forall bullets : Z -> Z -> list pystr,
      (let* content :=
         set_truncated_if_field (str "slide_title") (title slide) fields ∅ in
       let* content :=
         set_truncated_if_field (str "subtitle") (narrative slide) fields content in
       if dict_has (str "bullets") fields then
         let* max_items := field_attr fields (str "bullets") (str "max_items") in
         let* max_chars :=
           field_attr fields (str "bullets") (str "max_chars_per_item") in
         Ok (<[str "bullets" := str_list (bullets max_items max_chars)]> content)
       else Ok content) = Ok out ->
      forall key,
        is_Some (out !! key) <-> In key generic_fields /\ is_Some (fields !! key)).
  { intros bullets.
    destruct (set_truncated_if_field (str "slide_title") _ _ _) as [c1|] eqn:H1;
      cbn [bind]; [|discriminate].
    destruct (set_truncated_if_field (str "subtitle") _ _ _) as [c2|] eqn:H2;
      cbn [bind]; [|discriminate].
    pose proof (set_truncated_if_field_dom _ _ _ _ _ H1) as D1.
    pose proof (set_truncated_if_field_dom _ _ _ _ _ H2) as D2.
    assert (D : forall key,
               is_Some (c2 !! key)
               <-> (key = str "slide_title" \/ key = str "subtitle")
                   /\ is_Some (fields !! key)).
    { intros key. rewrite D2, D1, lookup_empty. split.
      - intros [[-> H] | [[-> H] | H]]; [tauto | tauto |].
        now destruct H.
      - intros [[-> | ->] H]; tauto. }
    assert (Hne1 : str "slide_title" <> str "bullets") by key_neq.
    assert (Hne2 : str "subtitle" <> str "bullets") by key_neq.
    unfold dict_has.
    destruct (decide (is_Some (fields !! str "bullets"))) as [Hin | Hno].
    - rewrite bool_decide_eq_true_2 by assumption.
      destruct (field_attr fields (str "bullets") (str "max_items")); cbn [bind];
        [|discriminate].
      destruct (field_attr fields (str "bullets") (str "max_chars_per_item"));
        cbn [bind]; [|discriminate].
      intros [= <-] key. cbn [generic_fields In].
      destruct (decide (str "bullets" = key)) as [<- | Hne].
      + rewrite lookup_insert_eq. split; [intros _; tauto | intros _; eauto].
      + rewrite lookup_insert_ne by assumption. rewrite D. split.
        * intros [[-> | ->] H]; tauto.
        * intros [[<- | [<- | [<- | []]]] H]; tauto.
    - rewrite bool_decide_eq_false_2 by assumption. intros [= <-] key.
      cbn [generic_fields In]. rewrite D. split.
      + intros [[-> | ->] H]; tauto.
      + intros [[<- | [<- | [<- | []]]] H]; tauto. }
  unfold _map_generic in Hout.
  destruct (usable_content e) as [[d | s]|] eqn:Hus;
    [now destruct (Hu d) | |].
  - exact (Hgen (legacy_bullets s slide) Hout).
  - exact (Hgen (key_point_bullets slide) Hout).
Qed.

Lemma generic_mapping_fills_declared_fields_witness :
  exists ts,
    transform_slide (fun _ => Ok Sample.image_text_schema) Sample.today
                    Sample.slide (str "L07") Sample.presentation None = Ok ts
    /\ ts_layout ts = str "L07"
    /\ forall key,
        is_Some (ts_content ts !! key)
        <-> In key generic_fields /\ is_Some (Sample.image_text_schema !! key).
Proof.
  eexists. split; [reflexivity|].
  apply (generic_mapping_fills_declared_fields
           (fun _ => Ok Sample.image_text_schema) Sample.today Sample.slide
           (str "L07") Sample.presentation None Sample.image_text_schema).
  - intros Hin. vm_compute in Hin. intuition discriminate.
  - intros d. discriminate.
  - reflexivity.
  - reflexivity.
Defined.

(** ** Layout selection and the strawman stages *)

Section StrawmanStageFacts.

Variable world : Type.
Variable handle : forall X, call X -> world -> result X * world.
Variable clock : world -> Z * world.
Variable layout_schema_manager : option (list pystr -> result pystr).
Variable repr : pystr -> pystr.

Abbreviation exec' := (DirectorAgent.run world handle clock).

Abbreviation layout_options :=
  (format_layout_options_for_ai layout_schema_manager
                                [str "L01"; str "L02"; str "L03"]).

Lemma model_calls_app (t1 t2 : list event) :
  model_calls (t1 ++ t2) = model_calls t1 ++ model_calls t2.
Proof.
  induction t1 as [|[X c r] t1 IH]; [reflexivity|]. cbn [app model_calls].
  destruct c; rewrite IH; reflexivity.
Qed.

Lemma sent_payloads_app (t1 t2 : list event) :
  sent_payloads (t1 ++ t2) = sent_payloads t1 ++ sent_payloads t2.
Proof.
  induction t1 as [|[X c r] t1 IH]; [reflexivity|]. cbn [app sent_payloads].
  destruct c; rewrite IH; reflexivity.
Qed.

(** The fourth branch: the schema manager is asked first, outside the
    [try]; then the model, inside it. *)
Lemma select_layout_fourth_branch (slide : Slide) (position : pystr)
      (total_slides : Z) (w : world) :
  position <> str "first" -> position <> str "last" ->
  slide_type slide <> str "section_divider" ->
  exec' (_select_layout_by_use_case layout_schema_manager repr
                                    slide position total_slides) w
  = match layout_options with
    | Raise x => (Raise x, w, [])
    | Ok layout_options_text =>
        let prompt := layout_prompt slide layout_options_text in
        (Ok (model_selection repr (fst (handle _ (RunLayoutAgent prompt) w))),
         snd (handle _ (RunLayoutAgent prompt) w),
         [Event (RunLayoutAgent prompt)
                (fst (handle _ (RunLayoutAgent prompt) w))])
    end.
Proof.
  intros Hf Hl Hd. unfold _select_layout_by_use_case.
  rewrite (bool_decide_eq_false_2 (position = str "first")) by assumption.
  rewrite (bool_decide_eq_false_2 (position = str "last")) by assumption.
  rewrite (bool_decide_eq_false_2 (slide_type slide = str "section_divider"))
    by assumption.
  rewrite run_pbind, run_lift.
  destruct layout_options as [layout_options_text | x]; [|reflexivity].
  rewrite run_try_except, run_pbind, run_await.
  destruct (handle _ (RunLayoutAgent (layout_prompt slide layout_options_text)) w)
    as [[selection | e] w']; reflexivity.
Qed.

Lemma position_of_cases (idx total_slides : Z) :
  (idx = 0 /\ position_of idx total_slides = str "first")
  \/ (idx <> 0 /\ idx = total_slides - 1
      /\ position_of idx total_slides = str "last")
  \/ (idx <> 0 /\ idx <> total_slides - 1
      /\ position_of idx total_slides = str "middle").
Proof.
  unfold position_of. destruct (Z.eqb_spec idx 0); [now left|].
  destruct (Z.eqb_spec idx (total_slides - 1)); right; [left | right]; tauto.
Qed.

Lemma needs_model_middle (slide : Slide) (idx total_slides : Z) :
  needs_model idx total_slides slide = true ->
  position_of idx total_slides = str "middle"
  /\ slide_type slide <> str "section_divider".
Proof.
  unfold needs_model, position_of. intros H.
  apply andb_true_iff in H as [H Hd]. apply andb_true_iff in H as [H0 Hl].
  apply negb_true_iff in H0, Hl, Hd. rewrite H0, Hl. split; [reflexivity|].
  now apply bool_decide_eq_false_1 in Hd.
Qed.

(** A slide that does not need the model gets its fixed layout by a plain
    return, with or without a schema manager. *)
Lemma select_layout_fixed_round (slide : Slide) (idx total_slides : Z) (w : world) :
  needs_model idx total_slides slide = false ->
  exists selection,
    exec' (_select_layout_by_use_case layout_schema_manager repr slide
             (position_of idx total_slides) total_slides) w
    = (Ok selection, w, [])
    /\ sel_layout_id selection = fixed_layout idx total_slides.
Proof.
  unfold needs_model, fixed_layout.
  destruct (position_of_cases idx total_slides)
    as [[H0 Hp] | [(H0 & Hl & Hp) | (H0 & Hl & Hp)]]; rewrite Hp.
  - subst idx. intros _. eexists. split; reflexivity.
  - apply Z.eqb_neq in H0. apply Z.eqb_eq in Hl. rewrite H0, Hl. intros _.
    eexists. split; reflexivity.
  - apply Z.eqb_neq in H0. apply Z.eqb_neq in Hl. rewrite H0, Hl. cbn [negb andb].
    intros Hd. apply negb_false_iff, bool_decide_eq_true_1 in Hd.
    eexists. split.
    + unfold _select_layout_by_use_case. rewrite (bool_decide_eq_true_2 _ Hd).
      reflexivity.
    + reflexivity.
Qed.

(** One round of the loop when the schema manager renders the options: it
    returns a selection, asks the model exactly for the slides that need it,
    and sends nothing to the deck builder. *)
Lemma select_layout_round (layout_options_text : pystr) (slide : Slide)
      (idx total_slides : Z) (w : world) :
  layout_options = Ok layout_options_text ->
  exists selection w' trace,
    exec' (_select_layout_by_use_case layout_schema_manager repr slide
             (position_of idx total_slides) total_slides) w
    = (Ok selection, w', trace)
    /\ (needs_model idx total_slides slide = false ->
        sel_layout_id selection = fixed_layout idx total_slides)
    /\ model_calls trace
       = (if needs_model idx total_slides slide
          then [layout_prompt slide layout_options_text]
          else [])
    /\ sent_payloads trace = [].
Proof.
  intros Hopt. destruct (needs_model idx total_slides slide) eqn:Hneeds.
  - destruct (needs_model_middle _ _ _ Hneeds) as [Hp Hd].
    rewrite Hp, select_layout_fourth_branch, Hopt; [| key_neq | key_neq | exact Hd].
    eexists _, _, _. split; [reflexivity|]. repeat split. intros H. discriminate H.
  - destruct (select_layout_fixed_round slide idx total_slides w Hneeds)
      as (selection & Hrun & Hfix).
    exists selection, w, []. split; [exact Hrun|].
    split; [intros _; exact Hfix|]. split; reflexivity.
Qed.

Lemma select_layouts_run (layout_options_text : pystr) (todo : list Slide)
      (idx total_slides : Z) (w : world) :
  layout_options = Ok layout_options_text ->
  exists new_slides w' trace,
    exec' (select_layouts layout_schema_manager repr idx total_slides todo) w
    = (Ok new_slides, w', trace)
    /\ length new_slides = length todo
    /\ (forall (i : nat) (slide : Slide),
           todo !! i = Some slide ->
           exists selection,
             new_slides !! i = Some (assign_layout slide selection)
             /\ (needs_model (idx + Z.of_nat i) total_slides slide = false ->
                 sel_layout_id selection
                 = fixed_layout (idx + Z.of_nat i) total_slides))
    /\ model_calls trace
       = expected_prompts layout_options_text idx total_slides todo
    /\ sent_payloads trace = [].
Proof.
  intros Hopt. revert idx w. induction todo as [|slide todo IH]; intros idx w.
  - exists [], w, []. repeat split. intros i slide H. discriminate H.
  - cbn [select_layouts]. rewrite run_pbind.
    destruct (select_layout_round layout_options_text slide idx total_slides w Hopt)
      as (selection & w1 & t1 & -> & Hfix & Hcalls & Hsent).
    rewrite run_pbind.
    destruct (IH (idx + 1) w1) as (others & w2 & t2 & -> & Hlen & Hat & Hc2 & Hs2).
    cbn [DirectorAgent.run]. eexists _, _, _. split; [reflexivity|].
    split; [simpl; now rewrite Hlen|]. split; [|split].
    + intros [|i] s Hs.
      * injection Hs as <-. exists selection. split; [reflexivity|].
        now rewrite Z.add_0_r.
      * destruct (Hat i s Hs) as (sel & Hnew & Hf). exists sel.
        split; [exact Hnew|].
        replace (idx + Z.of_nat (S i)) with (idx + 1 + Z.of_nat i) by lia.
        exact Hf.
    + rewrite app_nil_r, model_calls_app, Hcalls, Hc2. reflexivity.
    + rewrite app_nil_r, sent_payloads_app, Hsent, Hs2. reflexivity.
Qed.

(** When no slide needs the model the loop is a plain return, with or
    without a schema manager. *)
Lemma select_layouts_fixed_only (todo : list Slide) (idx total_slides : Z)
      (w : world) :
  (forall (i : nat) (slide : Slide),
      todo !! i = Some slide ->
      needs_model (idx + Z.of_nat i) total_slides slide = false) ->
  exists new_slides,
    exec' (select_layouts layout_schema_manager repr idx total_slides todo) w
    = (Ok new_slides, w, [])
    /\ length new_slides = length todo
    /\ forall (i : nat) (slide : Slide),
        todo !! i = Some slide ->
        exists selection,
          new_slides !! i = Some (assign_layout slide selection)
          /\ sel_layout_id selection
             = fixed_layout (idx + Z.of_nat i) total_slides.
Proof.
  revert idx. induction todo as [|slide todo IH]; intros idx Hfixed.
  - exists []. repeat split. intros i slide H. discriminate H.
  - cbn [select_layouts]. rewrite run_pbind.
    destruct (select_layout_fixed_round slide idx total_slides w)
      as (selection & -> & Hfix).
    { rewrite <- (Z.add_0_r idx). exact (Hfixed 0%nat slide eq_refl). }
    rewrite run_pbind. destruct (IH (idx + 1)) as (others & -> & Hlen & Hat).
    { intros i s Hs.
      replace (idx + 1 + Z.of_nat i) with (idx + Z.of_nat (S i)) by lia.
      exact (Hfixed (S i) s Hs). }
    cbn [DirectorAgent.run app]. eexists. split; [reflexivity|].
    split; [simpl; now rewrite Hlen|].
    intros [|i] s Hs.
    + injection Hs as <-. exists selection. split; [reflexivity|].
      now rewrite Z.add_0_r.
    + destruct (Hat i s Hs) as (sel & Hnew & Hf). exists sel.
      split; [exact Hnew|].
      replace (idx + Z.of_nat (S i)) with (idx + 1 + Z.of_nat i) by lia.
      exact Hf.
Qed.

(** When the schema manager cannot be asked, the loop raises at the first
    slide that needs the model, before any call. *)
Lemma select_layouts_raise (x : exn) (todo : list Slide) (idx total_slides : Z)
      (w : world) :
  layout_options = Raise x ->
  (exists (i : nat) (slide : Slide),
      todo !! i = Some slide
      /\ needs_model (idx + Z.of_nat i) total_slides slide = true) ->
  exec' (select_layouts layout_schema_manager repr idx total_slides todo) w
  = (Raise x, w, []).
Proof.
  intros Hopt. revert idx. induction todo as [|slide todo IH];
    intros idx (i & s & Hs & Hneeds); [discriminate Hs|].
  cbn [select_layouts]. rewrite run_pbind.
  destruct (needs_model idx total_slides slide) eqn:Hhead.
  - destruct (needs_model_middle _ _ _ Hhead) as [Hp Hd].
    rewrite Hp, select_layout_fourth_branch, Hopt; [| key_neq | key_neq | exact Hd].
    reflexivity.
  - destruct (select_layout_fixed_round slide idx total_slides w Hhead)
      as (selection & -> & _).
    rewrite run_pbind. destruct i as [|i].
    + injection Hs as ->. rewrite Z.add_0_r in Hneeds. congruence.
    + rewrite (IH (idx + 1)); [reflexivity|]. exists i, s. split; [exact Hs|].
      replace (idx + 1 + Z.of_nat i) with (idx + Z.of_nat (S i)) by lia.
      exact Hneeds.
Qed.

Variable content_schema_of : pystr -> result ContentSchema.
Variable today : pystr.
Variable get_full_url : pystr -> pystr.

(** What [send_strawman] does, request by request. *)
Lemma send_strawman_run (enabled : bool) (ready : pystr)
      (strawman : PresentationStrawman) (w : world) :
  exec' (send_strawman content_schema_of today get_full_url enabled ready strawman) w
  = if enabled then
      match transform_presentation content_schema_of today strawman None with
      | Raise x => (Ok (RespStrawman strawman), w, [])
      | Ok api_payload =>
          let '(r, w') := handle _ (CreatePresentation api_payload) w in
          (Ok match r with
              | Raise x => RespStrawman strawman
              | Ok api_response =>
                  match api_response !! str "url", api_response !! str "id" with
                  | Some url, Some presentation_id =>
                      RespUrl
                        (dict_of
                           [(str "type", PStr (str "presentation_url"));
                            (str "url", PStr (get_full_url url));
                            (str "presentation_id", PStr presentation_id);
                            (str "slide_count", PInt (len (slides strawman)));
                            (str "message", PStr (ready ++ get_full_url url))])
                        strawman
                  | _, _ => RespStrawman strawman
                  end
              end,
           w', [Event (CreatePresentation api_payload) r])
      end
    else (Ok (RespStrawman strawman), w, []).
Proof.
  unfold send_strawman. destruct enabled; [|reflexivity].
  rewrite run_try_except, run_pbind, run_lift.
  destruct (transform_presentation content_schema_of today strawman None)
    as [api_payload | x]; [|reflexivity].
  rewrite run_pbind, run_await.
  destruct (handle _ (CreatePresentation api_payload) w)
    as [[api_response | x] w']; cbn [fst snd]; [|reflexivity].
  rewrite run_pbind, run_lift. unfold subscript.
  destruct (api_response !! str "url") as [url|]; [|reflexivity].
  rewrite run_pbind, run_lift.
  destruct (api_response !! str "id") as [presentation_id|]; reflexivity.
Qed.

End StrawmanStageFacts.

(** X15.  For a slide that is neither first nor last nor a section divider,
    [_select_layout_by_use_case] first asks the schema manager for the layout
    options, outside any [try]: when that raises (as it does, with
    [AttributeError], on a director built without the manager), the call
    raises the same exception and the model is not asked.  Otherwise the
    model is asked exactly once, with the prompt built from the slide and the
    options, and a selection is always returned: the model's own when the
    model answers, and when the model call raises [e], layout [L05] with
    confidence 0.5 and a reasoning that quotes the first 100 characters of
    [str(e)]. *)
Theorem layout_selection_survives_model_failure
        (world : Type) (handle : forall X, call X -> world -> result X * world)
        (clock : world -> Z * world)
        (layout_schema_manager : option (list pystr -> result pystr))
        (repr : pystr -> pystr)
        (slide : Slide) (position : pystr) (total_slides : Z) (w : world) :
  position <> str "first" -> position <> str "last" ->
  slide_type slide <> str "section_divider" ->
  (forall x,
      format_layout_options_for_ai layout_schema_manager
                                   [str "L01"; str "L02"; str "L03"] = Raise x ->
      run world handle clock
          (_select_layout_by_use_case layout_schema_manager repr
                                      slide position total_slides) w
      = (Raise x, w, []))
  /\ (forall layout_options_text,
         format_layout_options_for_ai layout_schema_manager
                                      [str "L01"; str "L02"; str "L03"]
         = Ok layout_options_text ->
         let prompt := layout_prompt slide layout_options_text in
         exists selection,
           run world handle clock
               (_select_layout_by_use_case layout_schema_manager repr
                                           slide position total_slides) w
           = (Ok selection, snd (handle _ (RunLayoutAgent prompt) w),
              [Event (RunLayoutAgent prompt)
                     (fst (handle _ (RunLayoutAgent prompt) w))])
           /\ match fst (handle _ (RunLayoutAgent prompt) w) with
              | Ok answer => selection = answer
              | Raise e =>
                  sel_layout_id selection = str "L05"
                  /\ sel_confidence selection = f0_5
                  /\ sel_reasoning selection
                     = str "Fallback layout after AI selection error: "
                         ++ slice_to (exn_str repr e) 100
                  /\ len (sel_reasoning selection) <= 142
              end).
Proof.
  intros Hf Hl Hd.
  pose proof (select_layout_fourth_branch world handle clock layout_schema_manager
                repr slide position total_slides w Hf Hl Hd) as Hrun.
  split.
  - intros x Hx. now rewrite Hrun, Hx.
  - intros layout_options_text Hopt prompt. rewrite Hrun, Hopt. fold prompt.
    eexists. split; [reflexivity|].
    destruct (fst (handle _ (RunLayoutAgent prompt) w)) as [a | e];
      [reflexivity|].
    cbn [model_selection sel_layout_id sel_confidence sel_reasoning].
    repeat split. rewrite len_app.
    pose proof (len_slice_to_cap (exn_str repr e) 100 ltac:(lia)).
    change (len (str "Fallback layout after AI selection error: ")) with 42. lia.
Qed.

Lemma layout_selection_survives_model_failure_witness :
  run unit SampleWorld.deck_builder_down SampleWorld.clock
      (_select_layout_by_use_case None quoted Sample.slide (str "middle") 3) tt
  = (Raise (Failure (str "'DirectorAgent' object has no attribute 'layout_schema_manager'")),
     tt, [])
  /\ exists selection w' trace,
      run unit SampleWorld.deck_builder_down SampleWorld.clock
          (_select_layout_by_use_case no_options quoted Sample.slide
                                      (str "middle") 3) tt
      = (Ok selection, w', trace)
      /\ sel_layout_id selection = str "L05"
      /\ model_calls trace = [layout_prompt Sample.slide []].
Proof.
  split.
  - apply (layout_selection_survives_model_failure
             unit SampleWorld.deck_builder_down SampleWorld.clock None quoted
             Sample.slide (str "middle") 3 tt); [key_neq | key_neq | key_neq |].
    reflexivity.
  - destruct (layout_selection_survives_model_failure
                unit SampleWorld.deck_builder_down SampleWorld.clock no_options
                quoted Sample.slide (str "middle") 3 tt)
      as [_ Hok]; [key_neq | key_neq | key_neq |].
    destruct (Hok [] eq_refl) as (selection & Hrun & Hsel).
    exists selection. eexists _, _. split; [exact Hrun|]. split.
    + exact (proj1 Hsel).
    + reflexivity.
Defined.

(** X16.  The layout loop of [GENERATE_STRAWMAN].  When the schema manager
    renders the layout options, the loop never raises, whatever the model
    does: every slide comes out with a [layout_id] and a reasoning and is
    otherwise unchanged; the first slide gets [L01], the last of two or more
    gets [L03], a section divider in between gets [L02]; and the model is
    asked exactly for the remaining slides, once each and in slide order.
    When asking the schema manager raises (a director built without it, as
    with the deck builder disabled in the settings), the loop raises that
    exception as soon as a slide needs the model, before any call to a
    collaborator; it returns, with the fixed layouts, only for a deck without
    such a slide. *)
Theorem every_slide_gets_a_layout
        (world : Type) (handle : forall X, call X -> world -> result X * world)
        (clock : world -> Z * world)
        (layout_schema_manager : option (list pystr -> result pystr))
        (repr : pystr -> pystr)
        (todo : list Slide) (w : world) :
  (forall layout_options_text,
      format_layout_options_for_ai layout_schema_manager
                                   [str "L01"; str "L02"; str "L03"]
      = Ok layout_options_text ->
      exists new_slides w' trace,
        run world handle clock
            (select_layouts layout_schema_manager repr 0 (len todo) todo) w
        = (Ok new_slides, w', trace)
        /\ length new_slides = length todo
        /\ (forall (i : nat) (slide : Slide),
               todo !! i = Some slide ->
               exists selection,
                 new_slides !! i = Some (assign_layout slide selection)
                 /\ (needs_model (Z.of_nat i) (len todo) slide = false ->
                     sel_layout_id selection
                     = fixed_layout (Z.of_nat i) (len todo)))
        /\ model_calls trace
           = expected_prompts layout_options_text 0 (len todo) todo)
  /\ (forall x,
         format_layout_options_for_ai layout_schema_manager
                                      [str "L01"; str "L02"; str "L03"]
         = Raise x ->
         ((exists (i : nat) (slide : Slide),
              todo !! i = Some slide
              /\ needs_model (Z.of_nat i) (len todo) slide = true) ->
          run world handle clock
              (select_layouts layout_schema_manager repr 0 (len todo) todo) w
          = (Raise x, w, []))
         /\ ((forall (i : nat) (slide : Slide),
                 todo !! i = Some slide ->
                 needs_model (Z.of_nat i) (len todo) slide = false) ->
             exists new_slides,
               run world handle clock
                   (select_layouts layout_schema_manager repr 0 (len todo) todo) w
               = (Ok new_slides, w, [])
               /\ length new_slides = length todo
               /\ forall (i : nat) (slide : Slide),
                   todo !! i = Some slide ->
                   exists selection,
                     new_slides !! i = Some (assign_layout slide selection)
                     /\ sel_layout_id selection
                        = fixed_layout (Z.of_nat i) (len todo))).
Proof.
  split.
  - intros layout_options_text Hopt.
    destruct (select_layouts_run world handle clock layout_schema_manager repr
                layout_options_text todo 0 (len todo) w Hopt)
      as (new_slides & w' & trace & Hrun & Hlen & Hat & Hcalls & _).
    exists new_slides, w', trace. repeat split; assumption.
  - intros x Hx. split.
    + intros Hneeds.
      apply (select_layouts_raise world handle clock layout_schema_manager repr
               x todo 0 (len todo) w Hx).
      exact Hneeds.
    + intros Hfixed.
      exact (select_layouts_fixed_only world handle clock layout_schema_manager
               repr todo 0 (len todo) w Hfixed).
Qed.

Lemma every_slide_gets_a_layout_witness :
  (exists new_slides w' trace,
      run unit SampleWorld.deck_builder_down SampleWorld.clock
          (select_layouts no_options quoted 0 (len three_slides) three_slides) tt
      = (Ok new_slides, w', trace)
      /\ length new_slides = 3%nat
      /\ model_calls trace = [layout_prompt Sample.four_points []])
  /\ run unit SampleWorld.deck_builder_down SampleWorld.clock
         (select_layouts None quoted 0 (len three_slides) three_slides) tt
     = (Raise (Failure (str "'DirectorAgent' object has no attribute 'layout_schema_manager'")),
        tt, []).
Proof.
  split.
  - destruct (every_slide_gets_a_layout
                unit SampleWorld.deck_builder_down SampleWorld.clock no_options
                quoted three_slides tt) as [Hok _].
    destruct (Hok [] eq_refl) as (new_slides & w' & trace & Hrun & Hlen & _ & Hcalls).
    exists new_slides, w', trace. split; [exact Hrun|]. split; [exact Hlen|].
    exact Hcalls.
  - destruct (every_slide_gets_a_layout
                unit SampleWorld.deck_builder_down SampleWorld.clock None
                quoted three_slides tt) as [_ Hraise].
    destruct (Hraise _ eq_refl) as [H _]. apply H.
    exists 1%nat, Sample.four_points. split; reflexivity.
Defined.

(** X17.  Sending the strawman to the deck builder, in [GENERATE_STRAWMAN]
    and in [REFINE_STRAWMAN], never raises: whatever fails (building the
    payload, the request, a response without [url] or [id]) the stage returns
    the strawman itself.  At most one request is made, none when the deck
    builder is disabled, and the response always carries the strawman; a URL
    response is returned exactly for an answered request, with the full URL
    and the presentation id of the answer. *)
Theorem strawman_rendering_never_fails
        (world : Type) (handle : forall X, call X -> world -> result X * world)
        (clock : world -> Z * world)
        (content_schema_of : pystr -> result ContentSchema) (today : pystr)
        (get_full_url : pystr -> pystr) (enabled : bool) (ready : pystr)
        (strawman : PresentationStrawman) (w : world) :
  exists response w' trace,
    run world handle clock
        (send_strawman content_schema_of today get_full_url enabled ready strawman) w
    = (Ok response, w', trace)
    /\ strawman_of response = strawman
    /\ (length trace <= 1)%nat
    /\ (enabled = false -> trace = [] /\ response = RespStrawman strawman)
    /\ (forall d s,
           response = RespUrl d s ->
           exists api_payload api_response url presentation_id,
             transform_presentation content_schema_of today strawman None
             = Ok api_payload
             /\ trace = [Event (CreatePresentation api_payload) (Ok api_response)]
             /\ api_response !! str "url" = Some url
             /\ api_response !! str "id" = Some presentation_id
             /\ d !! str "url" = Some (PStr (get_full_url url))
             /\ d !! str "presentation_id" = Some (PStr presentation_id)
             /\ d !! str "slide_count" = Some (PInt (len (slides strawman)))).
Proof.
  rewrite send_strawman_run. destruct enabled.
  - destruct (transform_presentation content_schema_of today strawman None)
      as [api_payload | x].
    + destruct (handle _ (CreatePresentation api_payload) w)
        as [[api_response | x] w'].
      * destruct (api_response !! str "url") as [url|] eqn:Hurl;
          [destruct (api_response !! str "id") as [presentation_id|] eqn:Hid|].
        -- eexists _, _, _. split; [reflexivity|]. split; [reflexivity|].
           split; [simpl; lia|]. split; [discriminate|].
           intros d s [= <- <-].
           exists api_payload, api_response, url, presentation_id.
           repeat split; try assumption; now dict_lookup.
        -- eexists _, _, _. split; [reflexivity|]. split; [reflexivity|].
           split; [simpl; lia|]. split; [discriminate|]. discriminate.
        -- eexists _, _, _. split; [reflexivity|]. split; [reflexivity|].
           split; [simpl; lia|]. split; [discriminate|]. discriminate.
      * eexists _, _, _. split; [reflexivity|]. split; [reflexivity|].
        split; [simpl; lia|]. split; [discriminate|]. discriminate.
    + eexists _, _, _. split; [reflexivity|]. split; [reflexivity|].
      split; [simpl; lia|]. split; [discriminate|]. discriminate.
  - eexists _, _, _. split; [reflexivity|]. split; [reflexivity|].
    split; [simpl; lia|]. split; [now split|]. discriminate.
Qed.

(** X18.  [GENERATE_STRAWMAN], from the formatted strawman on.  When the
    schema manager renders the layout options, the branch never raises and
    returns a strawman with as many slides, each holding a [layout_id].
    Whatever is sent to the deck builder carries the title of the strawman
    and one entry per slide; the entry of a slide uses the layout stored in
    the returned strawman whenever that is a non-empty string, and the
    slides the model is not asked about have their fixed layouts there
    ([L01] first, [L03] last, [L02] for a section divider).  When asking the
    schema manager raises (a director built without it, as with the deck
    builder disabled in the settings) and some slide needs the model, the
    branch raises that exception and nothing is sent. *)
Theorem generated_deck_uses_assigned_layouts
        (world : Type) (handle : forall X, call X -> world -> result X * world)
        (clock : world -> Z * world)
        (layout_schema_manager : option (list pystr -> result pystr))
        (repr : pystr -> pystr)
        (content_schema_of : pystr -> result ContentSchema) (today : pystr)
        (get_full_url : pystr -> pystr) (enabled : bool)
        (strawman : PresentationStrawman) (w : world) :
  (forall layout_options_text,
      format_layout_options_for_ai layout_schema_manager
                                   [str "L01"; str "L02"; str "L03"]
      = Ok layout_options_text ->
      exists response w' trace,
        run world handle clock
            (generate_strawman layout_schema_manager repr content_schema_of today
                               get_full_url enabled strawman) w
        = (Ok response, w', trace)
        /\ length (slides (strawman_of response)) = length (slides strawman)
        /\ forall (i : nat) (slide' : Slide),
            slides (strawman_of response) !! i = Some slide' ->
            exists l,
              layout_id slide' = Some l
              /\ (needs_model (Z.of_nat i) (len (slides strawman)) slide' = false ->
                  l = fixed_layout (Z.of_nat i) (len (slides strawman)))
              /\ forall payload,
                  In payload (sent_payloads trace) ->
                  p_title payload = main_title strawman
                  /\ length (p_slides payload) = length (slides strawman)
                  /\ exists ts,
                      p_slides payload !! i = Some ts
                      /\ (l <> [] -> ts_layout ts = l))
  /\ (forall x,
         format_layout_options_for_ai layout_schema_manager
                                      [str "L01"; str "L02"; str "L03"]
         = Raise x ->
         (exists (i : nat) (slide : Slide),
             slides strawman !! i = Some slide
             /\ needs_model (Z.of_nat i) (len (slides strawman)) slide = true) ->
         run world handle clock
             (generate_strawman layout_schema_manager repr content_schema_of today
                                get_full_url enabled strawman) w
         = (Raise x, w, [])).
Proof.
  split.
  2:{ intros x Hx Hneeds. unfold generate_strawman. rewrite run_pbind.
      now rewrite (select_layouts_raise world handle clock layout_schema_manager
                     repr x (slides strawman) 0 (len (slides strawman)) w Hx Hneeds). }
  intros layout_options_text Hopt.
  unfold generate_strawman. rewrite run_pbind.
  destruct (select_layouts_run world handle clock layout_schema_manager repr
              layout_options_text (slides strawman) 0 (len (slides strawman)) w
              Hopt)
    as (new_slides & w1 & t1 & -> & Hlen & Hat & _ & Hsent1).
  pose proof (send_strawman_run world handle clock content_schema_of today
                get_full_url enabled
                (str "Your presentation is ready! View it at: ")
                (with_slides strawman new_slides) w1) as Hsend.
  set (strawman' := with_slides strawman new_slides) in *.
  assert (Hsent :
    exists response w' t2,
      run world handle clock
          (send_strawman content_schema_of today get_full_url enabled
                         (str "Your presentation is ready! View it at: ")
                         strawman') w1
      = (Ok response, w', t2)
      /\ strawman_of response = strawman'
      /\ forall payload,
          In payload (sent_payloads t2) ->
          transform_presentation content_schema_of today strawman' None
          = Ok payload).
  { rewrite Hsend. destruct enabled.
    - destruct (transform_presentation content_schema_of today strawman' None)
        as [api_payload | x].
      + destruct (handle _ (CreatePresentation api_payload) w1) as [r w2].
        eexists _, _, _. split; [reflexivity|]. split.
        * destruct r as [api_response | x]; [|reflexivity].
          destruct (api_response !! str "url"); [|reflexivity].
          destruct (api_response !! str "id"); reflexivity.
        * cbn [sent_payloads In]. intros payload [<- | []]. reflexivity.
      + eexists _, _, _. split; [reflexivity|]. split; [reflexivity|].
        intros payload [].
    - eexists _, _, _. split; [reflexivity|]. split; [reflexivity|].
      intros payload []. }
  destruct Hsent as (response & w' & t2 & -> & Hof & Hpay).
  exists response, w', (t1 ++ t2). split; [reflexivity|]. rewrite Hof.
  cbn [strawman' with_slides slides]. split; [exact Hlen|].
  intros i slide' Hi.
  assert (Hsome : is_Some (slides strawman !! i)).
  { apply lookup_lt_is_Some. rewrite <- Hlen. now apply lookup_lt_Some in Hi. }
  destruct Hsome as [slide Hs].
  destruct (Hat i slide Hs) as (selection & Hnew & Hfix).
  rewrite Hi in Hnew. injection Hnew as ->.
  exists (sel_layout_id selection). split; [reflexivity|]. split.
  - rewrite Z.add_0_l in Hfix. exact Hfix.
  - intros payload Hin. rewrite sent_payloads_app, Hsent1 in Hin.
    apply Hpay in Hin. unfold transform_presentation in Hin.
    destruct (transform_slides _ _ _ _ _ _ _) as [out|] eqn:Hout; cbn [bind] in Hin;
      [|discriminate].
    injection Hin as <-. cbn [p_title p_slides].
    destruct (transform_slides_shape content_schema_of today _ _ _ _ _ _ Hout)
      as [Hl Hshape].
    cbn [strawman' with_slides slides main_title] in *.
    split; [reflexivity|]. split; [now rewrite Hl|].
    destruct (Hshape i _ Hi) as (ts & Hts & Hlay). exists ts.
    split; [exact Hts|]. intros Hne. rewrite Hlay. unfold assigned_layout.
    cbn [assign_layout layout_id truthy].
    destruct (sel_layout_id selection); [contradiction | reflexivity].
Qed.

Lemma generated_deck_uses_assigned_layouts_witness :
  (exists response w' trace,
      run unit SampleWorld.deck_builder_down SampleWorld.clock
          (generate_strawman no_options quoted Sample.content_schema_of
                             Sample.today SampleWorld.get_full_url true
                             (with_slides SampleWorld.strawman three_slides)) tt
      = (Ok response, w', trace)
      /\ length (slides (strawman_of response)) = 3%nat)
  /\ run unit SampleWorld.deck_builder_down SampleWorld.clock
         (generate_strawman None quoted Sample.content_schema_of
                            Sample.today SampleWorld.get_full_url false
                            (with_slides SampleWorld.strawman three_slides)) tt
     = (Raise (Failure (str "'DirectorAgent' object has no attribute 'layout_schema_manager'")),
        tt, []).
Proof.
  split.
  - destruct (generated_deck_uses_assigned_layouts
                unit SampleWorld.deck_builder_down SampleWorld.clock no_options
                quoted Sample.content_schema_of Sample.today
                SampleWorld.get_full_url true
                (with_slides SampleWorld.strawman three_slides) tt) as [Hok _].
    destruct (Hok [] eq_refl) as (response & w' & trace & Hrun & Hlen & _).
    exists response, w', trace. split; [exact Hrun | exact Hlen].
  - destruct (generated_deck_uses_assigned_layouts
                unit SampleWorld.deck_builder_down SampleWorld.clock None
                quoted Sample.content_schema_of Sample.today
                SampleWorld.get_full_url false
                (with_slides SampleWorld.strawman three_slides) tt) as [_ Hraise].
    apply (Hraise _ eq_refl). exists 1%nat, Sample.four_points.
    split; reflexivity.
Defined.

(** X19.  In [CONTENT_GENERATION] with the deck builder enabled, when sending
    the enriched presentation fails and the placeholder payload is then
    accepted by the deck builder, the stage returns a response with
    [content_generated] false, the full URL of the second request and the
    slide count, and without the success counters; the second request is made
    in the state of the world the failed attempt left behind. *)
Theorem rendering_failure_recovers_when_retry_succeeds
        (world : Type) (handle : forall X, call X -> world -> result X * world)
        (clock : world -> Z * world)
        (content_schema_of : pystr -> result ContentSchema) (today : pystr)
        (get_full_url : pystr -> pystr)
        (strawman : PresentationStrawman) (e : EnrichedPresentationStrawman)
        (successful_slides failed_slides : Z) (w w1 w2 : world) (x : exn)
        (t1 : list event) (api_payload : Payload)
        (api_response : gmap pystr pystr) (url : pystr) :
  run world handle clock
      (_send_enriched_to_layout_architect content_schema_of today get_full_url e) w
  = (Raise x, w1, t1) ->
  transform_presentation content_schema_of today strawman None = Ok api_payload ->
  handle _ (CreatePresentation api_payload) w1 = (Ok api_response, w2) ->
  api_response !! str "url" = Some url ->
  exists d,
    run world handle clock
        (send_to_layout_architect content_schema_of today get_full_url true
                                  strawman e successful_slides failed_slides) w
    = (Ok (RespDict d), w2,
       t1 ++ [Event (CreatePresentation api_payload) (Ok api_response)])
    /\ d !! str "type" = Some (PStr (str "presentation_url"))
    /\ d !! str "content_generated" = Some (PBool false)
    /\ d !! str "url" = Some (PStr (get_full_url url))
    /\ d !! str "slide_count" = Some (PInt (len (slides strawman)))
    /\ d !! str "successful_slides" = None
    /\ d !! str "failed_slides" = None.
Proof.
  intros Hfail Hpayload Hanswer Hurl.
  rewrite (enriched_rendering_failure_falls_back
             world handle clock content_schema_of today get_full_url
             strawman e successful_slides failed_slides w w1 x t1 Hfail).
  rewrite send_placeholders_run, Hpayload, Hanswer, Hurl.
  eexists. split; [reflexivity|]. repeat split; now dict_lookup.
Qed.

Lemma rendering_failure_recovers_when_retry_succeeds_witness :
  exists d trace,
    run nat SampleWorld.deck_builder_recovers SampleWorld.clock
        (send_to_layout_architect
           Sample.content_schema_of Sample.today SampleWorld.get_full_url true
           SampleWorld.strawman
           (mkEnriched SampleWorld.strawman
                       [Sample.enriched (Legacy Sample.legacy_lines)] ∅)
           1 0) 0%nat
    = (Ok (RespDict d), 2%nat, trace)
    /\ d !! str "content_generated" = Some (PBool false)
    /\ d !! str "url" = Some (PStr (str "http://localhost:8000/p/deck-1")).
Proof.
  destruct (rendering_failure_recovers_when_retry_succeeds
              nat SampleWorld.deck_builder_recovers SampleWorld.clock
              Sample.content_schema_of Sample.today SampleWorld.get_full_url
              SampleWorld.strawman
              (mkEnriched SampleWorld.strawman
                          [Sample.enriched (Legacy Sample.legacy_lines)] ∅)
              1 0 0%nat 1%nat 2%nat
              (Failure (str "deck-builder timeout")) _ _
              (dict_of [(str "id", str "deck-1"); (str "url", str "/p/deck-1")])
              (str "/p/deck-1")
              eq_refl eq_refl eq_refl eq_refl)
    as (d & Hrun & _ & Hgen & Hurl & _).
  exists d. eexists. split; [exact Hrun|]. split; [exact Hgen | exact Hurl].
Defined.

(** ** The request sent to the text service *)

Section TextRequestFacts.

Import TextRequest.

Lemma scan_field_shift (total_chars : Z) (has_bullets has_numbered : bool)
      (field_spec : pyval) :
  scan_field (total_chars, has_bullets, has_numbered) field_spec
  = match scan_field (0, false, false) field_spec with
    | Some (chars, bullets, numbered) =>
        Some (total_chars + chars, has_bullets || bullets, has_numbered || numbered)
    | None => None
    end.
Proof.
  destruct field_spec as [| | | | |spec]; try reflexivity.
  cbn [scan_field get mbind option_bind].
  destruct (is_str _ (str "string") && dict_has (str "max_chars") spec).
  - destruct (as_int (dict_get spec (str "max_chars") PNone));
      cbn [mbind option_bind]; [|reflexivity].
    now rewrite Z.add_0_l, !orb_false_r.
  - destruct (is_str _ (str "array")).
    + destruct (as_int (dict_get spec (str "max_items") (PInt 5)));
        cbn [mbind option_bind]; [|reflexivity].
      destruct (as_int (dict_get spec (str "max_chars_per_item") (PInt 100)));
        cbn [mbind option_bind]; [|reflexivity].
      now rewrite Z.add_0_l, orb_true_r, orb_false_r.
    + destruct (is_str _ (str "array_of_objects")).
      * now rewrite Z.add_0_r, orb_false_r, orb_true_r.
      * now rewrite Z.add_0_r, !orb_false_r.
Qed.

Lemma is_str_type (spec : gmap pystr pyval) (type : pystr) :
  is_str (dict_get spec (str "type") PNone) type
  = bool_decide (type_of spec = Some type).
Proof.
  unfold dict_get, type_of.
  destruct (spec !! str "type") as [[| | |s| |]|]; try reflexivity.
  cbn [default from_option id is_str].
  destruct (decide (s = type)) as [-> | Hne].
  - now rewrite !bool_decide_eq_true_2.
  - rewrite !bool_decide_eq_false_2; [reflexivity | congruence | assumption].
Qed.

(** One iteration of the loop on a dictionary, by the type of the field. *)
Lemma scan_field_dict (spec : gmap pystr pyval) :
  scan_field (0, false, false) (PDict spec)
  = if bool_decide (type_of spec = Some (str "string")) then
      match spec !! str "max_chars" with
      | Some v => max_chars ← as_int v; Some (0 + max_chars, false, false)
      | None => Some (0, false, false)
      end
    else if bool_decide (type_of spec = Some (str "array")) then
      items ← as_int (default (PInt 5) (spec !! str "max_items"));
      chars_per ← as_int (default (PInt 100) (spec !! str "max_chars_per_item"));
      Some (0 + items * chars_per, true, false)
    else if bool_decide (type_of spec = Some (str "array_of_objects")) then
      Some (0, false, true)
    else Some (0, false, false).
Proof.
  cbn [scan_field get mbind option_bind]. rewrite !is_str_type.
  unfold dict_has, dict_get.
  destruct (decide (type_of spec = Some (str "string"))) as [Hs | Hs].
  - rewrite (bool_decide_eq_true_2 _ Hs).
    destruct (spec !! str "max_chars") as [v|].
    + rewrite bool_decide_eq_true_2 by eauto. reflexivity.
    + rewrite bool_decide_eq_false_2 by (intros [? H]; discriminate H).
      cbn [andb]. rewrite Hs. reflexivity.
  - rewrite (bool_decide_eq_false_2 _ Hs). reflexivity.
Qed.



(** The flags a field contributes say whether it is an array, or an array of
    objects. *)
Lemma scan_field_flags (item : pystr * pyval) (chars : Z) (bullets numbered : bool) :
  scan_field (0, false, false) (snd item) = Some (chars, bullets, numbered) ->
  bullets = has_type (str "array") item
  /\ numbered = has_type (str "array_of_objects") item.
Proof.
  unfold has_type. destruct (snd item) as [| | | | |spec]; try discriminate.
  rewrite scan_field_dict.
  destruct (decide (type_of spec = Some (str "string"))) as [Hs | Hs].
  - rewrite (bool_decide_eq_true_2 _ Hs), Hs.
    destruct (spec !! str "max_chars") as [v|].
    + destruct (as_int v); cbn [mbind option_bind]; [|discriminate].
      intros [= <- <- <-]. split; reflexivity.
    + intros [= <- <- <-]. split; reflexivity.
  - rewrite (bool_decide_eq_false_2 _ Hs).
    destruct (decide (type_of spec = Some (str "array"))) as [Ha | Ha].
    + rewrite (bool_decide_eq_true_2 _ Ha), Ha.
      destruct (as_int (default (PInt 5) _)); cbn [mbind option_bind];
        [|discriminate].
      destruct (as_int (default (PInt 100) _)); cbn [mbind option_bind];
        [|discriminate].
      intros [= <- <- <-]. split; reflexivity.
    + rewrite (bool_decide_eq_false_2 _ Ha).
      destruct (bool_decide (type_of spec = Some (str "array_of_objects")));
        intros [= <- <- <-]; split; reflexivity.
Qed.



Lemma scan_fields_cons (item : pystr * pyval) (items : list (pystr * pyval))
      (st : scan_state) :
  scan_fields (item :: items) st
  = match scan_field st (snd item) with
    | Some st' => scan_fields items st'
    | None => None
    end.
Proof.
  unfold scan_fields. cbn [fold_left mbind option_bind].
  destruct (scan_field st (snd item)) as [st'|]; [reflexivity|].
  induction items as [|i items IH]; [reflexivity | exact IH].
Qed.

Lemma scan_fields_flags (items : list (pystr * pyval))
      (total_chars : Z) (has_bullets has_numbered : bool)
      (total_chars' : Z) (has_bullets' has_numbered' : bool) :
  scan_fields items (total_chars, has_bullets, has_numbered)
  = Some (total_chars', has_bullets', has_numbered') ->
  has_bullets' = has_bullets || existsb (has_type (str "array")) items
  /\ has_numbered'
     = has_numbered || existsb (has_type (str "array_of_objects")) items.
Proof.
  revert total_chars has_bullets has_numbered.
  induction items as [|item items IH]; intros t b n.
  - intros [= <- <- <-]. cbn [existsb]. now rewrite !orb_false_r.
  - rewrite scan_fields_cons, scan_field_shift.
    destruct (scan_field (0, false, false) (snd item)) as [[[c b1] n1]|] eqn:Hc;
      [|discriminate].
    destruct (scan_field_flags _ _ _ _ Hc) as [-> ->]. intros H.
    apply IH in H as [-> ->]. cbn [existsb]. now rewrite !orb_assoc.
Qed.


End TextRequestFacts.

Section TextConstraintFacts.

Import TextRequest.




(** The format chosen after the loop is the format of the schema. *)
Lemma format_of_schema (fields : gmap pystr pyval)
      (total_chars : Z) (has_bullets has_numbered : bool) :
  scan_fields (map_to_list fields) (0, false, false)
  = Some (total_chars, has_bullets, has_numbered) ->
  format_of (total_chars, has_bullets, has_numbered) = schema_format fields.
Proof.
  intros H. destruct (scan_fields_flags _ _ _ _ _ _ _ H) as [-> ->].
  reflexivity.
Qed.


End TextConstraintFacts.


Tactic Notation "bind_some" hyp(H) "as" ident(x) ident(E) :=
  match type of H with
  | (?m ≫= _) = Some _ =>
      destruct m as [x|] eqn:E; cbn [mbind option_bind] in H; [|discriminate H]
  end.





(** X22.  Whenever [_convert_schema_request_to_v1] returns a request,
    [_transform_request] turns it into a service request without raising.
    The constraints of that service request are [word_count] 150, [tone]
    [professional] and the format that goes with the layout schema of the
    schema request ([bullet_points] for a schema with an array field, else
    [numbered_list] for one with an array of objects, else [paragraph]): the
    character budget [max_characters] computed from the schema is not part of
    what is sent.  The slide id, the slide number and the presentation id are
    those of the schema request. *)
Theorem schema_budget_never_reaches_text_service
        (py_str : pyval -> pystr) (schema_request v1_request : gmap pystr pyval) :
  TextRequest._convert_schema_request_to_v1 py_str schema_request
  = Some v1_request ->
  exists service_request fields,
    TextRequest._transform_request v1_request = Some service_request
    /\ schema_request !! str "layout_schema" = Some (PDict fields)
    /\ service_request !! str "constraints"
       = Some (PDict (dict_of [(str "word_count", PInt 150);
                               (str "tone", PStr (str "professional"));
                               (str "format", PStr (schema_format fields))]))
    /\ service_request !! str "slide_id" = schema_request !! str "slide_id"
    /\ service_request !! str "slide_number" = schema_request !! str "slide_number"
    /\ service_request !! str "presentation_id"
       = Some (dict_get schema_request (str "presentation_id")
                        (PStr (str "default"))).
Proof.
  unfold TextRequest._convert_schema_request_to_v1. intros H.
  bind_some H as guidance Hguidance.
  bind_some H as layout_schema Hschema.
  bind_some H as constraints Hconstraints.
  bind_some H as slide_id Hid.
  bind_some H as slide_number Hnumber.
  bind_some H as topics Htopics.
  bind_some H as narrative Hnarrative.
  bind_some H as context Hcontext.
  bind_some H as main_title Htitle.
  bind_some H as overall_theme Htheme.
  injection H as <-.
  unfold TextRequest._build_constraints_from_schema in Hconstraints.
  destruct layout_schema as [| | | | |fields]; try discriminate Hconstraints.
  unfold TextRequest.constraints_of_items in Hconstraints.
  bind_some Hconstraints as st Hscan. injection Hconstraints as <-.
  destruct st as [[total_chars has_bullets] has_numbered].
  generalize (py_str main_title ++ str " - " ++ py_str overall_theme).
  intros presentation_context.
  eexists _, fields. rewrite <- (format_of_schema _ _ _ _ Hscan).
  split.
  { unfold TextRequest._transform_request, TextRequest.constraints_of.
    repeat (unfold dict_get; dict_lookup;
            cbn [default from_option TextRequest.get mbind option_bind id]).
    reflexivity. }
  split; [reflexivity|]. split; [now dict_lookup|].
  split; [now dict_lookup|]. split; now dict_lookup.
Qed.

Lemma schema_budget_never_reaches_text_service_witness :
  exists service_request,
    (TextRequest._convert_schema_request_to_v1 (fun _ => []) sample_schema_request
     ≫= TextRequest._transform_request) = Some service_request
    /\ service_request !! str "constraints"
       = Some (PDict (dict_of [(str "word_count", PInt 150);
                               (str "tone", PStr (str "professional"));
                               (str "format", PStr (str "bullet_points"))])).
Proof.
  assert (Hv1 : is_Some (TextRequest._convert_schema_request_to_v1
                           (fun _ => []) sample_schema_request)).
  { vm_compute. eexists. reflexivity. }
  destruct Hv1 as [v1_request Hv1].
  destruct (schema_budget_never_reaches_text_service
              (fun _ => []) sample_schema_request v1_request Hv1)
    as (service_request & fields & Hsr & Hfields & Hc & _).
  exists service_request. rewrite Hv1. split; [exact Hsr|].
  rewrite Hc. injection Hfields as <-. reflexivity.
Defined.

(** ** Content generation when the text service is down *)

Section TextOutageFacts.

Variable world : Type.
Variable handle : forall X, call X -> world -> result X * world.
Variable clock : world -> Z * world.
Variable content_schema_of : pystr -> result ContentSchema.
Variable today : pystr.
Variable get_full_url : pystr -> pystr.

Abbreviation exec'' := (DirectorAgent.run world handle clock).

Hypothesis text_service_down :
  forall slide presentation session_id slide_number w,
  exists x, fst (handle _ (GenerateSlideText slide presentation session_id
                                             slide_number) w) = Raise x.

Lemma enrich_slides_all_fail (todo : list Slide) (idx : Z)
      (strawman : PresentationStrawman) (session_id : pystr)
      (es : list EnrichedSlide) (s f : Z) (w : world) :
  exists w' trace,
    exec'' (enrich_slides idx todo strawman session_id (es, s, f)) w
    = (Ok (es ++ map failed_entry todo, s, f + len todo), w', trace)
    /\ sent_payloads trace = [].
Proof using text_service_down.
  revert idx es s f w. induction todo as [|slide todo IH]; intros idx es s f w.
  - exists w, []. cbn [enrich_slides DirectorAgent.run map].
    change (len (@nil Slide)) with 0. now rewrite app_nil_r, Z.add_0_r.
  - cbn [enrich_slides]. rewrite run_pbind. unfold enrich_slide.
    rewrite run_try_except, run_pbind, run_await.
    destruct (text_service_down slide strawman session_id (idx + 1) w) as [x Hx].
    rewrite Hx. cbn [DirectorAgent.run].
    destruct (IH (idx + 1) (es ++ [failed_entry slide]) s (f + 1)
                 (snd (handle _ (GenerateSlideText slide strawman session_id
                                                   (idx + 1)) w)))
      as (w' & trace & Hrun & Hsent).
    unfold failed_entry in Hrun at 1. rewrite Hrun.
    eexists _, _. split.
    + rewrite <- app_assoc. cbn [app map].
      replace (f + 1 + len todo) with (f + len (slide :: todo))
        by (unfold len; simpl length; lia).
      reflexivity.
    + cbn [sent_payloads]. exact Hsent.
Qed.

End TextOutageFacts.

Section UnusableFacts.

Variable content_schema_of : pystr -> result ContentSchema.
Variable today : pystr.

Lemma transform_slide_depends_on_usable_content
      (slide : Slide) (layout_id : pystr) (presentation : PresentationStrawman)
      (e e' : option EnrichedSlide) :
  usable_content e = usable_content e' ->
  transform_slide content_schema_of today slide layout_id presentation e
  = transform_slide content_schema_of today slide layout_id presentation e'.
Proof.
  intros Hu. unfold transform_slide.
  destruct (content_schema_of layout_id) as [fields|]; [|reflexivity].
  cbn [bind]. now rewrite (mapping_depends_on_usable_content today _ _ _ _ _ _ Hu).
Qed.

(** Enriched slides without usable content change nothing in the payload. *)
Lemma transform_slides_all_unusable (todo : list Slide) (idx total_slides : Z)
      (strawman : PresentationStrawman) (e : EnrichedPresentationStrawman) :
  Forall (fun es => usable_content (Some es) = None) (enriched_slides e) ->
  0 <= idx -> idx + len todo <= len (enriched_slides e) ->
  transform_slides content_schema_of today idx total_slides todo strawman (Some e)
  = transform_slides content_schema_of today idx total_slides todo strawman None.
Proof.
  intros Hall. revert idx. induction todo as [|slide todo IH]; intros idx H0 Hlen;
    [reflexivity|].
  assert (Hlen' : idx + 1 + len todo <= len (enriched_slides e))
    by (unfold len in *; simpl length in Hlen; lia).
  cbn [transform_slides].
  destruct (enriched_slides e) as [|e0 rest] eqn:He.
  { cbn [bind]. rewrite IH; [reflexivity | lia | exact Hlen']. }
  destruct (lookup_lt_is_Some_2 (e0 :: rest) (Z.to_nat idx)) as [es Hes].
  { unfold len in Hlen'. pose proof (len_nonneg todo). unfold len in *. lia. }
  rewrite Hes. cbn [bind].
  rewrite (transform_slide_depends_on_usable_content _ _ _ (Some es) None).
  - rewrite IH; [reflexivity | lia | exact Hlen'].
  - rewrite Forall_forall in Hall. apply Hall.
    now apply list_elem_of_lookup_2 in Hes.
Qed.

End UnusableFacts.

Ltac sent_only Hsent :=
  let p := fresh "p" in
  intros p; rewrite ?sent_payloads_app, Hsent; cbn [app sent_payloads In];
  intuition congruence.

(** X23.  [CONTENT_GENERATION] with the deck builder enabled, when every
    text-generation call raises (the text service is disabled or down): every
    payload sent to the deck builder, in the first attempt or in the
    fallback, is the placeholder payload [transform_presentation] builds
    without enriched data; and a response that says [content_generated]
    true reports 0 successful slides and as many failed slides as the
    strawman has slides. *)
Theorem text_outage_renders_placeholders
        (world : Type) (handle : forall X, call X -> world -> result X * world)
        (clock : world -> Z * world)
        (content_schema_of : pystr -> result ContentSchema) (today : pystr)
        (get_full_url : pystr -> pystr) (total_seconds_between : Z -> Z -> pyval)
        (isoformat : Z -> pystr)
        (strawman : PresentationStrawman) (session_id : pystr) (w : world) :
  (forall slide presentation session_id slide_number w,
      exists x, fst (handle _ (GenerateSlideText slide presentation session_id
                                                 slide_number) w) = Raise x) ->
  exists out w' trace,
    run world handle clock
        (process_content_generation content_schema_of today get_full_url
                                    total_seconds_between isoformat true
                                    (Some strawman) session_id) w
    = (out, w', trace)
    /\ (forall payload,
           In payload (sent_payloads trace) ->
           transform_presentation content_schema_of today strawman None
           = Ok payload)
    /\ (forall d,
           out = Ok (RespDict d) ->
           d !! str "content_generated" = Some (PBool true) ->
           d !! str "successful_slides" = Some (PInt 0)
           /\ d !! str "failed_slides" = Some (PInt (len (slides strawman)))).
Proof.
  intros Hdown. unfold process_content_generation, build_enriched_presentation.
  rewrite run_pbind. rewrite run_utcnow_bind. rewrite run_pbind.
  destruct (enrich_slides_all_fail world handle clock Hdown (slides strawman) 0
              strawman session_id [] 0 0 (snd (clock w)))
    as (w1 & t1 & -> & Hsent1).
  rewrite run_utcnow_bind, run_utcnow_bind. cbn [DirectorAgent.run app].
  rewrite Z.add_0_l.
  set (e := mkEnriched strawman (map failed_entry (slides strawman)) _).
  set (w2 := snd (clock (snd (clock w1)))).
  assert (Hsame :
    transform_presentation content_schema_of today (original_strawman e) (Some e)
    = transform_presentation content_schema_of today strawman None).
  { unfold transform_presentation. cbn [original_strawman e].
    rewrite transform_slides_all_unusable; [reflexivity | | lia |].
    - unfold e. cbn [enriched_slides]. apply Forall_forall. intros es Hin.
      apply list_elem_of_In, in_map_iff in Hin. now destruct Hin as (s & <- & _).
    - unfold e. cbn [enriched_slides]. unfold len. rewrite length_map. lia. }
  unfold send_to_layout_architect. rewrite run_try_except, run_pbind.
  unfold _send_enriched_to_layout_architect at 1.
  rewrite run_pbind, run_lift, Hsame.
  destruct (transform_presentation content_schema_of today strawman None)
    as [payload | x] eqn:Hpayload.
  - rewrite run_pbind, run_await.
    destruct (handle _ (CreatePresentation payload) w2)
      as [[api_response | x] w3]; cbn [fst snd].
    + rewrite run_pbind, run_lift. unfold subscript.
      destruct (api_response !! str "url") as [url|].
      * cbn [DirectorAgent.run app]. eexists _, _, _. split; [reflexivity|]. split.
        -- sent_only Hsent1.
        -- intros d [= <-] _. split; now dict_lookup.
      * cbn [DirectorAgent.run app]. rewrite send_placeholders_run, Hpayload.
        destruct (handle _ (CreatePresentation payload) w3) as [[r2 | x2] w4].
        -- destruct (r2 !! str "url") as [url|];
             (eexists _, _, _; split; [reflexivity|]; split;
              [ sent_only Hsent1
              | ]).
           ++ intros d [= <-] Hgen. exfalso. revert Hgen. dict_lookup. discriminate.
           ++ intros d Hd. discriminate Hd.
        -- eexists _, _, _. split; [reflexivity|]. split.
           ++ sent_only Hsent1.
           ++ intros d Hd. discriminate Hd.
    + cbn [DirectorAgent.run app]. rewrite send_placeholders_run, Hpayload.
      destruct (handle _ (CreatePresentation payload) w3) as [[r2 | x2] w4].
      * destruct (r2 !! str "url") as [url|];
          (eexists _, _, _; split; [reflexivity|]; split;
           [ sent_only Hsent1
           | ]).
        -- intros d [= <-] Hgen. exfalso. revert Hgen. dict_lookup. discriminate.
        -- intros d Hd. discriminate Hd.
      * eexists _, _, _. split; [reflexivity|]. split.
        -- sent_only Hsent1.
        -- intros d Hd. discriminate Hd.
  - cbn [DirectorAgent.run app]. rewrite send_placeholders_run, Hpayload.
    eexists _, _, _. split; [reflexivity|]. split.
    + sent_only Hsent1.
    + intros d Hd. discriminate Hd.
Qed.

Lemma text_outage_renders_placeholders_witness :
  exists out w' trace,
    run nat (fun X (c : call X) (w : nat) =>
               match c in call X return result X * nat with
               | GenerateSlideText _ _ _ _ =>
                   (Raise (Failure (str "Text Service is not enabled")), w)
               | c' => SampleWorld.deck_builder_recovers _ c' w
               end)
        SampleWorld.clock SampleWorld.stage 1%nat
    = (out, w', trace)
    /\ (forall payload,
           In payload (sent_payloads trace) ->
           transform_presentation Sample.content_schema_of Sample.today
                                  SampleWorld.strawman None
           = Ok payload)
    /\ (forall d,
           out = Ok (RespDict d) ->
           d !! str "content_generated" = Some (PBool true) ->
           d !! str "successful_slides" = Some (PInt 0)
           /\ d !! str "failed_slides"
              = Some (PInt (len (slides SampleWorld.strawman)))).
Proof.
  apply (text_outage_renders_placeholders
           nat
           (fun X (c : call X) (w : nat) =>
              match c in call X return result X * nat with
              | GenerateSlideText _ _ _ _ =>
                  (Raise (Failure (str "Text Service is not enabled")), w)
              | c' => SampleWorld.deck_builder_recovers _ c' w
              end)
           SampleWorld.clock Sample.content_schema_of Sample.today
           SampleWorld.get_full_url SampleWorld.total_seconds_between
           SampleWorld.isoformat SampleWorld.strawman (str "session-1") 1%nat).
  intros slide presentation session_id slide_number w. eexists. reflexivity.
Defined.
